(** * Direct DMA mapping without an IOMMU (kernel/dma/direct.c)

    A shallow embedding of the allocation, synchronisation, mapping and mmap
    paths of [kernel/dma/direct.c].

    Conventions.
    - Integers of the C code ([u64], [dma_addr_t], [phys_addr_t], [size_t],
      [unsigned long], [gfp_t]) are values of [Z]; arithmetic that can leave
      the 64-bit range is wrapped with [u64] where the C code computes it
      (an LP64 build with a 64-bit [dma_addr_t]).
    - Calls into collaborators (page allocator, contiguous pool, cache
      maintenance, bounce pool, page tables) are recorded as [event]s.  A
      computation of type [M A] reads the history of events that happened
      before it and returns its value together with the events it emitted.
      Collaborators that return a value are oracles over that history, so
      they may behave as any deterministic stateful component.
    - Constants, macros and inline helpers of headers that are not part of
      this file are fields of [kconfig] (build and boot constants) and
      [arch_ops] (pure helpers). *)

From Stdlib Require Import ZArith List Bool Lia Sorted.
Import ListNotations.
Local Open Scope Z_scope.

(** ** Machine integers and flag words *)

Definition u64 (x : Z) : Z := x mod 2 ^ 64.

(** [flags & mask] is non-zero. *)
Definition tst (flags mask : Z) : bool := negb (Z.land flags mask =? 0).

(** [DMA_BIT_MASK(n)], a macro of linux/dma-mapping.h that direct.c uses
    and does not define: [((n) == 64) ? ~0ULL : ((1ULL << (n)) - 1)]. *)
Definition DMA_BIT_MASK (n : Z) : Z :=
  if n =? 64 then 2 ^ 64 - 1 else Z.shiftl 1 n - 1.

(** [min_not_zero(x, y)], a macro of linux/kernel.h that direct.c uses and
    does not define: [x == 0 ? y : (y == 0 ? x : min(x, y))], the minimum
    of the operands that are not zero. *)
Definition min_not_zero (x y : Z) : Z :=
  if x =? 0 then y else if y =? 0 then x else Z.min x y.

(** [DMA_MAPPING_ERROR] is [~(dma_addr_t)0]. *)
Definition DMA_MAPPING_ERROR : Z := 2 ^ 64 - 1.

Definition ENXIO : Z := 6.

(** ** Data *)

Inductive swiotlb_force_t := SWIOTLB_NORMAL | SWIOTLB_FORCE | SWIOTLB_NO_FORCE.

Definition swiotlb_force_eqb (a b : swiotlb_force_t) : bool :=
  match a, b with
  | SWIOTLB_NORMAL, SWIOTLB_NORMAL => true
  | SWIOTLB_FORCE, SWIOTLB_FORCE => true
  | SWIOTLB_NO_FORCE, SWIOTLB_NO_FORCE => true
  | _, _ => false
  end.

Inductive dma_data_direction :=
  DMA_BIDIRECTIONAL | DMA_TO_DEVICE | DMA_FROM_DEVICE | DMA_NONE.

Inductive dma_sync_target := SYNC_FOR_CPU | SYNC_FOR_DEVICE.

(** Build options ([IS_ENABLED(...)]), the boot-time globals [zone_dma_bits]
    and [swiotlb_force], and the flag bits of gfp.h and dma-mapping.h. *)
Record kconfig := {
  CONFIG_ZONE_DMA : bool;
  CONFIG_ZONE_DMA32 : bool;
  CONFIG_DMA_DIRECT_REMAP : bool;
  CONFIG_DMA_REMAP : bool;
  CONFIG_ARCH_HAS_UNCACHED_SEGMENT : bool;
  CONFIG_NEED_SG_DMA_LENGTH : bool;
  CONFIG_MMU : bool;
  zone_dma_bits : Z;
  swiotlb_force : swiotlb_force_t;
  PAGE_SHIFT : Z;
  GFP_DMA : Z;
  GFP_DMA32 : Z;
  __GFP_ZERO : Z;
  __GFP_NOWARN : Z;
  DMA_ATTR_NO_KERNEL_MAPPING : Z;
  DMA_ATTR_SKIP_CPU_SYNC : Z;
  DMA_ATTR_NO_WARN : Z;
  PAGE_KERNEL : Z
}.

(** [struct device], as far as this file reads it.  [dma_mask] is a pointer
    in C; [None] is the null pointer. *)
Record device := {
  dma_mask : option Z;
  coherent_dma_mask : Z;
  bus_dma_limit : Z;
  dev_is_dma_coherent : bool;
  force_dma_unencrypted : bool;
  dev_to_node : Z
}.

(** [struct page], seen through its accessors. *)
Record page := {
  page_to_phys : Z;
  PageHighMem : bool;
  page_address : Z
}.

(** [struct scatterlist].  The C field [length] is [sg_length] here (the
    name [length] is taken by lists). *)
Record scatterlist := {
  sg_page : page;
  offset : Z;
  sg_length : Z;
  dma_address : Z;
  dma_length : Z
}.

Definition set_dma_address (a : Z) (sg : scatterlist) : scatterlist :=
  {| sg_page := sg_page sg; offset := offset sg; sg_length := sg_length sg;
     dma_address := a; dma_length := dma_length sg |}.

Definition set_dma_length (n : Z) (sg : scatterlist) : scatterlist :=
  {| sg_page := sg_page sg; offset := offset sg; sg_length := sg_length sg;
     dma_address := dma_address sg; dma_length := n |}.

Record vm_area_struct := {
  vm_start : Z;
  vm_end : Z;
  vm_pgoff : Z;
  vm_page_prot : Z
}.

Definition set_vm_page_prot (p : Z) (vma : vm_area_struct) : vm_area_struct :=
  {| vm_start := vm_start vma; vm_end := vm_end vma; vm_pgoff := vm_pgoff vma;
     vm_page_prot := p |}.

(** What [dma_direct_alloc_pages] hands back as [void *]: a kernel virtual
    address, or the page pointer used as an opaque cookie. *)
Inductive cpu_addr :=
| KernelAddr (va : Z)
| PageCookie (p : page).

(** Pure helpers of other headers. *)
Record arch_ops := {
  __phys_to_dma : device -> Z -> Z;
  phys_to_dma : device -> Z -> Z;
  __dma_to_phys : device -> Z -> Z;
  dma_to_phys : device -> Z -> Z;
  dma_capable : device -> Z -> Z -> bool -> bool;
  is_swiotlb_buffer : Z -> bool;
  dma_alloc_need_uncached : device -> Z -> bool;
  gfpflags_allow_blocking : Z -> bool;
  get_order : Z -> Z;
  uncached_kernel_address : Z -> Z;
  dma_pgprot : device -> Z -> Z -> Z;
  vma_pages : vm_area_struct -> Z
}.

(** ** Calls into collaborators *)

Inductive event :=
| E_dma_alloc_contiguous (size gfp : Z) (r : option page)
| E_dma_free_contiguous (p : page) (size : Z)
| E_alloc_pages_node (node gfp order : Z) (r : option page)
| E_dma_alloc_from_pool (size gfp : Z) (r : option (Z * page))
| E_arch_dma_prep_coherent (p : page) (size : Z)
| E_dma_common_contiguous_remap (p : page) (size prot : Z) (r : option Z)
| E_memset (s c n : Z)
| E_set_memory_decrypted (addr numpages : Z)
| E_dev_info_rejecting_highmem
| E_arch_sync_dma_for_device (paddr size : Z) (dir : dma_data_direction)
| E_arch_sync_dma_for_cpu (paddr size : Z) (dir : dma_data_direction)
| E_arch_sync_dma_for_cpu_all
| E_swiotlb_tbl_sync_single (paddr size : Z) (dir : dma_data_direction)
    (target : dma_sync_target)
| E_swiotlb_tbl_unmap_single (paddr mapping_size alloc_size : Z)
    (dir : dma_data_direction) (attrs : Z)
| E_swiotlb_map (phys dma_addr size : Z) (dir : dma_data_direction)
    (attrs : Z) (r : bool * Z * Z)
| E_report_addr (dma_addr size : Z)
| E_dma_mmap_from_dev_coherent (vma : vm_area_struct) (cpu size : Z)
    (r : option Z)
| E_remap_pfn_range (vma : vm_area_struct) (addr pfn size prot : Z) (r : Z).

Definition trace := list event.

(** The collaborators that return a value, as oracles over the history.
    - [w_swiotlb_map] returns the boolean result and the values left in
      [*phys] and [*dma_addr].
    - [w_dma_mmap_from_dev_coherent] returns [Some ret] when the call
      returns non-zero (the request was handled, [ret] is its result). *)
Record world := {
  w_dma_alloc_contiguous : trace -> device -> Z -> Z -> option page;
  w_alloc_pages_node : trace -> Z -> Z -> Z -> option page;
  w_dma_alloc_from_pool : trace -> Z -> Z -> option (Z * page);
  w_dma_common_contiguous_remap : trace -> page -> Z -> Z -> option Z;
  w_swiotlb_map :
    trace -> device -> Z -> Z -> Z -> dma_data_direction -> Z -> bool * Z * Z;
  w_dma_mmap_from_dev_coherent :
    trace -> device -> vm_area_struct -> Z -> Z -> option Z;
  w_remap_pfn_range : trace -> vm_area_struct -> Z -> Z -> Z -> Z -> Z
}.

(** ** The trace monad *)

Definition M (A : Type) : Type := trace -> A * trace.

Definition ret {A} (a : A) : M A := fun _ => (a, []).

Definition bind {A B} (m : M A) (f : A -> M B) : M B :=
  fun h =>
    let (a, t1) := m h in
    let (b, t2) := f a (h ++ t1) in
    (b, t1 ++ t2).

Definition emit (e : event) : M unit := fun _ => (tt, [e]).

Definition ask {A} (oracle : trace -> A) (ev : A -> event) : M A :=
  fun h => let r := oracle h in (r, [ev r]).

Declare Scope trace_scope.
Delimit Scope trace_scope with M.
Notation "x <- m ;; k" := (bind m (fun x => k))
  (at level 61, m at next level, right associativity) : trace_scope.
Notation "m ;; k" := (bind m (fun _ => k))
  (at level 61, right associativity) : trace_scope.
Local Open Scope trace_scope.

Definition when (b : bool) (m : M unit) : M unit := if b then m else ret tt.

(** A loop written with [goto] runs on fuel; [OutOfFuel] is not a result of
    the C function. *)
Inductive outcome (A : Type) :=
| Returned (a : A)
| OutOfFuel.
Arguments Returned {A} a.
Arguments OutOfFuel {A}.

Section Direct.

Variable K : kconfig.
Variable A : arch_ops.
Variable W : world.

Definition PAGE_SIZE : Z := Z.shiftl 1 (PAGE_SHIFT K).

(** [PAGE_ALIGN(x)]: [(x + PAGE_SIZE - 1) & ~(PAGE_SIZE - 1)]. *)
Definition PAGE_ALIGN (x : Z) : Z :=
  Z.land (u64 (x + PAGE_SIZE - 1)) (u64 (Z.lnot (PAGE_SIZE - 1))).

Definition PHYS_PFN (x : Z) : Z := Z.shiftr x (PAGE_SHIFT K).

(** *** Collaborator calls *)

Definition dma_alloc_contiguous (dev : device) (size gfp : Z) : M (option page) :=
  ask (fun h => w_dma_alloc_contiguous W h dev size gfp)
      (E_dma_alloc_contiguous size gfp).

Definition dma_free_contiguous (p : page) (size : Z) : M unit :=
  emit (E_dma_free_contiguous p size).

Definition alloc_pages_node (node gfp order : Z) : M (option page) :=
  ask (fun h => w_alloc_pages_node W h node gfp order)
      (E_alloc_pages_node node gfp order).

Definition dma_alloc_from_pool (size gfp : Z) : M (option (Z * page)) :=
  ask (fun h => w_dma_alloc_from_pool W h size gfp)
      (E_dma_alloc_from_pool size gfp).

Definition arch_dma_prep_coherent (p : page) (size : Z) : M unit :=
  emit (E_arch_dma_prep_coherent p size).

Definition dma_common_contiguous_remap (p : page) (size prot : Z)
  : M (option Z) :=
  ask (fun h => w_dma_common_contiguous_remap W h p size prot)
      (E_dma_common_contiguous_remap p size prot).

Definition memset (s c n : Z) : M unit := emit (E_memset s c n).

Definition set_memory_decrypted (addr numpages : Z) : M unit :=
  emit (E_set_memory_decrypted addr numpages).

Definition arch_sync_dma_for_device (paddr size : Z) (dir : dma_data_direction)
  : M unit := emit (E_arch_sync_dma_for_device paddr size dir).

Definition arch_sync_dma_for_cpu (paddr size : Z) (dir : dma_data_direction)
  : M unit := emit (E_arch_sync_dma_for_cpu paddr size dir).

Definition arch_sync_dma_for_cpu_all : M unit :=
  emit E_arch_sync_dma_for_cpu_all.

Definition swiotlb_tbl_sync_single (paddr size : Z) (dir : dma_data_direction)
  (target : dma_sync_target) : M unit :=
  emit (E_swiotlb_tbl_sync_single paddr size dir target).

Definition swiotlb_tbl_unmap_single (paddr mapping_size alloc_size : Z)
  (dir : dma_data_direction) (attrs : Z) : M unit :=
  emit (E_swiotlb_tbl_unmap_single paddr mapping_size alloc_size dir attrs).

Definition swiotlb_map (dev : device) (phys dma_addr size : Z)
  (dir : dma_data_direction) (attrs : Z) : M (bool * Z * Z) :=
  ask (fun h => w_swiotlb_map W h dev phys dma_addr size dir attrs)
      (E_swiotlb_map phys dma_addr size dir attrs).

Definition report_addr (dma_addr size : Z) : M unit :=
  emit (E_report_addr dma_addr size).

Definition dma_mmap_from_dev_coherent (dev : device) (vma : vm_area_struct)
  (cpu size : Z) : M (option Z) :=
  ask (fun h => w_dma_mmap_from_dev_coherent W h dev vma cpu size)
      (E_dma_mmap_from_dev_coherent vma cpu size).

Definition remap_pfn_range (vma : vm_area_struct) (addr pfn size prot : Z)
  : M Z :=
  ask (fun h => w_remap_pfn_range W h vma addr pfn size prot)
      (E_remap_pfn_range vma addr pfn size prot).

(** *** Address translation and zone selection *)

Definition phys_to_dma_direct (dev : device) (phys : Z) : Z :=
  if force_dma_unencrypted dev then __phys_to_dma A dev phys
  else phys_to_dma A dev phys.

(** Returns the zone flag and the value stored in [*phys_limit]. *)
Definition __dma_direct_optimal_gfp_mask (dev : device) (dma_mask : Z)
  : Z * Z :=
  let dma_limit := min_not_zero dma_mask (bus_dma_limit dev) in
  let phys_limit :=
    if force_dma_unencrypted dev then __dma_to_phys A dev dma_limit
    else dma_to_phys A dev dma_limit in
  if phys_limit <=? DMA_BIT_MASK (zone_dma_bits K) then (GFP_DMA K, phys_limit)
  else if phys_limit <=? DMA_BIT_MASK 32 then (GFP_DMA32 K, phys_limit)
  else (0, phys_limit).

Definition dma_coherent_ok (dev : device) (phys size : Z) : bool :=
  u64 (phys_to_dma_direct dev phys + size - 1)
  <=? min_not_zero (coherent_dma_mask dev) (bus_dma_limit dev).

(** *** Page allocation with zone fallback *)

(** The code from the label [again:] to the [return]; [fuel] bounds the
    number of passes through the label. *)
Fixpoint alloc_again (fuel : nat) (dev : device) (size alloc_size node
  phys_limit gfp : Z) (pg : option page) : M (outcome (option page)) :=
  match fuel with
  | O => ret OutOfFuel
  | S fuel' =>
    pg <- match pg with
          | None => alloc_pages_node node gfp (get_order A alloc_size)
          | Some p => ret (Some p)
          end ;;
    match pg with
    | Some p =>
      if negb (dma_coherent_ok dev (page_to_phys p) size) then
        dma_free_contiguous p size ;;
        if CONFIG_ZONE_DMA32 K && (phys_limit <? DMA_BIT_MASK 64)
           && negb (tst gfp (Z.lor (GFP_DMA32 K) (GFP_DMA K)))
        then
          alloc_again fuel' dev size alloc_size node phys_limit
            (Z.lor gfp (GFP_DMA32 K)) None
        else if CONFIG_ZONE_DMA K && negb (tst gfp (GFP_DMA K)) then
          alloc_again fuel' dev size alloc_size node phys_limit
            (Z.lor (Z.land gfp (Z.lnot (GFP_DMA32 K))) (GFP_DMA K)) None
        else ret (Returned None)
      else ret (Returned (Some p))
    | None => ret (Returned None)
    end
  end.

Definition __dma_direct_alloc_pages (fuel : nat) (dev : device)
  (size gfp attrs : Z) : M (outcome (option page)) :=
  let alloc_size := PAGE_ALIGN size in
  let node := dev_to_node dev in
  let gfp := if tst attrs (DMA_ATTR_NO_WARN K)
             then Z.lor gfp (__GFP_NOWARN K) else gfp in
  let gfp := Z.land gfp (Z.lnot (__GFP_ZERO K)) in
  let '(zone, phys_limit) :=
    __dma_direct_optimal_gfp_mask dev (coherent_dma_mask dev) in
  let gfp := Z.lor gfp zone in
  pg <- dma_alloc_contiguous dev alloc_size gfp ;;
  pg <- match pg with
        | Some p =>
          if negb (dma_coherent_ok dev (page_to_phys p) size) then
            dma_free_contiguous p alloc_size ;; ret None
          else ret (Some p)
        | None => ret None
        end ;;
  alloc_again fuel dev size alloc_size node phys_limit gfp pg.

(** *** Coherent allocation *)

(** The code after the label [done:]: the bus address of the page is stored
    in [*dma_handle] and [ret] is returned. *)
Definition alloc_done (dev : device) (ret : cpu_addr) (p : page)
  : option (cpu_addr * Z) :=
  Some (ret,
        if force_dma_unencrypted dev then __phys_to_dma A dev (page_to_phys p)
        else phys_to_dma A dev (page_to_phys p)).

(** Returns [None] for [NULL]; otherwise the returned pointer and the value
    stored in [*dma_handle]. *)
Definition dma_direct_alloc_pages (fuel : nat) (dev : device)
  (size gfp attrs : Z) : M (outcome (option (cpu_addr * Z))) :=
  if CONFIG_DMA_DIRECT_REMAP K && dma_alloc_need_uncached A dev attrs
     && negb (gfpflags_allow_blocking A gfp)
  then
    r <- dma_alloc_from_pool (PAGE_ALIGN size) gfp ;;
    match r with
    | None => ret (Returned None)
    | Some (va, p) => ret (Returned (alloc_done dev (KernelAddr va) p))
    end
  else
    o <- __dma_direct_alloc_pages fuel dev size gfp attrs ;;
    match o with
    | OutOfFuel => ret OutOfFuel
    | Returned None => ret (Returned None)
    | Returned (Some p) =>
      if tst attrs (DMA_ATTR_NO_KERNEL_MAPPING K)
         && negb (force_dma_unencrypted dev)
      then
        when (negb (PageHighMem p)) (arch_dma_prep_coherent p size) ;;
        ret (Returned (alloc_done dev (PageCookie p) p))
      else if (CONFIG_DMA_DIRECT_REMAP K && dma_alloc_need_uncached A dev attrs)
              || (CONFIG_DMA_REMAP K && PageHighMem p)
      then
        arch_dma_prep_coherent p (PAGE_ALIGN size) ;;
        r <- dma_common_contiguous_remap p (PAGE_ALIGN size)
               (dma_pgprot A dev (PAGE_KERNEL K) attrs) ;;
        match r with
        | None => dma_free_contiguous p size ;; ret (Returned None)
        | Some va =>
          memset va 0 size ;;
          ret (Returned (alloc_done dev (KernelAddr va) p))
        end
      else if PageHighMem p then
        emit E_dev_info_rejecting_highmem ;;
        dma_free_contiguous p size ;;
        ret (Returned None)
      else
        let va := page_address p in
        when (force_dma_unencrypted dev)
          (set_memory_decrypted va (Z.shiftl 1 (get_order A size))) ;;
        memset va 0 size ;;
        if CONFIG_ARCH_HAS_UNCACHED_SEGMENT K
           && dma_alloc_need_uncached A dev attrs
        then
          arch_dma_prep_coherent p size ;;
          ret (Returned
                 (alloc_done dev (KernelAddr (uncached_kernel_address A va)) p))
        else ret (Returned (alloc_done dev (KernelAddr va) p))
    end.

(** *** Synchronisation *)

(** [for_each_sg(sgl, sg, nents, i)] over a body without a result: the
    first [nents] entries, in list order.  The caller passes a list of at
    least [nents] entries; on a shorter list the loop ends with the list. *)
Fixpoint for_each (body : scatterlist -> M unit) (l : list scatterlist)
  : M unit :=
  match l with
  | [] => ret tt
  | sg :: l' => body sg ;; for_each body l'
  end.

Definition for_each_sg (sgl : list scatterlist) (nents : nat)
  (body : scatterlist -> M unit) : M unit :=
  for_each body (firstn nents sgl).

Definition dma_direct_sync_single_for_device (dev : device) (addr size : Z)
  (dir : dma_data_direction) : M unit :=
  let paddr := dma_to_phys A dev addr in
  when (is_swiotlb_buffer A paddr)
    (swiotlb_tbl_sync_single paddr size dir SYNC_FOR_DEVICE) ;;
  when (negb (dev_is_dma_coherent dev))
    (arch_sync_dma_for_device paddr size dir).

Definition dma_direct_sync_sg_for_device (dev : device)
  (sgl : list scatterlist) (nents : nat) (dir : dma_data_direction) : M unit :=
  for_each_sg sgl nents (fun sg =>
    let paddr := dma_to_phys A dev (dma_address sg) in
    when (is_swiotlb_buffer A paddr)
      (swiotlb_tbl_sync_single paddr (sg_length sg) dir SYNC_FOR_DEVICE) ;;
    when (negb (dev_is_dma_coherent dev))
      (arch_sync_dma_for_device paddr (sg_length sg) dir)).

Definition dma_direct_sync_single_for_cpu (dev : device) (addr size : Z)
  (dir : dma_data_direction) : M unit :=
  let paddr := dma_to_phys A dev addr in
  when (negb (dev_is_dma_coherent dev))
    (arch_sync_dma_for_cpu paddr size dir ;; arch_sync_dma_for_cpu_all) ;;
  when (is_swiotlb_buffer A paddr)
    (swiotlb_tbl_sync_single paddr size dir SYNC_FOR_CPU).

Definition dma_direct_sync_sg_for_cpu (dev : device)
  (sgl : list scatterlist) (nents : nat) (dir : dma_data_direction) : M unit :=
  for_each_sg sgl nents (fun sg =>
    let paddr := dma_to_phys A dev (dma_address sg) in
    when (negb (dev_is_dma_coherent dev))
      (arch_sync_dma_for_cpu paddr (sg_length sg) dir) ;;
    when (is_swiotlb_buffer A paddr)
      (swiotlb_tbl_sync_single paddr (sg_length sg) dir SYNC_FOR_CPU)) ;;
  when (negb (dev_is_dma_coherent dev)) arch_sync_dma_for_cpu_all.

(** *** Streaming map and unmap *)

(** [sg_dma_len(sg)] of linux/scatterlist.h: [dma_length] when
    [CONFIG_NEED_SG_DMA_LENGTH], else [length]. *)
Definition sg_dma_len (sg : scatterlist) : Z :=
  if CONFIG_NEED_SG_DMA_LENGTH K then dma_length sg else sg_length sg.

(** The assignment [sg_dma_len(sg) = n]. *)
Definition set_sg_dma_len (n : Z) (sg : scatterlist) : scatterlist :=
  if CONFIG_NEED_SG_DMA_LENGTH K then set_dma_length n sg
  else {| sg_page := sg_page sg; offset := offset sg; sg_length := n;
          dma_address := dma_address sg; dma_length := dma_length sg |}.

Definition dma_direct_unmap_page (dev : device) (addr size : Z)
  (dir : dma_data_direction) (attrs : Z) : M unit :=
  let phys := dma_to_phys A dev addr in
  when (negb (tst attrs (DMA_ATTR_SKIP_CPU_SYNC K)))
    (dma_direct_sync_single_for_cpu dev addr size dir) ;;
  when (is_swiotlb_buffer A phys)
    (swiotlb_tbl_unmap_single phys size size dir attrs).

Definition dma_direct_unmap_sg (dev : device) (sgl : list scatterlist)
  (nents : nat) (dir : dma_data_direction) (attrs : Z) : M unit :=
  for_each_sg sgl nents (fun sg =>
    dma_direct_unmap_page dev (dma_address sg) (sg_dma_len sg) dir attrs).

Definition dma_direct_possible (dev : device) (dma_addr size : Z) : bool :=
  negb (swiotlb_force_eqb (swiotlb_force K) SWIOTLB_FORCE)
  && dma_capable A dev dma_addr size true.

Definition dma_direct_map_page (dev : device) (pg : page) (offset size : Z)
  (dir : dma_data_direction) (attrs : Z) : M Z :=
  let phys := u64 (page_to_phys pg + offset) in
  let dma_addr := phys_to_dma A dev phys in
  let sync (phys dma_addr : Z) : M Z :=
    when (negb (dev_is_dma_coherent dev)
          && negb (tst attrs (DMA_ATTR_SKIP_CPU_SYNC K)))
      (arch_sync_dma_for_device phys size dir) ;;
    ret dma_addr in
  if negb (dma_direct_possible dev dma_addr size) then
    r <- swiotlb_map dev phys dma_addr size dir attrs ;;
    let '(ok, phys', dma_addr') := r in
    if negb ok then
      report_addr dma_addr' size ;;
      ret DMA_MAPPING_ERROR
    else sync phys' dma_addr'
  else sync phys dma_addr.

(** The loop of [dma_direct_map_sg] from entry [i] on: [done] holds the
    entries [0..i-1] as already written, [todo] the entries still to map
    and [rest] the entries beyond [nents].  At [out_unmap] the first [i]
    entries of the list are unmapped. *)
Fixpoint map_sg_loop (dev : device) (nents : nat) (done todo rest
  : list scatterlist) (dir : dma_data_direction) (attrs : Z)
  : M (Z * list scatterlist) :=
  match todo with
  | [] => ret (Z.of_nat nents, done ++ rest)
  | sg :: todo' =>
    a <- dma_direct_map_page dev (sg_page sg) (offset sg) (sg_length sg)
           dir attrs ;;
    let sg := set_dma_address a sg in
    if a =? DMA_MAPPING_ERROR then
      let sgl := done ++ sg :: todo' ++ rest in
      dma_direct_unmap_sg dev sgl (length done) dir
        (Z.lor attrs (DMA_ATTR_SKIP_CPU_SYNC K)) ;;
      ret (0, sgl)
    else
      map_sg_loop dev nents (done ++ [set_sg_dma_len (sg_length sg) sg])
        todo' rest dir attrs
  end.

(** Returns the [int] result and the scatterlist as the call leaves it. *)
Definition dma_direct_map_sg (dev : device) (sgl : list scatterlist)
  (nents : nat) (dir : dma_data_direction) (attrs : Z)
  : M (Z * list scatterlist) :=
  map_sg_loop dev nents [] (firstn nents sgl) (skipn nents sgl) dir attrs.

(** *** mmap *)

(** Returns the [int] result and the vma as the call leaves it. *)
Definition dma_direct_mmap (dev : device) (vma : vm_area_struct)
  (cpu dma_addr size attrs : Z) : M (Z * vm_area_struct) :=
  if CONFIG_MMU K then
    let user_count := vma_pages A vma in
    let count := Z.shiftr (PAGE_ALIGN size) (PAGE_SHIFT K) in
    let pfn := PHYS_PFN (dma_to_phys A dev dma_addr) in
    let vma := set_vm_page_prot (dma_pgprot A dev (vm_page_prot vma) attrs) vma in
    r <- dma_mmap_from_dev_coherent dev vma cpu size ;;
    match r with
    | Some res => ret (res, vma)
    | None =>
      if (vm_pgoff vma >=? count)
         || (user_count >? u64 (count - vm_pgoff vma))
      then ret (- ENXIO, vma)
      else
        res <- remap_pfn_range vma (vm_start vma) (u64 (pfn + vm_pgoff vma))
                 (u64 (Z.shiftl user_count (PAGE_SHIFT K)))
                 (vm_page_prot vma) ;;
        ret (res, vma)
    end
  else ret (- ENXIO, vma).

End Direct.

(** ** Observations on traces *)

(** Zone classes, narrowest first. *)
Inductive zone_class := ZONE_DMA | ZONE_DMA32 | ZONE_NORMAL.

Definition zone_width (z : zone_class) : Z :=
  match z with ZONE_DMA => 0 | ZONE_DMA32 => 1 | ZONE_NORMAL => 2 end.

(** The zone class a gfp word asks for. *)
Definition gfp_zone_class (K : kconfig) (gfp : Z) : zone_class :=
  if tst gfp (GFP_DMA K) then ZONE_DMA
  else if tst gfp (GFP_DMA32 K) then ZONE_DMA32
  else ZONE_NORMAL.

(** [limit] is at most the highest address of the zone class (the widest
    class has no ceiling). *)
Definition zone_covers (K : kconfig) (z : zone_class) (limit : Z) : bool :=
  match z with
  | ZONE_DMA => limit <=? DMA_BIT_MASK (zone_dma_bits K)
  | ZONE_DMA32 => limit <=? DMA_BIT_MASK 32
  | ZONE_NORMAL => true
  end.

(** The zone classes asked of the general page allocator, in call order. *)
Definition page_allocator_zones (K : kconfig) (tr : trace) : list zone_class :=
  flat_map (fun e => match e with
                     | E_alloc_pages_node _ gfp _ _ => [gfp_zone_class K gfp]
                     | _ => []
                     end) tr.

(** The zone classes asked of the contiguous pool, in call order. *)
Definition contiguous_pool_zones (K : kconfig) (tr : trace) : list zone_class :=
  flat_map (fun e => match e with
                     | E_dma_alloc_contiguous _ gfp _ => [gfp_zone_class K gfp]
                     | _ => []
                     end) tr.

(** The ladder as the specification words it: every retry moves to a wider
    zone class than the attempt before it. *)
Definition escalates_wider (zs : list zone_class) : Prop :=
  forall i z1 z2,
    nth_error zs i = Some z1 -> nth_error zs (S i) = Some z2 ->
    zone_width z1 < zone_width z2.

(** The ladder as the code walks it: every retry moves to a narrower zone
    class than all attempts before it. *)
Definition narrows (zs : list zone_class) : Prop :=
  StronglySorted (fun z1 z2 => zone_width z2 < zone_width z1) zs.

Definition is_alloc_pages_node (e : event) : bool :=
  match e with E_alloc_pages_node _ _ _ _ => true | _ => false end.

Definition alloc_pages_node_calls (tr : trace) : nat :=
  length (filter is_alloc_pages_node tr).

Definition is_memset (e : event) : bool :=
  match e with E_memset _ _ _ => true | _ => false end.

Definition is_swiotlb_map (e : event) : bool :=
  match e with E_swiotlb_map _ _ _ _ _ _ => true | _ => false end.

Definition is_remap_pfn_range (e : event) : bool :=
  match e with E_remap_pfn_range _ _ _ _ _ _ => true | _ => false end.

(** Events that synchronise a buffer for the CPU. *)
Definition is_cpu_sync (e : event) : bool :=
  match e with
  | E_arch_sync_dma_for_cpu _ _ _ => true
  | E_arch_sync_dma_for_cpu_all => true
  | E_swiotlb_tbl_sync_single _ _ _ _ => true
  | _ => false
  end.

(** The gfp words handed to the two page allocators. *)
Definition allocator_gfps (tr : trace) : list Z :=
  flat_map (fun e => match e with
                     | E_alloc_pages_node _ gfp _ _ => [gfp]
                     | E_dma_alloc_contiguous _ gfp _ => [gfp]
                     | _ => []
                     end) tr.

(** The reachability test as the specification words it:
    [busAddress + size - 1 <= min(coherentMask, busLimit)]. *)
Definition isReachable_coherent_spec (dev : device) (busAddress size : Z)
  : bool :=
  busAddress + size - 1 <=? Z.min (coherent_dma_mask dev) (bus_dma_limit dev).

(** Every bounce copy-back for the CPU in [tr] comes after the cache
    invalidate of the same range, with nothing but the architecture-wide
    invalidate between the two. *)
Definition invalidate_precedes_copy_back (tr : trace) : Prop :=
  forall pre post p s d,
    tr = pre ++ E_swiotlb_tbl_sync_single p s d SYNC_FOR_CPU :: post ->
    exists pre' mid,
      pre = pre' ++ E_arch_sync_dma_for_cpu p s d :: mid /\
      Forall (fun e => e = E_arch_sync_dma_for_cpu_all) mid.

(** The for-CPU effects of one segment inside [dma_direct_sync_sg_for_cpu]. *)
Definition segment_sync_for_cpu (A : arch_ops) (dev : device)
  (dir : dma_data_direction) (sg : scatterlist) : trace :=
  let paddr := dma_to_phys A dev (dma_address sg) in
  (if dev_is_dma_coherent dev then []
   else [E_arch_sync_dma_for_cpu paddr (sg_length sg) dir])
  ++ (if is_swiotlb_buffer A paddr
      then [E_swiotlb_tbl_sync_single paddr (sg_length sg) dir SYNC_FOR_CPU]
      else []).

(** The events of unmapping one segment while unwinding a failed
    [dma_direct_map_sg]: the bounce slot is released if there is one, and
    nothing else happens. *)
Definition segment_unwind (K : kconfig) (A : arch_ops) (dev : device)
  (dir : dma_data_direction) (attrs : Z) (sg : scatterlist) : trace :=
  let phys := dma_to_phys A dev (dma_address sg) in
  if is_swiotlb_buffer A phys
  then [E_swiotlb_tbl_unmap_single phys (sg_dma_len K sg) (sg_dma_len K sg)
          dir (Z.lor attrs (DMA_ATTR_SKIP_CPU_SYNC K))]
  else [].

(** [maps_in_order h l done tr]: starting after history [h], the segments
    of [l] are mapped one after the other in list order, none fails, [done]
    is [l] with the bus addresses and lengths written, and [tr] is what the
    mappings emit. *)
Inductive maps_in_order (K : kconfig) (A : arch_ops) (W : world)
  (dev : device) (dir : dma_data_direction) (attrs : Z)
  : trace -> list scatterlist -> list scatterlist -> trace -> Prop :=
| maps_nil h : maps_in_order K A W dev dir attrs h [] [] []
| maps_cons h sg l a t1 done t2 :
    dma_direct_map_page K A W dev (sg_page sg) (offset sg) (sg_length sg)
      dir attrs h = (a, t1) ->
    a <> DMA_MAPPING_ERROR ->
    maps_in_order K A W dev dir attrs (h ++ t1) l done t2 ->
    maps_in_order K A W dev dir attrs h (sg :: l)
      (set_sg_dma_len K (sg_length sg) (set_dma_address a sg) :: done)
      (t1 ++ t2).

(** Scatter-gather synchronisation as the specification words it: the
    single-buffer synchronisation applied to each segment, in list order. *)
Definition sync_each_segment
  (single : Z -> Z -> dma_data_direction -> M unit)
  (sgl : list scatterlist) (nents : nat) (dir : dma_data_direction) : M unit :=
  for_each (fun sg => single (dma_address sg) (sg_length sg) dir)
    (firstn nents sgl).

(** How many more passes through [again:] a gfp word allows. *)
Definition retry_budget (K : kconfig) (gfp : Z) : nat :=
  if tst gfp (GFP_DMA K) then 0%nat
  else if tst gfp (Z.lor (GFP_DMA32 K) (GFP_DMA K)) then 1%nat
  else 2%nat.

(** ** A concrete machine

    A 4 KiB-page build with both restricted zones, no remap facility and
    no address offset between the CPU and the bus; flag values as in gfp.h
    and dma-mapping.h. *)

Definition linux_config : kconfig := {|
  CONFIG_ZONE_DMA := true;
  CONFIG_ZONE_DMA32 := true;
  CONFIG_DMA_DIRECT_REMAP := false;
  CONFIG_DMA_REMAP := false;
  CONFIG_ARCH_HAS_UNCACHED_SEGMENT := false;
  CONFIG_NEED_SG_DMA_LENGTH := true;
  CONFIG_MMU := true;
  zone_dma_bits := 24;
  swiotlb_force := SWIOTLB_NORMAL;
  PAGE_SHIFT := 12;
  GFP_DMA := 1;
  GFP_DMA32 := 4;
  __GFP_ZERO := 256;
  __GFP_NOWARN := 8192;
  DMA_ATTR_NO_KERNEL_MAPPING := 16;
  DMA_ATTR_SKIP_CPU_SYNC := 32;
  DMA_ATTR_NO_WARN := 256;
  PAGE_KERNEL := 0
|}.

(** The same build booted with [swiotlb=force]. *)
Definition forced_config : kconfig := {|
  CONFIG_ZONE_DMA := true;
  CONFIG_ZONE_DMA32 := true;
  CONFIG_DMA_DIRECT_REMAP := false;
  CONFIG_DMA_REMAP := false;
  CONFIG_ARCH_HAS_UNCACHED_SEGMENT := false;
  CONFIG_NEED_SG_DMA_LENGTH := true;
  CONFIG_MMU := true;
  zone_dma_bits := 24;
  swiotlb_force := SWIOTLB_FORCE;
  PAGE_SHIFT := 12;
  GFP_DMA := 1;
  GFP_DMA32 := 4;
  __GFP_ZERO := 256;
  __GFP_NOWARN := 8192;
  DMA_ATTR_NO_KERNEL_MAPPING := 16;
  DMA_ATTR_SKIP_CPU_SYNC := 32;
  DMA_ATTR_NO_WARN := 256;
  PAGE_KERNEL := 0
|}.

(** Bus addresses equal physical addresses; the bounce pool occupies
    [[2^26, 2^27)]. *)
Definition flat_arch : arch_ops := {|
  __phys_to_dma := fun _ p => p;
  phys_to_dma := fun _ p => p;
  __dma_to_phys := fun _ a => a;
  dma_to_phys := fun _ a => a;
  dma_capable := fun dev addr size _ =>
    match dma_mask dev with
    | None => false
    | Some m => u64 (addr + size - 1) <=? min_not_zero m (bus_dma_limit dev)
    end;
  is_swiotlb_buffer := fun p => (2 ^ 26 <=? p) && (p <? 2 ^ 27);
  dma_alloc_need_uncached := fun _ _ => false;
  gfpflags_allow_blocking := fun gfp => tst gfp 1024;
  get_order := fun size => Z.log2_up ((size + 4095) / 4096);
  uncached_kernel_address := fun va => va;
  dma_pgprot := fun _ prot _ => prot;
  vma_pages := fun vma => Z.shiftr (vm_end vma - vm_start vma) 12
|}.

Definition mk_page (phys : Z) (highmem : bool) : page :=
  {| page_to_phys := phys; PageHighMem := highmem;
     page_address := phys + 2 ^ 47 |}.

Definition mk_device (mask limit : Z) (coherent : bool) : device :=
  {| dma_mask := Some mask; coherent_dma_mask := mask; bus_dma_limit := limit;
     dev_is_dma_coherent := coherent; force_dma_unencrypted := false;
     dev_to_node := 0 |}.

(** No contiguous pool; the page allocator answers with a page at 1 TiB, at
    2 GiB for [GFP_DMA32] and at 1 MiB for [GFP_DMA]; the bounce pool has
    one free slot at [2^26] until it is used. *)
Definition zoned_world : world := {|
  w_dma_alloc_contiguous := fun _ _ _ _ => None;
  w_alloc_pages_node := fun _ _ gfp _ =>
    Some (mk_page (if tst gfp 1 then 2 ^ 20
                   else if tst gfp 4 then 2 ^ 31 else 2 ^ 40) false);
  w_dma_alloc_from_pool := fun _ _ _ => None;
  w_dma_common_contiguous_remap := fun _ _ _ _ => None;
  w_swiotlb_map := fun h _ phys dma_addr _ _ _ =>
    if existsb is_swiotlb_map h then (false, 2 ^ 64 - 1, dma_addr)
    else (true, 2 ^ 26, 2 ^ 26);
  w_dma_mmap_from_dev_coherent := fun _ _ _ _ _ => None;
  w_remap_pfn_range := fun _ _ _ _ _ _ => 0
|}.

(** A machine whose contiguous pool hands out a high-memory page at 3 GiB. *)
Definition cma_highmem_world : world := {|
  w_dma_alloc_contiguous := fun _ _ _ _ => Some (mk_page (3 * 2 ^ 30) true);
  w_alloc_pages_node := fun _ _ _ _ => None;
  w_dma_alloc_from_pool := fun _ _ _ => None;
  w_dma_common_contiguous_remap := fun _ _ _ _ => None;
  w_swiotlb_map := fun _ _ _ dma_addr _ _ _ => (false, 2 ^ 64 - 1, dma_addr);
  w_dma_mmap_from_dev_coherent := fun _ _ _ _ _ => None;
  w_remap_pfn_range := fun _ _ _ _ _ _ => 0
|}.

Definition mk_sg (phys len : Z) : scatterlist :=
  {| sg_page := mk_page phys false; offset := 0; sg_length := len;
     dma_address := 0; dma_length := 0 |}.

(** A segment as [dma_direct_map_sg] leaves it after mapping it at [addr]. *)
Definition mapped_sg (addr len : Z) : scatterlist :=
  {| sg_page := mk_page addr false; offset := 0; sg_length := len;
     dma_address := addr; dma_length := len |}.

Definition mk_vma (pgoff pages : Z) : vm_area_struct :=
  {| vm_start := 2 ^ 32; vm_end := 2 ^ 32 + pages * 4096; vm_pgoff := pgoff;
     vm_page_prot := 0 |}.

(** ** Further observations on traces *)

Definition opt_to_list {X} (o : option X) : list X :=
  match o with Some x => [x] | None => [] end.

(** The pages obtained from the contiguous pool and the page allocator, in
    call order. *)
Definition obtained_pages (tr : trace) : list page :=
  flat_map (fun e => match e with
                     | E_dma_alloc_contiguous _ _ r => opt_to_list r
                     | E_alloc_pages_node _ _ _ r => opt_to_list r
                     | _ => []
                     end) tr.

(** The pages handed to [dma_free_contiguous], in call order. *)
Definition released_pages (tr : trace) : list page :=
  flat_map (fun e => match e with
                     | E_dma_free_contiguous p _ => [p]
                     | _ => []
                     end) tr.

Definition is_arch_sync_for_device (e : event) : bool :=
  match e with E_arch_sync_dma_for_device _ _ _ => true | _ => false end.

Definition is_report_addr (e : event) : bool :=
  match e with E_report_addr _ _ => true | _ => false end.


(** Two scatterlist entries describe the same memory. *)
Definition same_segment (a b : scatterlist) : Prop :=
  sg_page a = sg_page b /\ offset a = offset b /\ sg_length a = sg_length b.

(** ** Further concrete data *)

(** A coherent device that reaches 32 address bits, and one that is not
    cache coherent. *)
Definition dev32 : device := mk_device (2 ^ 32 - 1) 0 true.
Definition dev32_noncoherent : device := mk_device (2 ^ 32 - 1) 0 false.

(** What [zoned_world] answers a [GFP_DMA32] request with. *)
Definition page_2g : page := mk_page (2 ^ 31) false.

(** ** The remaining entry points

    The functions below call collaborators that the paths above do not
    use.  Their events extend the core events; a computation of type
    [MX A] reads the extended history and returns the extended events it
    emitted.  A computation over core events runs inside [MX] through
    [lift] and sees the core events of the history. *)

(** [rounddown_pow_of_two_u64(x)], a helper that direct.c uses and does not
    define: the largest power of two that is at most [x], for [x > 0]. *)
Definition rounddown_pow_of_two_u64 (x : Z) : Z := 2 ^ Z.log2 x.

(** Globals, build options and pure helpers read by the remaining entry
    points. *)
Record kernel_env := {
  max_pfn : Z;
  CONFIG_DMA_NONCOHERENT_MMAP : bool;
  pfn_to_page : Z -> page;
  is_vmalloc_addr : Z -> bool;
  is_swiotlb_active : bool;
  dma_addressing_limited : device -> bool;
  swiotlb_max_mapping_size : device -> Z;
  SIZE_MAX : Z;
  GFP_KERNEL : Z
}.

Inductive xevent :=
| X_core (e : event)
| X_dma_free_from_pool (va size : Z) (r : bool)
| X_set_memory_encrypted (addr numpages : Z)
| X_vunmap (va : Z)
| X_arch_dma_alloc (size gfp attrs : Z) (r : option (cpu_addr * Z))
| X_arch_dma_free (size : Z) (cpu : cpu_addr) (dma_addr attrs : Z)
| X_sg_alloc_table (nents gfp : Z) (r : Z * list scatterlist).

Definition xtrace := list xevent.

Definition core_events (t : xtrace) : trace :=
  flat_map (fun e => match e with X_core e => [e] | _ => [] end) t.

(** The further collaborators that return a value.  [w_sg_alloc_table]
    returns the result code and the entries of the table it set up. *)
Record xworld := {
  w_dma_free_from_pool : xtrace -> Z -> Z -> bool;
  w_arch_dma_alloc :
    xtrace -> device -> Z -> Z -> Z -> option (cpu_addr * Z);
  w_sg_alloc_table : xtrace -> Z -> Z -> Z * list scatterlist
}.

Definition MX (T : Type) : Type := xtrace -> T * xtrace.

Definition retx {T} (a : T) : MX T := fun _ => (a, []).

Definition bindx {T U} (m : MX T) (f : T -> MX U) : MX U :=
  fun h =>
    let (a, t1) := m h in
    let (b, t2) := f a (h ++ t1) in
    (b, t1 ++ t2).

Definition emitx (e : xevent) : MX unit := fun _ => (tt, [e]).

Definition askx {T} (oracle : xtrace -> T) (ev : T -> xevent) : MX T :=
  fun h => let r := oracle h in (r, [ev r]).

Definition lift {T} (m : M T) : MX T :=
  fun h => let (a, t) := m (core_events h) in (a, map X_core t).

Definition whenx (b : bool) (m : MX unit) : MX unit :=
  if b then m else retx tt.

Declare Scope xtrace_scope.
Delimit Scope xtrace_scope with MX.
Notation "x <- m ;; k" := (bindx m (fun x => k))
  (at level 61, m at next level, right associativity) : xtrace_scope.
Notation "m ;; k" := (bindx m (fun _ => k))
  (at level 61, right associativity) : xtrace_scope.

Section Remaining.

Variable K : kconfig.
Variable A : arch_ops.
Variable W : world.
Variable E : kernel_env.
Variable X : xworld.

Local Open Scope xtrace_scope.

Definition dma_direct_to_page (dev : device) (dma_addr : Z) : page :=
  pfn_to_page E (PHYS_PFN K (dma_to_phys A dev dma_addr)).

(** The highest physical address of RAM, [(max_pfn - 1) << PAGE_SHIFT]. *)
Definition last_page_phys : Z :=
  u64 (Z.shiftl (max_pfn E - 1) (PAGE_SHIFT K)).

Definition dma_direct_get_required_mask (dev : device) : Z :=
  let max_dma := phys_to_dma_direct A dev last_page_phys in
  u64 (u64 (rounddown_pow_of_two_u64 max_dma * 2) - 1).

(** *** Freeing *)

Definition dma_free_from_pool (va size : Z) : MX bool :=
  askx (fun h => w_dma_free_from_pool X h va size)
       (X_dma_free_from_pool va size).

Definition set_memory_encrypted (addr numpages : Z) : MX unit :=
  emitx (X_set_memory_encrypted addr numpages).

Definition vunmap (va : Z) : MX unit := emitx (X_vunmap va).

(** A use of the [void *] as a kernel address.  A page cookie in that
    place is a caller error that C does not detect; the result is [None]
    then. *)
Definition as_address {T} (cpu : cpu_addr) (k : Z -> MX (option T))
  : MX (option T) :=
  match cpu with
  | KernelAddr va => k va
  | PageCookie _ => retx None
  end.

(** Returns [None] when the pointer is not of the kind the call uses it
    as. *)
Definition dma_direct_free_pages (dev : device) (size : Z) (cpu : cpu_addr)
  (dma_addr attrs : Z) : MX (option unit) :=
  let page_order := get_order A size in
  if tst attrs (DMA_ATTR_NO_KERNEL_MAPPING K)
     && negb (force_dma_unencrypted dev)
  then
    match cpu with
    | PageCookie p => lift (dma_free_contiguous p size) ;; retx (Some tt)
    | KernelAddr _ => retx None
    end
  else
    pooled <- (if CONFIG_DMA_DIRECT_REMAP K
               then as_address cpu (fun va =>
                      r <- dma_free_from_pool va (PAGE_ALIGN K size) ;;
                      retx (Some r))
               else retx (Some false)) ;;
    match pooled with
    | None => retx None
    | Some true => retx (Some tt)
    | Some false =>
      enc <- (if force_dma_unencrypted dev
              then as_address cpu (fun va =>
                     set_memory_encrypted va (Z.shiftl 1 page_order) ;;
                     retx (Some tt))
              else retx (Some tt)) ;;
      match enc with
      | None => retx None
      | Some _ =>
        unm <- (if CONFIG_DMA_REMAP K
                then as_address cpu (fun va =>
                       whenx (is_vmalloc_addr E va) (vunmap va) ;;
                       retx (Some tt))
                else retx (Some tt)) ;;
        match unm with
        | None => retx None
        | Some _ =>
          lift (dma_free_contiguous (dma_direct_to_page dev dma_addr) size) ;;
          retx (Some tt)
        end
      end
    end.

(** *** The entry points that fall back to the architecture *)

Definition arch_dma_alloc (dev : device) (size gfp attrs : Z)
  : MX (option (cpu_addr * Z)) :=
  askx (fun h => w_arch_dma_alloc X h dev size gfp attrs)
       (X_arch_dma_alloc size gfp attrs).

Definition arch_dma_free (size : Z) (cpu : cpu_addr) (dma_addr attrs : Z)
  : MX unit := emitx (X_arch_dma_free size cpu dma_addr attrs).

Definition dma_direct_alloc (fuel : nat) (dev : device) (size gfp attrs : Z)
  : MX (outcome (option (cpu_addr * Z))) :=
  if negb (CONFIG_ARCH_HAS_UNCACHED_SEGMENT K)
     && negb (CONFIG_DMA_DIRECT_REMAP K)
     && dma_alloc_need_uncached A dev attrs
  then r <- arch_dma_alloc dev size gfp attrs ;; retx (Returned r)
  else lift (dma_direct_alloc_pages K A W fuel dev size gfp attrs).

Definition dma_direct_free (dev : device) (size : Z) (cpu : cpu_addr)
  (dma_addr attrs : Z) : MX (option unit) :=
  if negb (CONFIG_ARCH_HAS_UNCACHED_SEGMENT K)
     && negb (CONFIG_DMA_DIRECT_REMAP K)
     && dma_alloc_need_uncached A dev attrs
  then arch_dma_free size cpu dma_addr attrs ;; retx (Some tt)
  else dma_direct_free_pages dev size cpu dma_addr attrs.

(** *** Resources, tables and capability queries *)

Definition dma_direct_map_resource (dev : device) (paddr size : Z)
  (dir : dma_data_direction) (attrs : Z) : M Z :=
  let dma_addr := paddr in
  if negb (dma_capable A dev dma_addr size false) then
    bind (report_addr dma_addr size) (fun _ => ret DMA_MAPPING_ERROR)
  else ret dma_addr.

Definition sg_alloc_table (nents gfp : Z) : MX (Z * list scatterlist) :=
  askx (fun h => w_sg_alloc_table X h nents gfp) (X_sg_alloc_table nents gfp).

(** [sg_set_page(sg, page, len, offset)] of linux/scatterlist.h on the
    first entry of a table. *)
Definition sg_set_page (sgl : list scatterlist) (p : page) (len off : Z)
  : list scatterlist :=
  match sgl with
  | sg :: rest =>
    {| sg_page := p; offset := off; sg_length := len;
       dma_address := dma_address sg; dma_length := dma_length sg |} :: rest
  | [] => []
  end.

(** Returns the [int] result and the entries of the table. *)
Definition dma_direct_get_sgtable (dev : device) (cpu : cpu_addr)
  (dma_addr size attrs : Z) : MX (Z * list scatterlist) :=
  let p := dma_direct_to_page dev dma_addr in
  r <- sg_alloc_table 1 (GFP_KERNEL E) ;;
  let '(res, sgl) := r in
  if res =? 0 then retx (res, sg_set_page sgl p (PAGE_ALIGN K size) 0)
  else retx (res, sgl).

Definition dma_direct_can_mmap (dev : device) : bool :=
  if CONFIG_MMU K
  then dev_is_dma_coherent dev || CONFIG_DMA_NONCOHERENT_MMAP E
  else false.

Definition dma_direct_supported (dev : device) (mask : Z) : bool :=
  let min_mask :=
    if CONFIG_ZONE_DMA K then DMA_BIT_MASK (zone_dma_bits K)
    else DMA_BIT_MASK 32 in
  let min_mask := Z.min (u64 min_mask) last_page_phys in
  mask >=? __phys_to_dma A dev min_mask.

Definition dma_direct_max_mapping_size (dev : device) : Z :=
  if is_swiotlb_active E
     && (dma_addressing_limited E dev
         || swiotlb_force_eqb (swiotlb_force K) SWIOTLB_FORCE)
  then swiotlb_max_mapping_size E dev
  else SIZE_MAX E.

End Remaining.

(** A machine with 4 GiB of RAM whose further collaborators decline: no
    buffer is in the atomic pool, the architecture has no allocator of its
    own, and tables of one entry are set up. *)
Definition flat_env : kernel_env := {|
  max_pfn := 2 ^ 20;
  CONFIG_DMA_NONCOHERENT_MMAP := false;
  pfn_to_page := fun pfn => mk_page (pfn * 4096) false;
  is_vmalloc_addr := fun _ => false;
  is_swiotlb_active := true;
  dma_addressing_limited := fun _ => false;
  swiotlb_max_mapping_size := fun _ => 2 ^ 18;
  SIZE_MAX := 2 ^ 64 - 1;
  GFP_KERNEL := 3264
|}.

Definition plain_xworld : xworld := {|
  w_dma_free_from_pool := fun _ _ _ => false;
  w_arch_dma_alloc := fun _ _ _ _ _ => None;
  w_sg_alloc_table := fun _ _ _ => (0, [mk_sg 0 0])
|}.

(** A build without MMU. *)
Definition nommu_config : kconfig := {|
  CONFIG_ZONE_DMA := true;
  CONFIG_ZONE_DMA32 := true;
  CONFIG_DMA_DIRECT_REMAP := false;
  CONFIG_DMA_REMAP := false;
  CONFIG_ARCH_HAS_UNCACHED_SEGMENT := false;
  CONFIG_NEED_SG_DMA_LENGTH := true;
  CONFIG_MMU := false;
  zone_dma_bits := 24;
  swiotlb_force := SWIOTLB_NORMAL;
  PAGE_SHIFT := 12;
  GFP_DMA := 1;
  GFP_DMA32 := 4;
  __GFP_ZERO := 256;
  __GFP_NOWARN := 8192;
  DMA_ATTR_NO_KERNEL_MAPPING := 16;
  DMA_ATTR_SKIP_CPU_SYNC := 32;
  DMA_ATTR_NO_WARN := 256;
  PAGE_KERNEL := 0
|}.

Definition is_arch_dma_call (e : xevent) : bool :=
  match e with
  | X_arch_dma_alloc _ _ _ _ => true
  | X_arch_dma_free _ _ _ _ => true
  | _ => false
  end.

Definition is_core (e : xevent) : bool :=
  match e with X_core _ => true | _ => false end.

(** The bus address of a segment under the direct translation, as
    [dma_direct_map_page] computes it. *)
Definition direct_address (A : arch_ops) (dev : device) (sg : scatterlist)
  : Z :=
  phys_to_dma A dev (u64 (page_to_phys (sg_page sg) + offset sg)).

(** ** The zone ladder, step by step *)

(** The zone class of the retry after a page of class [z] turned out to be
    out of reach, as the two guarded [goto again] decide it; [None] when
    the allocator gives up. *)
Definition next_zone (K : kconfig) (phys_limit : Z) (z : zone_class)
  : option zone_class :=
  match z with
  | ZONE_NORMAL =>
    if CONFIG_ZONE_DMA32 K && (phys_limit <? DMA_BIT_MASK 64)
    then Some ZONE_DMA32
    else if CONFIG_ZONE_DMA K then Some ZONE_DMA else None
  | ZONE_DMA32 => if CONFIG_ZONE_DMA K then Some ZONE_DMA else None
  | ZONE_DMA => None
  end.

(** [walks_ladder K A dev size phys_limit tr r]: in the trace [tr] of a call
    that returned [r], every answer of the page allocator is followed by
    what the ladder prescribes.  No page, or a page within reach, ends the
    call with that answer.  A page out of reach is released and either the
    page allocator is asked again, in the zone class [next_zone] gives, or
    the call ends with [NULL]. *)
Definition walks_ladder (K : kconfig) (A : arch_ops) (dev : device)
  (size phys_limit : Z) (tr : trace) (r : outcome (option page)) : Prop :=
  forall pre node g order ans post,
    tr = pre ++ E_alloc_pages_node node g order ans :: post ->
    match ans with
    | None => post = [] /\ r = Returned None
    | Some p =>
      if dma_coherent_ok A dev (page_to_phys p) size
      then post = [] /\ r = Returned (Some p)
      else
        match next_zone K phys_limit (gfp_zone_class K g) with
        | Some z' =>
          exists g' ans' post',
            post = E_dma_free_contiguous p size
                     :: E_alloc_pages_node node g' order ans' :: post' /\
            gfp_zone_class K g' = z'
        | None => post = [E_dma_free_contiguous p size] /\ r = Returned None
        end
    end.

(** ** Synchronisation for the CPU, as the specification orders it *)

(** Every bounce copy-back in [tr] comes after the whole architecture
    invalidation: the invalidate of the same range and the
    architecture-wide invalidate. *)
Definition whole_invalidation_precedes_copy_back (tr : trace) : Prop :=
  forall pre post p s d,
    tr = pre ++ E_swiotlb_tbl_sync_single p s d SYNC_FOR_CPU :: post ->
    In (E_arch_sync_dma_for_cpu p s d) pre /\
    In E_arch_sync_dma_for_cpu_all pre.

(** ** A machine with a per-device coherent pool *)

(** The pool takes every mmap request over and reports success. *)
Definition dev_coherent_world : world := {|
  w_dma_alloc_contiguous := fun _ _ _ _ => None;
  w_alloc_pages_node := fun _ _ _ _ => None;
  w_dma_alloc_from_pool := fun _ _ _ => None;
  w_dma_common_contiguous_remap := fun _ _ _ _ => None;
  w_swiotlb_map := fun _ _ _ dma_addr _ _ _ => (false, 2 ^ 64 - 1, dma_addr);
  w_dma_mmap_from_dev_coherent := fun _ _ _ _ _ => Some 0;
  w_remap_pfn_range := fun _ _ _ _ _ _ => 0
|}.

(** * Properties *)

(** ** Flag words *)

Lemma land_lor_same (x m : Z) : Z.land (Z.lor x m) m = m.
Proof.
  apply Z.bits_inj'; intros n _.
  rewrite Z.land_spec, Z.lor_spec.
  destruct (Z.testbit x n), (Z.testbit m n); reflexivity.
Qed.

Lemma tst_lor_same (x m : Z) : m <> 0 -> tst (Z.lor x m) m = true.
Proof.
  intros Hm. unfold tst. rewrite land_lor_same.
  destruct (Z.eqb_spec m 0); [contradiction | reflexivity].
Qed.

Lemma tst_lor_super (x m d : Z) :
  m <> 0 -> tst (Z.lor x m) (Z.lor m d) = true.
Proof.
  intros Hm. unfold tst.
  destruct (Z.eqb_spec (Z.land (Z.lor x m) (Z.lor m d)) 0) as [E | E];
    [exfalso | reflexivity].
  apply Hm.
  assert (Hb : Z.land (Z.land (Z.lor x m) (Z.lor m d)) m = m).
  { apply Z.bits_inj'; intros n _.
    rewrite !Z.land_spec, !Z.lor_spec.
    destruct (Z.testbit x n), (Z.testbit m n), (Z.testbit d n); reflexivity. }
  rewrite E, Z.land_0_l in Hb. congruence.
Qed.

Lemma tst_lor_mask_false (g a b : Z) :
  tst g (Z.lor a b) = false -> tst g a = false /\ tst g b = false.
Proof.
  unfold tst. rewrite Z.land_lor_distr_r.
  destruct (Z.eqb_spec (Z.lor (Z.land g a) (Z.land g b)) 0) as [E | E];
    [intros _ | discriminate].
  apply Z.lor_eq_0_iff in E. destruct E as [Ea Eb].
  rewrite Ea, Eb. split; reflexivity.
Qed.

Lemma tst_lor_other (g a b : Z) :
  Z.land a b = 0 -> tst (Z.lor g a) b = tst g b.
Proof.
  intros Hab. unfold tst.
  rewrite Z.land_lor_distr_l, Hab, Z.lor_0_r. reflexivity.
Qed.

(** ** Traces *)

Lemma alloc_pages_node_calls_app (t1 t2 : trace) :
  alloc_pages_node_calls (t1 ++ t2)
  = (alloc_pages_node_calls t1 + alloc_pages_node_calls t2)%nat.
Proof.
  unfold alloc_pages_node_calls. rewrite filter_app, length_app. reflexivity.
Qed.

Lemma page_allocator_zones_app (K : kconfig) (t1 t2 : trace) :
  page_allocator_zones K (t1 ++ t2)
  = page_allocator_zones K t1 ++ page_allocator_zones K t2.
Proof. unfold page_allocator_zones. apply flat_map_app. Qed.

Lemma bind_eq {X Y} (m : M X) (f : X -> M Y) h a t1 b t2 :
  m h = (a, t1) -> f a (h ++ t1) = (b, t2) -> bind m f h = (b, t1 ++ t2).
Proof. intros E1 E2. unfold bind. rewrite E1, E2. reflexivity. Qed.

(** Inversion of a [bind] that is known to evaluate to a pair. *)
Lemma bind_inv {X Y} (m : M X) (f : X -> M Y) h b t :
  bind m f h = (b, t) ->
  exists a t1 t2, m h = (a, t1) /\ f a (h ++ t1) = (b, t2) /\ t = t1 ++ t2.
Proof.
  unfold bind. destruct (m h) as [a t1] eqn:E1.
  destruct (f a (h ++ t1)) as [b' t2] eqn:E2.
  intros E. inversion E. subst. exists a, t1, t2. auto.
Qed.

Section Allocation.

Variable K : kconfig.
Variable A : arch_ops.
Variable W : world.

Hypothesis GFP_DMA_set : GFP_DMA K <> 0.
Hypothesis GFP_DMA32_set : GFP_DMA32 K <> 0.

Lemma retry_budget_dma32 (gfp : Z) :
  tst gfp (Z.lor (GFP_DMA32 K) (GFP_DMA K)) = false ->
  retry_budget K gfp = 2%nat /\
  (retry_budget K (Z.lor gfp (GFP_DMA32 K)) <= 1)%nat.
Proof.
  intros H. destruct (tst_lor_mask_false _ _ _ H) as [_ Hd].
  unfold retry_budget. rewrite Hd, H. split; [reflexivity |].
  rewrite (tst_lor_super gfp (GFP_DMA32 K) (GFP_DMA K) GFP_DMA32_set).
  destruct (tst (Z.lor gfp (GFP_DMA32 K)) (GFP_DMA K)); lia.
Qed.

Lemma retry_budget_dma (gfp : Z) :
  tst gfp (GFP_DMA K) = false ->
  (1 <= retry_budget K gfp)%nat /\
  retry_budget K
    (Z.lor (Z.land gfp (Z.lnot (GFP_DMA32 K))) (GFP_DMA K)) = 0%nat.
Proof.
  intros H. unfold retry_budget. rewrite H.
  rewrite (tst_lor_same _ _ GFP_DMA_set).
  split; [destruct (tst gfp (Z.lor _ _)); lia | reflexivity].
Qed.

(** With fuel above the retry budget the loop returns, after at most one
    call of the page allocator per pass, and more fuel changes nothing. *)
Lemma alloc_again_returns (fuel : nat) :
  forall dev size alloc_size node phys_limit gfp pg h,
    (retry_budget K gfp < fuel)%nat ->
    exists r tr,
      alloc_again K A W fuel dev size alloc_size node phys_limit gfp pg h
      = (Returned r, tr) /\
      (alloc_pages_node_calls tr <= S (retry_budget K gfp))%nat.
Proof.
  induction fuel as [| fuel IH]; intros dev size alloc_size node phys_limit
    gfp pg h Hfuel; [lia |].
  cbn [alloc_again].
  destruct (match pg with
            | Some p => ret (Some p)
            | None => alloc_pages_node W node gfp (get_order A alloc_size)
            end h) as [pg' t0] eqn:E0.
  assert (H0 : (alloc_pages_node_calls t0 <= 1)%nat).
  { destruct pg; inversion E0; cbn; lia. }
  destruct pg' as [p |].
  2:{ exists None, (t0 ++ []). split; [eapply bind_eq; [exact E0 | reflexivity] |].
      rewrite alloc_pages_node_calls_app. cbn. lia. }
  destruct (dma_coherent_ok A dev (page_to_phys p) size) eqn:Eok.
  { exists (Some p), (t0 ++ []).
    split; [eapply bind_eq; [exact E0 | cbn; rewrite Eok; reflexivity] |].
    rewrite alloc_pages_node_calls_app. cbn. lia. }
  destruct (CONFIG_ZONE_DMA32 K && (phys_limit <? DMA_BIT_MASK 64)
            && negb (tst gfp (Z.lor (GFP_DMA32 K) (GFP_DMA K)))) eqn:C1.
  - pose proof C1 as C1'. apply andb_prop in C1'. destruct C1' as [_ C1'].
    apply negb_true_iff in C1'.
    destruct (retry_budget_dma32 gfp C1') as [B0 B1].
    destruct (IH dev size alloc_size node phys_limit
                (Z.lor gfp (GFP_DMA32 K)) None
                ((h ++ t0) ++ [E_dma_free_contiguous p size]))
      as (r & tr & E & Hc); [lia |].
    exists r, (t0 ++ [E_dma_free_contiguous p size] ++ tr). split.
    + eapply bind_eq; [exact E0 |]. cbn beta iota. rewrite Eok. cbn [negb].
      eapply bind_eq; [reflexivity |]. exact E.
    + rewrite !alloc_pages_node_calls_app. cbn. lia.
  - destruct (CONFIG_ZONE_DMA K && negb (tst gfp (GFP_DMA K))) eqn:C2.
    + pose proof C2 as C2'. apply andb_prop in C2'. destruct C2' as [_ C2'].
      apply negb_true_iff in C2'.
      destruct (retry_budget_dma gfp C2') as [B0 B1].
      destruct (IH dev size alloc_size node phys_limit
                  (Z.lor (Z.land gfp (Z.lnot (GFP_DMA32 K))) (GFP_DMA K)) None
                  ((h ++ t0) ++ [E_dma_free_contiguous p size]))
        as (r & tr & E & Hc); [lia |].
      exists r, (t0 ++ [E_dma_free_contiguous p size] ++ tr). split.
      * eapply bind_eq; [exact E0 |]. cbn beta iota. rewrite Eok. cbn [negb].
        eapply bind_eq; [reflexivity |]. exact E.
      * rewrite !alloc_pages_node_calls_app. cbn. lia.
    + exists None, (t0 ++ [E_dma_free_contiguous p size] ++ []). split.
      * eapply bind_eq; [exact E0 |]. cbn beta iota. rewrite Eok. cbn [negb].
        eapply bind_eq; [reflexivity |]. reflexivity.
      * rewrite !alloc_pages_node_calls_app. cbn. lia.
Qed.

Lemma alloc_again_more_fuel (fuel : nat) :
  forall dev size alloc_size node phys_limit gfp pg h r tr,
    alloc_again K A W fuel dev size alloc_size node phys_limit gfp pg h
    = (Returned r, tr) ->
    forall fuel', (fuel <= fuel')%nat ->
    alloc_again K A W fuel' dev size alloc_size node phys_limit gfp pg h
    = (Returned r, tr).
Proof.
  induction fuel as [| fuel IH]; intros dev size alloc_size node phys_limit
    gfp pg h r tr E fuel' Hle; [discriminate E |].
  destruct fuel' as [| fuel']; [lia |].
  assert (Hle' : (fuel <= fuel')%nat) by lia.
  cbn [alloc_again] in *. unfold bind in *.
  destruct (match pg with
            | Some p => ret (Some p)
            | None => alloc_pages_node W node gfp (get_order A alloc_size)
            end h) as [[p |] t0]; [| exact E].
  destruct (negb (dma_coherent_ok A dev (page_to_phys p) size)); [| exact E].
  destruct (dma_free_contiguous p size (h ++ t0)) as [u t1].
  destruct (CONFIG_ZONE_DMA32 K && (phys_limit <? DMA_BIT_MASK 64)
            && negb (tst gfp (Z.lor (GFP_DMA32 K) (GFP_DMA K)))).
  - destruct (alloc_again K A W fuel dev size alloc_size node phys_limit
                (Z.lor gfp (GFP_DMA32 K)) None ((h ++ t0) ++ t1))
      as [[r' |] t2] eqn:E2; [| discriminate E].
    rewrite (IH _ _ _ _ _ _ _ _ _ _ E2 fuel' Hle'). exact E.
  - destruct (CONFIG_ZONE_DMA K && negb (tst gfp (GFP_DMA K))); [| exact E].
    destruct (alloc_again K A W fuel dev size alloc_size node phys_limit
                (Z.lor (Z.land gfp (Z.lnot (GFP_DMA32 K))) (GFP_DMA K)) None
                ((h ++ t0) ++ t1))
      as [[r' |] t2] eqn:E2; [| discriminate E].
    rewrite (IH _ _ _ _ _ _ _ _ _ _ E2 fuel' Hle'). exact E.
Qed.

Lemma retry_budget_le_2 (gfp : Z) : (retry_budget K gfp <= 2)%nat.
Proof.
  unfold retry_budget.
  destruct (tst gfp (GFP_DMA K)), (tst gfp (Z.lor (GFP_DMA32 K) (GFP_DMA K))); lia.
Qed.

(** C10: the retry loop of [__dma_direct_alloc_pages] terminates.  Three
    passes through [again:] are enough for every input: the call returns,
    the general page allocator was called at most three times, and any
    larger bound on the passes gives the same result and the same calls. *)
Theorem alloc_pages_retry_terminates :
  forall dev size gfp attrs h fuel,
    (3 <= fuel)%nat ->
    exists r tr,
      __dma_direct_alloc_pages K A W fuel dev size gfp attrs h
      = (Returned r, tr) /\
      __dma_direct_alloc_pages K A W 3 dev size gfp attrs h
      = (Returned r, tr) /\
      (alloc_pages_node_calls tr <= 3)%nat.
Proof.
  intros dev size gfp attrs h fuel Hfuel.
  destruct (__dma_direct_optimal_gfp_mask K A dev (coherent_dma_mask dev))
    as [zone phys_limit] eqn:Eopt.
  set (g := Z.lor (Z.land (if tst attrs (DMA_ATTR_NO_WARN K)
                           then Z.lor gfp (__GFP_NOWARN K) else gfp)
                          (Z.lnot (__GFP_ZERO K))) zone).
  destruct (dma_alloc_contiguous W dev (PAGE_ALIGN K size) g h)
    as [pg0 t0] eqn:E0.
  assert (H0 : alloc_pages_node_calls t0 = 0%nat).
  { unfold dma_alloc_contiguous, ask in E0. inversion E0. reflexivity. }
  destruct (match pg0 with
            | Some p =>
              if negb (dma_coherent_ok A dev (page_to_phys p) size)
              then dma_free_contiguous p (PAGE_ALIGN K size) ;; ret None
              else ret (Some p)
            | None => ret None
            end (h ++ t0)) as [pg1 t1] eqn:E1.
  assert (H1 : alloc_pages_node_calls t1 = 0%nat).
  { destruct pg0 as [p |]; [| inversion E1; reflexivity].
    destruct (negb _); inversion E1; reflexivity. }
  pose proof (retry_budget_le_2 g) as Hb.
  destruct (alloc_again_returns 3 dev size (PAGE_ALIGN K size)
              (dev_to_node dev) phys_limit g pg1 ((h ++ t0) ++ t1))
    as (r & tr & E & Hc); [lia |].
  assert (Hall : forall f, (3 <= f)%nat ->
            __dma_direct_alloc_pages K A W f dev size gfp attrs h
            = (Returned r, t0 ++ t1 ++ tr)).
  { intros f Hf. unfold __dma_direct_alloc_pages. rewrite Eopt.
    eapply bind_eq; [exact E0 |]. eapply bind_eq; [exact E1 |].
    exact (alloc_again_more_fuel 3 _ _ _ _ _ _ _ _ _ _ E f Hf). }
  exists r, (t0 ++ t1 ++ tr).
  split; [exact (Hall fuel Hfuel) |]. split; [apply Hall; lia |].
  rewrite !alloc_pages_node_calls_app. lia.
Qed.

End Allocation.

Lemma alloc_pages_retry_terminates_witness :
  GFP_DMA linux_config <> 0 /\ GFP_DMA32 linux_config <> 0 /\ (3 <= 5)%nat /\
  exists r tr,
    __dma_direct_alloc_pages linux_config flat_arch zoned_world 5
      (mk_device (2 ^ 33 - 1) 0 true) 4096 3264 0 [] = (Returned r, tr) /\
    __dma_direct_alloc_pages linux_config flat_arch zoned_world 3
      (mk_device (2 ^ 33 - 1) 0 true) 4096 3264 0 [] = (Returned r, tr) /\
    (alloc_pages_node_calls tr <= 3)%nat.
Proof.
  split; [discriminate |]. split; [discriminate |]. split; [lia |].
  apply (alloc_pages_retry_terminates linux_config flat_arch zoned_world);
    [discriminate | discriminate | lia].
Defined.

(** ** The zone ladder *)

Lemma tst_false_land (g m : Z) : tst g m = false -> Z.land g m = 0.
Proof.
  unfold tst. destruct (Z.eqb_spec (Z.land g m) 0); [auto | discriminate].
Qed.

Lemma tst_land_false (g n m : Z) : tst g m = false -> tst (Z.land g n) m = false.
Proof.
  intros H. apply tst_false_land in H. unfold tst.
  rewrite <- Z.land_assoc, (Z.land_comm n m), Z.land_assoc, H, Z.land_0_l.
  reflexivity.
Qed.

Lemma contiguous_pool_zones_app (K : kconfig) (t1 t2 : trace) :
  contiguous_pool_zones K (t1 ++ t2)
  = contiguous_pool_zones K t1 ++ contiguous_pool_zones K t2.
Proof. unfold contiguous_pool_zones. apply flat_map_app. Qed.

Lemma narrows_below (zs : list zone_class) (z0 : zone_class) (w : Z) :
  narrows zs ->
  Forall (fun z => zone_width z <= w) zs ->
  w < zone_width z0 ->
  narrows (z0 :: zs) /\
  Forall (fun z => zone_width z <= zone_width z0) (z0 :: zs) /\
  Forall (fun z => zone_width z <= zone_width z0) zs.
Proof.
  intros Hn Hf Hw.
  assert (Hlt : Forall (fun z => zone_width z < zone_width z0) zs).
  { eapply Forall_impl; [| exact Hf]. cbn. intros z Hz. lia. }
  assert (Hle : Forall (fun z => zone_width z <= zone_width z0) zs).
  { eapply Forall_impl; [| exact Hf]. cbn. intros z Hz. lia. }
  split; [| split].
  - constructor; assumption.
  - constructor; [lia | assumption].
  - assumption.
Qed.

Lemma tst_lor_both_false (g a b : Z) :
  tst g a = false -> tst g b = false -> tst g (Z.lor a b) = false.
Proof.
  intros Ha Hb. apply tst_false_land in Ha. apply tst_false_land in Hb.
  unfold tst. rewrite Z.land_lor_distr_r, Ha, Hb. reflexivity.
Qed.

Lemma walks_ladder_nil (K : kconfig) (A : arch_ops) (dev : device)
  (size pl : Z) (r : outcome (option page)) :
  walks_ladder K A dev size pl [] r.
Proof. intros pre node g order ans post E. destruct pre; discriminate E. Qed.

Lemma walks_ladder_skip (K : kconfig) (A : arch_ops) (dev : device)
  (size pl : Z) (e : event) (tr : trace) (r : outcome (option page)) :
  is_alloc_pages_node e = false ->
  walks_ladder K A dev size pl tr r ->
  walks_ladder K A dev size pl (e :: tr) r.
Proof.
  intros He H pre node g order ans post E.
  destruct pre as [| e' pre]; cbn in E.
  - inversion E; subst e. discriminate He.
  - inversion E; subst. eapply H; reflexivity.
Qed.

Lemma walks_ladder_request (K : kconfig) (A : arch_ops) (dev : device)
  (size pl node g order : Z) (ans : option page) (tr : trace)
  (r : outcome (option page)) :
  match ans with
  | None => tr = [] /\ r = Returned None
  | Some p =>
    if dma_coherent_ok A dev (page_to_phys p) size
    then tr = [] /\ r = Returned (Some p)
    else
      match next_zone K pl (gfp_zone_class K g) with
      | Some z' =>
        exists g' ans' post',
          tr = E_dma_free_contiguous p size
                 :: E_alloc_pages_node node g' order ans' :: post' /\
          gfp_zone_class K g' = z'
      | None => tr = [E_dma_free_contiguous p size] /\ r = Returned None
      end
  end ->
  walks_ladder K A dev size pl tr r ->
  walks_ladder K A dev size pl (E_alloc_pages_node node g order ans :: tr) r.
Proof.
  intros Hhead H pre node' g' order' ans' post E.
  destruct pre as [| e' pre]; cbn in E.
  - inversion E; subst. exact Hhead.
  - inversion E; subst. eapply H; reflexivity.
Qed.

Section ZoneLadder.

Variable K : kconfig.
Variable A : arch_ops.
Variable W : world.

Hypothesis GFP_DMA_set : GFP_DMA K <> 0.
Hypothesis GFP_DMA32_set : GFP_DMA32 K <> 0.
Hypothesis GFP_zones_disjoint : Z.land (GFP_DMA32 K) (GFP_DMA K) = 0.

Lemma zone_class_retry_dma32 (gfp : Z) :
  tst gfp (Z.lor (GFP_DMA32 K) (GFP_DMA K)) = false ->
  gfp_zone_class K gfp = ZONE_NORMAL /\
  gfp_zone_class K (Z.lor gfp (GFP_DMA32 K)) = ZONE_DMA32.
Proof.
  intros H. destruct (tst_lor_mask_false _ _ _ H) as [H32 Hd].
  unfold gfp_zone_class. rewrite Hd, H32. split; [reflexivity |].
  rewrite (tst_lor_other gfp _ _ GFP_zones_disjoint), Hd.
  rewrite (tst_lor_same _ _ GFP_DMA32_set). reflexivity.
Qed.

Lemma zone_class_retry_dma (gfp : Z) :
  tst gfp (GFP_DMA K) = false ->
  gfp_zone_class K (Z.lor (Z.land gfp (Z.lnot (GFP_DMA32 K))) (GFP_DMA K))
  = ZONE_DMA /\
  0 < zone_width (gfp_zone_class K gfp).
Proof.
  intros H. unfold gfp_zone_class.
  rewrite (tst_lor_same _ _ GFP_DMA_set), H.
  split; [reflexivity |]. destruct (tst gfp (GFP_DMA32 K)); cbn; lia.
Qed.

(** From [again:] on, every request to the page allocator is for a zone
    class no wider than the one of the current gfp word, and each request
    is for a narrower class than those before it. *)
Lemma alloc_again_narrows (fuel : nat) :
  forall dev size alloc_size node phys_limit gfp pg h o tr,
    alloc_again K A W fuel dev size alloc_size node phys_limit gfp pg h
    = (o, tr) ->
    narrows (page_allocator_zones K tr) /\
    Forall (fun z => zone_width z <= zone_width (gfp_zone_class K gfp))
      (page_allocator_zones K tr) /\
    contiguous_pool_zones K tr = [].
Proof.
  induction fuel as [| fuel IH]; intros dev size alloc_size node phys_limit
    gfp pg h o tr E.
  { inversion E. cbn. repeat split; constructor. }
  cbn [alloc_again] in E.
  apply bind_inv in E. destruct E as (pg' & t0 & t1 & E0 & E1 & ->).
  rewrite page_allocator_zones_app, contiguous_pool_zones_app.
  assert (H0 : (page_allocator_zones K t0 = [] \/
                page_allocator_zones K t0 = [gfp_zone_class K gfp]) /\
               contiguous_pool_zones K t0 = []).
  { destruct pg; inversion E0; cbn; auto. }
  destruct H0 as [H0 H0c]. rewrite H0c. cbn [app].
  assert (Hdone : forall t, page_allocator_zones K t = [] ->
            narrows (page_allocator_zones K t0 ++ page_allocator_zones K t) /\
            Forall (fun z => zone_width z <= zone_width (gfp_zone_class K gfp))
              (page_allocator_zones K t0 ++ page_allocator_zones K t)).
  { intros t Ht. rewrite Ht, app_nil_r.
    destruct H0 as [-> | ->]; split; repeat constructor; lia. }
  destruct pg' as [p |].
  2:{ inversion E1. destruct (Hdone [] eq_refl). auto. }
  destruct (dma_coherent_ok A dev (page_to_phys p) size); cbn [negb] in E1.
  { inversion E1. destruct (Hdone [] eq_refl). auto. }
  apply bind_inv in E1. destruct E1 as (u & tf & t2 & Ef & E2 & ->).
  inversion Ef; subst tf. clear Ef.
  rewrite page_allocator_zones_app, contiguous_pool_zones_app.
  change (page_allocator_zones K [E_dma_free_contiguous p size]) with
    (@nil zone_class).
  change (contiguous_pool_zones K [E_dma_free_contiguous p size]) with
    (@nil zone_class).
  cbn [app].
  assert (Hrec : forall gfp',
            alloc_again K A W fuel dev size alloc_size node phys_limit gfp'
              None ((h ++ t0) ++ [E_dma_free_contiguous p size]) = (o, t2) ->
            zone_width (gfp_zone_class K gfp')
            < zone_width (gfp_zone_class K gfp) ->
            narrows (page_allocator_zones K t0 ++ page_allocator_zones K t2) /\
            Forall (fun z => zone_width z <= zone_width (gfp_zone_class K gfp))
              (page_allocator_zones K t0 ++ page_allocator_zones K t2) /\
            contiguous_pool_zones K t2 = []).
  { intros gfp' E3 Hw.
    destruct (IH _ _ _ _ _ _ _ _ _ _ E3) as (Hn & Hf & Hc).
    destruct (narrows_below _ (gfp_zone_class K gfp) _ Hn Hf Hw)
      as (N1 & F1 & F2).
    destruct H0 as [-> | ->]; cbn [app]; auto. }
  destruct (CONFIG_ZONE_DMA32 K && (phys_limit <? DMA_BIT_MASK 64)
            && negb (tst gfp (Z.lor (GFP_DMA32 K) (GFP_DMA K)))) eqn:C1.
  - apply andb_prop in C1. destruct C1 as [_ C1]. apply negb_true_iff in C1.
    destruct (zone_class_retry_dma32 gfp C1) as [Z0 Z1].
    apply (Hrec _ E2). rewrite Z0, Z1. cbn. lia.
  - destruct (CONFIG_ZONE_DMA K && negb (tst gfp (GFP_DMA K))) eqn:C2.
    + apply andb_prop in C2. destruct C2 as [_ C2]. apply negb_true_iff in C2.
      destruct (zone_class_retry_dma gfp C2) as [Z0 Z1].
      apply (Hrec _ E2). rewrite Z0. cbn. lia.
    + inversion E2. destruct (Hdone [] eq_refl). auto.
Qed.

(** A pass through [again:] without a page in hand starts by asking the
    page allocator, with the gfp word of that pass. *)
Lemma alloc_again_first_request (fuel : nat) :
  forall dev size alloc_size node phys_limit gfp h o tr,
    alloc_again K A W (S fuel) dev size alloc_size node phys_limit gfp None h
    = (o, tr) ->
    exists ans post,
      tr = E_alloc_pages_node node gfp (get_order A alloc_size) ans :: post.
Proof.
  intros dev size alloc_size node phys_limit gfp h o tr E.
  cbn [alloc_again] in E.
  apply bind_inv in E. destruct E as (pg' & t0 & t1 & E0 & E1 & ->).
  inversion E0; subst. cbn [app]. eauto.
Qed.

(** A pass through [again:] with a page within reach returns it at once. *)
Lemma alloc_again_reachable (fuel : nat) :
  forall dev size alloc_size node phys_limit gfp p h,
    dma_coherent_ok A dev (page_to_phys p) size = true ->
    alloc_again K A W (S fuel) dev size alloc_size node phys_limit gfp
      (Some p) h
    = (Returned (Some p), []).
Proof.
  intros dev size alloc_size node phys_limit gfp p h Hok.
  cbn [alloc_again]. unfold bind. cbn. rewrite Hok. reflexivity.
Qed.

(** The zone class of the retry is the one [next_zone] gives. *)
Lemma next_zone_of_retry (phys_limit gfp : Z) :
  match next_zone K phys_limit (gfp_zone_class K gfp) with
  | Some z' =>
    if CONFIG_ZONE_DMA32 K && (phys_limit <? DMA_BIT_MASK 64)
       && negb (tst gfp (Z.lor (GFP_DMA32 K) (GFP_DMA K)))
    then z' = gfp_zone_class K (Z.lor gfp (GFP_DMA32 K))
    else CONFIG_ZONE_DMA K && negb (tst gfp (GFP_DMA K)) = true /\
         z' = gfp_zone_class K
                (Z.lor (Z.land gfp (Z.lnot (GFP_DMA32 K))) (GFP_DMA K))
  | None =>
    CONFIG_ZONE_DMA32 K && (phys_limit <? DMA_BIT_MASK 64)
    && negb (tst gfp (Z.lor (GFP_DMA32 K) (GFP_DMA K))) = false /\
    CONFIG_ZONE_DMA K && negb (tst gfp (GFP_DMA K)) = false
  end.
Proof.
  unfold gfp_zone_class at 1.
  destruct (tst gfp (GFP_DMA K)) eqn:Hd.
  { cbn [next_zone]. rewrite (Z.lor_comm (GFP_DMA32 K)).
    assert (Hs : tst gfp (Z.lor (GFP_DMA K) (GFP_DMA32 K)) = true).
    { unfold tst in *. rewrite Z.land_lor_distr_r.
      destruct (Z.eqb_spec (Z.land gfp (GFP_DMA K)) 0) as [E | E];
        [discriminate Hd |].
      destruct (Z.eqb_spec (Z.lor (Z.land gfp (GFP_DMA K))
                              (Z.land gfp (GFP_DMA32 K))) 0) as [E' | E'];
        [| reflexivity].
      apply Z.lor_eq_0_iff in E'. destruct E' as [E' _]. contradiction. }
    rewrite Hs. cbn [negb]. rewrite !andb_false_r. split; reflexivity. }
  destruct (tst gfp (GFP_DMA32 K)) eqn:H32.
  { cbn [next_zone].
    assert (Hs : tst gfp (Z.lor (GFP_DMA32 K) (GFP_DMA K)) = true).
    { unfold tst in *. rewrite Z.land_lor_distr_r.
      destruct (Z.eqb_spec (Z.land gfp (GFP_DMA32 K)) 0) as [E | E];
        [discriminate H32 |].
      destruct (Z.eqb_spec (Z.lor (Z.land gfp (GFP_DMA32 K))
                              (Z.land gfp (GFP_DMA K))) 0) as [E' | E'];
        [| reflexivity].
      apply Z.lor_eq_0_iff in E'. destruct E' as [E' _]. contradiction. }
    rewrite Hs. cbn [negb]. rewrite !andb_false_r, andb_true_r.
    destruct (CONFIG_ZONE_DMA K).
    - split; [reflexivity |].
      destruct (zone_class_retry_dma gfp Hd) as [-> _]. reflexivity.
    - split; reflexivity. }
  cbn [next_zone].
  rewrite (tst_lor_both_false _ _ _ H32 Hd). cbn [negb].
  rewrite !andb_true_r.
  destruct (CONFIG_ZONE_DMA32 K && (phys_limit <? DMA_BIT_MASK 64)).
  - destruct (zone_class_retry_dma32 gfp (tst_lor_both_false _ _ _ H32 Hd))
      as [_ ->]. reflexivity.
  - destruct (CONFIG_ZONE_DMA K).
    + split; [reflexivity |].
      destruct (zone_class_retry_dma gfp Hd) as [-> _]. reflexivity.
    + split; reflexivity.
Qed.

(** From [again:] on, with fuel above the retry budget, every answer of
    the page allocator is followed by what the ladder prescribes. *)
Lemma alloc_again_walks_ladder (fuel : nat) :
  forall dev size alloc_size node phys_limit gfp pg h o tr,
    alloc_again K A W fuel dev size alloc_size node phys_limit gfp pg h
    = (o, tr) ->
    (retry_budget K gfp < fuel)%nat ->
    walks_ladder K A dev size phys_limit tr o.
Proof.
  induction fuel as [| fuel IH]; intros dev size alloc_size node phys_limit
    gfp pg h o tr E Hfuel; [lia |].
  cbn [alloc_again] in E.
  apply bind_inv in E. destruct E as (pg' & t0 & t1 & E0 & E1 & ->).
  assert (Htail :
    walks_ladder K A dev size phys_limit t1 o /\
    match pg' with
    | None => t1 = [] /\ o = Returned None
    | Some p =>
      if dma_coherent_ok A dev (page_to_phys p) size
      then t1 = [] /\ o = Returned (Some p)
      else
        match next_zone K phys_limit (gfp_zone_class K gfp) with
        | Some z' =>
          exists g' ans' post',
            t1 = E_dma_free_contiguous p size
                   :: E_alloc_pages_node node g' (get_order A alloc_size) ans'
                   :: post' /\
            gfp_zone_class K g' = z'
        | None => t1 = [E_dma_free_contiguous p size] /\ o = Returned None
        end
    end).
  { destruct pg' as [p |].
    2:{ inversion E1. split; [apply walks_ladder_nil | auto]. }
    destruct (dma_coherent_ok A dev (page_to_phys p) size); cbn [negb] in E1.
    { inversion E1. split; [apply walks_ladder_nil | auto]. }
    apply bind_inv in E1. destruct E1 as (u & tf & t2 & Ef & E2 & ->).
    inversion Ef; subst tf. clear Ef. cbn [app].
    pose proof (next_zone_of_retry phys_limit gfp) as Hnext.
    destruct (CONFIG_ZONE_DMA32 K && (phys_limit <? DMA_BIT_MASK 64)
              && negb (tst gfp (Z.lor (GFP_DMA32 K) (GFP_DMA K)))) eqn:C1.
    - assert (Hg : tst gfp (Z.lor (GFP_DMA32 K) (GFP_DMA K)) = false).
      { apply andb_prop in C1. destruct C1 as [_ C1].
        apply negb_true_iff in C1. exact C1. }
      destruct (retry_budget_dma32 K GFP_DMA32_set gfp Hg) as [B0 B1].
      assert (Hfuel' : exists fuel', fuel = S fuel')
        by (destruct fuel; [lia | eauto]).
      destruct Hfuel' as [fuel' Efuel].
      pose proof E2 as E2'. rewrite Efuel in E2'.
      destruct (alloc_again_first_request _ _ _ _ _ _ _ _ _ _ E2')
        as (ans' & post' & Et2).
      assert (Hw : walks_ladder K A dev size phys_limit t2 o).
      { apply (IH _ _ _ _ _ _ _ _ _ _ E2). lia. }
      split; [apply walks_ladder_skip; [reflexivity | exact Hw] |].
      destruct (next_zone K phys_limit (gfp_zone_class K gfp)) as [z' |];
        [| destruct Hnext as [Hn _]; discriminate Hn].
      exists (Z.lor gfp (GFP_DMA32 K)), ans', post'.
      rewrite Et2. split; [reflexivity | symmetry; exact Hnext].
    - destruct (CONFIG_ZONE_DMA K && negb (tst gfp (GFP_DMA K))) eqn:C2.
      + assert (Hg : tst gfp (GFP_DMA K) = false).
        { apply andb_prop in C2. destruct C2 as [_ C2].
          apply negb_true_iff in C2. exact C2. }
        destruct (retry_budget_dma K GFP_DMA_set gfp Hg) as [B0 B1].
        assert (Hfuel' : exists fuel', fuel = S fuel')
          by (destruct fuel; [lia | eauto]).
        destruct Hfuel' as [fuel' Efuel].
        pose proof E2 as E2'. rewrite Efuel in E2'.
        destruct (alloc_again_first_request _ _ _ _ _ _ _ _ _ _ E2')
          as (ans' & post' & Et2).
        assert (Hw : walks_ladder K A dev size phys_limit t2 o).
        { apply (IH _ _ _ _ _ _ _ _ _ _ E2). lia. }
        split; [apply walks_ladder_skip; [reflexivity | exact Hw] |].
        destruct (next_zone K phys_limit (gfp_zone_class K gfp)) as [z' |];
          [| destruct Hnext as [_ Hn]; discriminate Hn].
        exists (Z.lor (Z.land gfp (Z.lnot (GFP_DMA32 K))) (GFP_DMA K)),
          ans', post'.
        rewrite Et2. split; [reflexivity |].
        destruct Hnext as [_ Hn]. symmetry. exact Hn.
      + inversion E2.
        split; [apply walks_ladder_skip;
                [reflexivity | apply walks_ladder_nil] |].
        destruct (next_zone K phys_limit (gfp_zone_class K gfp)) as [z' |];
          [| auto].
        destruct Hnext as [Hn _]. discriminate Hn. }
  destruct Htail as [Hw Hhead].
  destruct pg as [p0 |].
  - inversion E0; subst. cbn [app]. exact Hw.
  - inversion E0; subst. cbn [app].
    apply walks_ladder_request; [exact Hhead | exact Hw].
Qed.

Hypothesis GFP_NOWARN_no_zone :
  Z.land (__GFP_NOWARN K) (Z.lor (GFP_DMA32 K) (GFP_DMA K)) = 0.

(** C1, as the code has it: within one call of [__dma_direct_alloc_pages]
    the first zone class asked for, of the contiguous pool and then of the
    page allocator, is the narrowest one that covers the physical limit.
    When the page allocator returns a page that fails the coherent
    reachability check, the page is released and the page allocator is
    asked again in the next narrower class the build has ([next_zone]:
    from the unrestricted class to [ZONE_DMA32] if it is configured and
    the physical limit is below 64 bits, else to [ZONE_DMA] if it is
    configured); with no narrower class left the call returns [NULL].  A
    reachable page or no page ends the call.  So every request to the page
    allocator is for a class no wider than the first, and each retry asks
    for a strictly narrower class than all requests before it. *)
Theorem zone_ladder_narrows :
  forall fuel dev size gfp attrs h,
    tst gfp (Z.lor (GFP_DMA32 K) (GFP_DMA K)) = false ->
    let out := __dma_direct_alloc_pages K A W fuel dev size gfp attrs h in
    let tr := snd out in
    let phys_limit :=
      snd (__dma_direct_optimal_gfp_mask K A dev (coherent_dma_mask dev)) in
    exists z0,
      contiguous_pool_zones K tr = [z0] /\
      zone_covers K z0 phys_limit = true /\
      (forall z, zone_width z < zone_width z0 ->
                 zone_covers K z phys_limit = false) /\
      Forall (fun z => zone_width z <= zone_width z0)
        (page_allocator_zones K tr) /\
      narrows (page_allocator_zones K tr) /\
      (exists g0 ans rest,
         tr = E_dma_alloc_contiguous (PAGE_ALIGN K size) g0 ans :: rest /\
         gfp_zone_class K g0 = z0 /\
         ((1 <= fuel)%nat ->
          match ans with
          | Some p =>
            if dma_coherent_ok A dev (page_to_phys p) size
            then rest = [] /\ fst out = Returned (Some p)
            else
              exists ans' post,
                rest = E_dma_free_contiguous p (PAGE_ALIGN K size)
                         :: E_alloc_pages_node (dev_to_node dev) g0
                              (get_order A (PAGE_ALIGN K size)) ans'
                         :: post
          | None =>
            exists ans' post,
              rest = E_alloc_pages_node (dev_to_node dev) g0
                       (get_order A (PAGE_ALIGN K size)) ans' :: post
          end)) /\
      ((3 <= fuel)%nat ->
       walks_ladder K A dev size phys_limit tr (fst out)).
Proof.
  intros fuel dev size gfp attrs h Hgfp out tr phys_limit.
  set (g1 := Z.land (if tst attrs (DMA_ATTR_NO_WARN K)
                     then Z.lor gfp (__GFP_NOWARN K) else gfp)
                    (Z.lnot (__GFP_ZERO K))).
  assert (Hg1 : tst g1 (Z.lor (GFP_DMA32 K) (GFP_DMA K)) = false).
  { subst g1. apply tst_land_false.
    destruct (tst attrs (DMA_ATTR_NO_WARN K)); [| exact Hgfp].
    rewrite (tst_lor_other gfp _ _ GFP_NOWARN_no_zone). exact Hgfp. }
  destruct (tst_lor_mask_false _ _ _ Hg1) as [Hg32 Hgd].
  destruct (__dma_direct_optimal_gfp_mask K A dev (coherent_dma_mask dev))
    as [zone pl] eqn:Eopt.
  assert (Hzone : zone_covers K (gfp_zone_class K (Z.lor g1 zone)) pl = true /\
                  forall z, zone_width z
                            < zone_width (gfp_zone_class K (Z.lor g1 zone)) ->
                            zone_covers K z pl = false).
  { unfold __dma_direct_optimal_gfp_mask in Eopt.
    set (lim := if force_dma_unencrypted dev then _ else _) in Eopt.
    destruct (lim <=? DMA_BIT_MASK (zone_dma_bits K)) eqn:L1.
    - inversion Eopt; subst zone pl. unfold gfp_zone_class.
      rewrite (tst_lor_same _ _ GFP_DMA_set). cbn.
      split; [exact L1 | intros z Hz; destruct z; cbn in Hz; lia].
    - destruct (lim <=? DMA_BIT_MASK 32) eqn:L2.
      + inversion Eopt; subst zone pl. unfold gfp_zone_class.
        rewrite (tst_lor_other g1 _ _ GFP_zones_disjoint), Hgd.
        rewrite (tst_lor_same _ _ GFP_DMA32_set). cbn.
        split; [exact L2 |].
        intros z Hz; destruct z; cbn in Hz; try lia. exact L1.
      + inversion Eopt; subst zone pl. rewrite Z.lor_0_r.
        unfold gfp_zone_class. rewrite Hgd, Hg32. cbn.
        split; [reflexivity |].
        intros z Hz; destruct z; cbn in Hz; try lia; assumption. }
  destruct Hzone as [Hcov Hnarrowest].
  destruct (dma_alloc_contiguous W dev (PAGE_ALIGN K size) (Z.lor g1 zone) h)
    as [pg0 t0] eqn:E0.
  destruct (match pg0 with
            | Some p =>
              if negb (dma_coherent_ok A dev (page_to_phys p) size)
              then dma_free_contiguous p (PAGE_ALIGN K size) ;; ret None
              else ret (Some p)
            | None => ret None
            end (h ++ t0)) as [pg1 t1] eqn:E1.
  destruct (alloc_again K A W fuel dev size (PAGE_ALIGN K size)
              (dev_to_node dev) pl (Z.lor g1 zone) pg1 ((h ++ t0) ++ t1))
    as [o t2] eqn:E2.
  assert (Hrun : __dma_direct_alloc_pages K A W fuel dev size gfp attrs h
                 = (o, t0 ++ t1 ++ t2)).
  { unfold __dma_direct_alloc_pages. rewrite Eopt.
    eapply bind_eq; [exact E0 |]. eapply bind_eq; [exact E1 | exact E2]. }
  subst tr out phys_limit. rewrite Hrun. cbn [fst snd].
  destruct (alloc_again_narrows _ _ _ _ _ _ _ _ _ _ _ E2) as (Hn & Hf & Hc).
  assert (Ht0 : t0 = [E_dma_alloc_contiguous (PAGE_ALIGN K size)
                        (Z.lor g1 zone) pg0]).
  { inversion E0; subst; reflexivity. }
  assert (Hwalk : (3 <= fuel)%nat ->
                  walks_ladder K A dev size pl (t0 ++ t1 ++ t2) o).
  { intros Hfuel. rewrite Ht0. cbn [app].
    apply walks_ladder_skip; [reflexivity |].
    assert (Hw : walks_ladder K A dev size pl t2 o).
    { apply (alloc_again_walks_ladder _ _ _ _ _ _ _ _ _ _ _ E2).
      pose proof (retry_budget_le_2 K (Z.lor g1 zone)). lia. }
    destruct pg0 as [p |]; [| inversion E1; exact Hw].
    destruct (negb (dma_coherent_ok A dev (page_to_phys p) size));
      inversion E1; [| exact Hw].
    cbn [app]. apply walks_ladder_skip; [reflexivity | exact Hw]. }
  assert (Hstart :
    exists g0 ans rest,
      t0 ++ t1 ++ t2
      = E_dma_alloc_contiguous (PAGE_ALIGN K size) g0 ans :: rest /\
      gfp_zone_class K g0 = gfp_zone_class K (Z.lor g1 zone) /\
      ((1 <= fuel)%nat ->
       match ans with
       | Some p =>
         if dma_coherent_ok A dev (page_to_phys p) size
         then rest = [] /\ o = Returned (Some p)
         else
           exists ans' post,
             rest = E_dma_free_contiguous p (PAGE_ALIGN K size)
                      :: E_alloc_pages_node (dev_to_node dev) g0
                           (get_order A (PAGE_ALIGN K size)) ans'
                      :: post
       | None =>
         exists ans' post,
           rest = E_alloc_pages_node (dev_to_node dev) g0
                    (get_order A (PAGE_ALIGN K size)) ans' :: post
       end)).
  { exists (Z.lor g1 zone), pg0, (t1 ++ t2). rewrite Ht0.
    split; [reflexivity |]. split; [reflexivity |]. intros Hfuel.
    destruct fuel as [| fuel']; [lia |].
    destruct pg0 as [p |].
    - destruct (dma_coherent_ok A dev (page_to_phys p) size) eqn:Hok;
        cbn [negb] in E1; inversion E1; subst pg1 t1; cbn [app].
      + rewrite (alloc_again_reachable _ _ _ _ _ _ _ _ _ Hok) in E2.
        inversion E2. split; reflexivity.
      + destruct (alloc_again_first_request _ _ _ _ _ _ _ _ _ _ E2)
          as (ans' & post & ->).
        eauto.
    - inversion E1; subst pg1 t1; cbn [app].
      destruct (alloc_again_first_request _ _ _ _ _ _ _ _ _ _ E2)
        as (ans' & post & ->).
      eauto. }
  assert (H0 : page_allocator_zones K t0 = [] /\
               contiguous_pool_zones K t0 = [gfp_zone_class K (Z.lor g1 zone)]).
  { unfold dma_alloc_contiguous, ask in E0. inversion E0. split; reflexivity. }
  assert (H1 : page_allocator_zones K t1 = [] /\
               contiguous_pool_zones K t1 = []).
  { destruct pg0 as [p |]; [| inversion E1; split; reflexivity].
    destruct (negb _); inversion E1; split; reflexivity. }
  destruct H0 as [H0p H0c]. destruct H1 as [H1p H1c].
  exists (gfp_zone_class K (Z.lor g1 zone)).
  rewrite !page_allocator_zones_app, !contiguous_pool_zones_app.
  rewrite H0p, H0c, H1p, H1c, Hc. cbn [app].
  split; [reflexivity |]. split; [exact Hcov |]. split; [exact Hnarrowest |].
  split; [exact Hf |]. split; [exact Hn |].
  split; [exact Hstart | exact Hwalk].
Qed.

End ZoneLadder.

Lemma zone_ladder_narrows_witness :
  tst 3264 (Z.lor (GFP_DMA32 linux_config) (GFP_DMA linux_config)) = false /\
  let dev := mk_device (2 ^ 33 - 1) 0 true in
  let out := __dma_direct_alloc_pages linux_config flat_arch zoned_world 3
               dev 4096 3264 0 [] in
  let tr := snd out in
  let phys_limit :=
    snd (__dma_direct_optimal_gfp_mask linux_config flat_arch dev
           (coherent_dma_mask dev)) in
  exists z0,
    contiguous_pool_zones linux_config tr = [z0] /\
    zone_covers linux_config z0 phys_limit = true /\
    (forall z, zone_width z < zone_width z0 ->
               zone_covers linux_config z phys_limit = false) /\
    Forall (fun z => zone_width z <= zone_width z0)
      (page_allocator_zones linux_config tr) /\
    narrows (page_allocator_zones linux_config tr) /\
    (exists g0 ans rest,
       tr = E_dma_alloc_contiguous (PAGE_ALIGN linux_config 4096) g0 ans
              :: rest /\
       gfp_zone_class linux_config g0 = z0 /\
       ((1 <= 3)%nat ->
        match ans with
        | Some p =>
          if dma_coherent_ok flat_arch dev (page_to_phys p) 4096
          then rest = [] /\ fst out = Returned (Some p)
          else
            exists ans' post,
              rest = E_dma_free_contiguous p (PAGE_ALIGN linux_config 4096)
                       :: E_alloc_pages_node (dev_to_node dev) g0
                            (get_order flat_arch
                               (PAGE_ALIGN linux_config 4096)) ans'
                       :: post
        | None =>
          exists ans' post,
            rest = E_alloc_pages_node (dev_to_node dev) g0
                     (get_order flat_arch (PAGE_ALIGN linux_config 4096))
                     ans' :: post
        end)) /\
    ((3 <= 3)%nat ->
     walks_ladder linux_config flat_arch dev 4096 phys_limit tr (fst out)).
Proof.
  split; [reflexivity |].
  apply (zone_ladder_narrows linux_config flat_arch zoned_world);
    [discriminate | discriminate | reflexivity | reflexivity | reflexivity].
Defined.

(** C1 as worded fails: a device limited to 33 address bits first asks the
    page allocator for an unrestricted page; that page lies at 1 TiB, out of
    reach, and the retry asks for [ZONE_DMA32], a narrower class. *)
Lemma zone_ladder_not_widening :
  page_allocator_zones linux_config
    (snd (__dma_direct_alloc_pages linux_config flat_arch zoned_world 3
            (mk_device (2 ^ 33 - 1) 0 true) 4096 3264 0 []))
  = [ZONE_NORMAL; ZONE_DMA32] /\
  ~ escalates_wider
      (page_allocator_zones linux_config
         (snd (__dma_direct_alloc_pages linux_config flat_arch zoned_world 3
                 (mk_device (2 ^ 33 - 1) 0 true) 4096 3264 0 []))).
Proof.
  split; [reflexivity |].
  intros H. specialize (H 0%nat ZONE_NORMAL ZONE_DMA32 eq_refl eq_refl).
  cbn in H. lia.
Qed.

(** ** Reachability of coherent allocations *)

(** C3 as worded fails when the device has no bus limit: the field is zero
    then, the code ignores it, and a plain minimum would make every address
    unreachable. *)
Lemma dma_coherent_ok_not_plain_min :
  dma_coherent_ok flat_arch (mk_device (2 ^ 32 - 1) 0 true) 4096 4096 = true /\
  isReachable_coherent_spec (mk_device (2 ^ 32 - 1) 0 true)
    (phys_to_dma_direct flat_arch (mk_device (2 ^ 32 - 1) 0 true) 4096) 4096
  = false.
Proof. split; reflexivity. Qed.

(** C3, as the code has it: [dma_coherent_ok] holds iff the last bus address
    of the buffer, computed modulo [2^64], is at most the effective limit.
    The effective limit is the coherent mask when the bus limit is zero,
    the bus limit when the coherent mask is zero, and the smaller of the two
    when neither is zero.  For a buffer that does not wrap around, the last
    bus address is [busAddress + size - 1] itself. *)
Theorem dma_coherent_ok_iff :
  forall (A : arch_ops) (dev : device) (phys size : Z),
    let bus := phys_to_dma_direct A dev phys in
    let last := u64 (bus + size - 1) in
    let mask := coherent_dma_mask dev in
    let limit := bus_dma_limit dev in
    (limit = 0 -> (dma_coherent_ok A dev phys size = true <-> last <= mask)) /\
    (mask = 0 -> (dma_coherent_ok A dev phys size = true <-> last <= limit)) /\
    (mask <> 0 -> limit <> 0 ->
     (dma_coherent_ok A dev phys size = true <-> last <= Z.min mask limit)) /\
    (0 <= bus + size - 1 < 2 ^ 64 -> last = bus + size - 1).
Proof.
  intros A dev phys size bus last mask limit.
  assert (Hok : dma_coherent_ok A dev phys size = true
                <-> last <= min_not_zero mask limit).
  { unfold dma_coherent_ok. apply Z.leb_le. }
  split; [| split; [| split]].
  - intros Hl. rewrite Hok. unfold min_not_zero. rewrite Hl.
    destruct (Z.eqb_spec mask 0) as [Hm | Hm]; [rewrite Hm |]; reflexivity.
  - intros Hm. rewrite Hok. unfold min_not_zero. rewrite Hm. reflexivity.
  - intros Hm Hl. rewrite Hok. unfold min_not_zero.
    destruct (Z.eqb_spec mask 0); [contradiction |].
    destruct (Z.eqb_spec limit 0); [contradiction |]. reflexivity.
  - intros Hrange. unfold last, u64. apply Z.mod_small. exact Hrange.
Qed.

(** ** Synchronisation *)

Lemma for_each_emits (body : scatterlist -> M unit)
  (f : scatterlist -> trace) :
  (forall sg h, body sg h = (tt, f sg)) ->
  forall l h, for_each body l h = (tt, flat_map f l).
Proof.
  intros Hbody l. induction l as [| sg l IH]; intros h; [reflexivity |].
  cbn [for_each flat_map]. unfold bind. rewrite Hbody, IH. reflexivity.
Qed.

Lemma copy_back_not_first (e : event) (tr : trace) :
  (forall p s d, e <> E_swiotlb_tbl_sync_single p s d SYNC_FOR_CPU) ->
  invalidate_precedes_copy_back tr ->
  invalidate_precedes_copy_back (e :: tr).
Proof.
  intros He Htr pre post p s d E.
  destruct pre as [| e0 pre].
  - cbn in E. inversion E. exfalso. eapply He. eassumption.
  - cbn in E. inversion E. subst e0.
    destruct (Htr pre post p s d H1) as (pre' & mid & -> & Hmid).
    exists (e :: pre'), mid. split; [reflexivity | exact Hmid].
Qed.

Lemma copy_back_after_invalidate (p s : Z) (d : dma_data_direction)
  (mid tr : trace) :
  Forall (fun e => e = E_arch_sync_dma_for_cpu_all) mid ->
  invalidate_precedes_copy_back tr ->
  invalidate_precedes_copy_back
    (E_arch_sync_dma_for_cpu p s d
       :: mid ++ E_swiotlb_tbl_sync_single p s d SYNC_FOR_CPU :: tr).
Proof.
  intros Hmid Htr.
  assert (Hgen : forall pre0 mid0,
            Forall (fun e => e = E_arch_sync_dma_for_cpu_all) pre0 ->
            Forall (fun e => e = E_arch_sync_dma_for_cpu_all) mid0 ->
            forall pre post p' s' d',
              mid0 ++ E_swiotlb_tbl_sync_single p s d SYNC_FOR_CPU :: tr
              = pre ++ E_swiotlb_tbl_sync_single p' s' d' SYNC_FOR_CPU :: post ->
              exists pre' mid',
                E_arch_sync_dma_for_cpu p s d :: pre0 ++ pre
                = pre' ++ E_arch_sync_dma_for_cpu p' s' d' :: mid' /\
                Forall (fun e => e = E_arch_sync_dma_for_cpu_all) mid').
  { intros pre0 mid0 Hpre0 Hmid0. revert pre0 Hpre0.
    induction Hmid0 as [| e mid0 He Hmid0 IH]; intros pre0 Hpre0 pre post
      p' s' d' E.
    - destruct pre as [| e0 pre]; cbn in E; inversion E.
      + subst. exists [], pre0. rewrite app_nil_r. split; [reflexivity | exact Hpre0].
      + subst e0.
        destruct (Htr pre post p' s' d' H1) as (pre' & mid' & -> & Hm).
        exists (E_arch_sync_dma_for_cpu p s d
                  :: pre0 ++ E_swiotlb_tbl_sync_single p s d SYNC_FOR_CPU :: pre'),
          mid'.
        split; [| exact Hm]. cbn. rewrite <- app_assoc. reflexivity.
    - destruct pre as [| e0 pre]; cbn in E; inversion E.
      + subst e. discriminate.
      + subst e0.
        destruct (IH (pre0 ++ [e])
                    ltac:(apply Forall_app; split; [exact Hpre0 | repeat constructor; exact He])
                    pre post p' s' d' H1)
          as (pre' & mid' & E' & Hm).
        exists pre', mid'. split; [| exact Hm].
        rewrite <- E'. rewrite <- app_assoc. reflexivity. }
  intros pre post p' s' d' E.
  destruct pre as [| e0 pre]; cbn in E; inversion E.
  subst e0. exact (Hgen [] mid (Forall_nil _) Hmid pre post p' s' d' H1).
Qed.

Lemma no_copy_back_nil : invalidate_precedes_copy_back [].
Proof. intros pre post p s d E. destruct pre; discriminate E. Qed.

Lemma sync_sg_for_cpu_trace (A : arch_ops) (dev : device)
  (sgl : list scatterlist) (nents : nat) (dir : dma_data_direction) (h : trace) :
  snd (dma_direct_sync_sg_for_cpu A dev sgl nents dir h)
  = flat_map (segment_sync_for_cpu A dev dir) (firstn nents sgl)
    ++ (if dev_is_dma_coherent dev then [] else [E_arch_sync_dma_for_cpu_all]).
Proof.
  unfold dma_direct_sync_sg_for_cpu, for_each_sg, bind.
  rewrite (for_each_emits _ (segment_sync_for_cpu A dev dir)).
  - destruct (dev_is_dma_coherent dev); reflexivity.
  - intros sg h'. unfold segment_sync_for_cpu, bind.
    destruct (dev_is_dma_coherent dev),
      (is_swiotlb_buffer A (dma_to_phys A dev (dma_address sg))); reflexivity.
Qed.

(** C5 as worded fails for the scatter-gather call: the architecture
    invalidation includes the architecture-wide invalidate, and
    [dma_direct_sync_sg_for_cpu] issues that one once, after the last
    segment, so after every copy-back.  For one bounced segment the
    copy-back comes second and the architecture-wide invalidate last. *)
Lemma sync_sg_copy_back_before_arch_wide :
  snd (dma_direct_sync_sg_for_cpu flat_arch (mk_device (2 ^ 32 - 1) 0 false)
         [mapped_sg (2 ^ 26) 512] 1 DMA_FROM_DEVICE [])
  = [E_arch_sync_dma_for_cpu (2 ^ 26) 512 DMA_FROM_DEVICE;
     E_swiotlb_tbl_sync_single (2 ^ 26) 512 DMA_FROM_DEVICE SYNC_FOR_CPU;
     E_arch_sync_dma_for_cpu_all] /\
  ~ whole_invalidation_precedes_copy_back
      (snd (dma_direct_sync_sg_for_cpu flat_arch
              (mk_device (2 ^ 32 - 1) 0 false)
              [mapped_sg (2 ^ 26) 512] 1 DMA_FROM_DEVICE [])).
Proof.
  split; [reflexivity |]. intros H.
  destruct (H [E_arch_sync_dma_for_cpu (2 ^ 26) 512 DMA_FROM_DEVICE]
              [E_arch_sync_dma_for_cpu_all] (2 ^ 26) 512 DMA_FROM_DEVICE
              eq_refl) as [_ [E | []]].
  discriminate E.
Qed.

(** C5, as the code has it: on a non-coherent device every bounce copy-back
    that a sync for the CPU performs comes after the cache invalidate of
    the same buffer or segment.  The single-buffer call emits the
    invalidate of the range, the architecture-wide invalidate and then,
    for a bounced buffer, the copy-back: there the whole architecture
    invalidation precedes the copy-back.  The scatter-gather call emits
    for each segment in list order the invalidate of its range and then,
    for a bounced segment, its copy-back; the architecture-wide invalidate
    comes once, after the last segment, hence after every copy-back. *)
Theorem sync_for_cpu_invalidates_before_copy_back :
  forall (A : arch_ops) (dev : device) (dir : dma_data_direction) (h : trace),
    dev_is_dma_coherent dev = false ->
    (forall addr size,
       let paddr := dma_to_phys A dev addr in
       snd (dma_direct_sync_single_for_cpu A dev addr size dir h)
       = [E_arch_sync_dma_for_cpu paddr size dir; E_arch_sync_dma_for_cpu_all]
         ++ (if is_swiotlb_buffer A paddr
             then [E_swiotlb_tbl_sync_single paddr size dir SYNC_FOR_CPU]
             else []) /\
       invalidate_precedes_copy_back
         (snd (dma_direct_sync_single_for_cpu A dev addr size dir h)) /\
       whole_invalidation_precedes_copy_back
         (snd (dma_direct_sync_single_for_cpu A dev addr size dir h))) /\
    (forall sgl nents,
       snd (dma_direct_sync_sg_for_cpu A dev sgl nents dir h)
       = flat_map
           (fun sg =>
              let paddr := dma_to_phys A dev (dma_address sg) in
              E_arch_sync_dma_for_cpu paddr (sg_length sg) dir
                :: (if is_swiotlb_buffer A paddr
                    then [E_swiotlb_tbl_sync_single paddr (sg_length sg) dir
                            SYNC_FOR_CPU]
                    else []))
           (firstn nents sgl)
         ++ [E_arch_sync_dma_for_cpu_all] /\
       invalidate_precedes_copy_back
         (snd (dma_direct_sync_sg_for_cpu A dev sgl nents dir h))).
Proof.
  intros A dev dir h Hnc. split.
  - intros addr size paddr.
    assert (E : snd (dma_direct_sync_single_for_cpu A dev addr size dir h)
                = [E_arch_sync_dma_for_cpu paddr size dir;
                   E_arch_sync_dma_for_cpu_all]
                  ++ (if is_swiotlb_buffer A paddr
                      then [E_swiotlb_tbl_sync_single paddr size dir
                              SYNC_FOR_CPU]
                      else [])).
    { unfold dma_direct_sync_single_for_cpu, bind. fold paddr. rewrite Hnc.
      destruct (is_swiotlb_buffer A paddr); reflexivity. }
    split; [exact E |]. rewrite E.
    destruct (is_swiotlb_buffer A paddr); cbn [app]; split.
    + apply (copy_back_after_invalidate paddr size dir
               [E_arch_sync_dma_for_cpu_all] []);
        [repeat constructor | exact no_copy_back_nil].
    + intros pre post p s d Hs.
      destruct pre as [| e0 [| e1 [| e2 pre]]]; cbn in Hs;
        try discriminate Hs.
      * inversion Hs; subst. cbn. auto.
      * inversion Hs as [[E0 E1 E2 Enil]]. destruct pre; discriminate Enil.
    + apply copy_back_not_first; [discriminate |].
      apply copy_back_not_first; [discriminate | exact no_copy_back_nil].
    + intros pre post p s d Hs.
      destruct pre as [| e0 [| e1 [| e2 pre]]]; cbn in Hs;
        discriminate Hs.
  - intros sgl nents. rewrite sync_sg_for_cpu_trace, Hnc. split.
    + f_equal. apply flat_map_ext. intros sg.
      unfold segment_sync_for_cpu. rewrite Hnc. reflexivity.
    + induction (firstn nents sgl) as [| sg l IH]; cbn [flat_map app].
      * apply copy_back_not_first; [discriminate | exact no_copy_back_nil].
      * unfold segment_sync_for_cpu at 1. rewrite Hnc.
        destruct (is_swiotlb_buffer A (dma_to_phys A dev (dma_address sg)));
          cbn [app].
        -- apply (copy_back_after_invalidate _ _ _ []);
             [constructor | exact IH].
        -- apply copy_back_not_first; [discriminate | exact IH].
Qed.

Lemma sync_for_cpu_invalidates_before_copy_back_witness :
  dev_is_dma_coherent (mk_device (2 ^ 32 - 1) 0 false) = false /\
  snd (dma_direct_sync_sg_for_cpu flat_arch (mk_device (2 ^ 32 - 1) 0 false)
         [mapped_sg (2 ^ 20) 512; mapped_sg (2 ^ 26) 512] 2
         DMA_FROM_DEVICE [])
  = [E_arch_sync_dma_for_cpu (2 ^ 20) 512 DMA_FROM_DEVICE;
     E_arch_sync_dma_for_cpu (2 ^ 26) 512 DMA_FROM_DEVICE;
     E_swiotlb_tbl_sync_single (2 ^ 26) 512 DMA_FROM_DEVICE SYNC_FOR_CPU;
     E_arch_sync_dma_for_cpu_all] /\
  invalidate_precedes_copy_back
    (snd (dma_direct_sync_sg_for_cpu flat_arch (mk_device (2 ^ 32 - 1) 0 false)
            [mapped_sg (2 ^ 20) 512; mapped_sg (2 ^ 26) 512] 2
            DMA_FROM_DEVICE [])) /\
  whole_invalidation_precedes_copy_back
    (snd (dma_direct_sync_single_for_cpu flat_arch
            (mk_device (2 ^ 32 - 1) 0 false) (2 ^ 26) 512
            DMA_FROM_DEVICE [])).
Proof.
  split; [reflexivity |].
  pose proof (sync_for_cpu_invalidates_before_copy_back flat_arch
                (mk_device (2 ^ 32 - 1) 0 false) DMA_FROM_DEVICE [] eq_refl)
    as [Hsingle Hsg].
  split; [reflexivity |].
  split; [exact (proj2 (Hsg [mapped_sg (2 ^ 20) 512; mapped_sg (2 ^ 26) 512]
                          2%nat))
         | exact (proj2 (proj2 (Hsingle (2 ^ 26) 512)))].
Defined.

(** C7 as worded fails for the CPU direction: on a non-coherent device the
    scatter-gather call issues the architecture-wide invalidate once, after
    the last segment, where per-segment synchronisation issues it for every
    segment. *)
Lemma sync_sg_for_cpu_not_segmentwise :
  snd (dma_direct_sync_sg_for_cpu flat_arch (mk_device (2 ^ 32 - 1) 0 false)
         [mapped_sg (2 ^ 20) 512; mapped_sg (2 ^ 21) 512] 2 DMA_FROM_DEVICE [])
  = [E_arch_sync_dma_for_cpu (2 ^ 20) 512 DMA_FROM_DEVICE;
     E_arch_sync_dma_for_cpu (2 ^ 21) 512 DMA_FROM_DEVICE;
     E_arch_sync_dma_for_cpu_all] /\
  snd (sync_each_segment
         (dma_direct_sync_single_for_cpu flat_arch
            (mk_device (2 ^ 32 - 1) 0 false))
         [mapped_sg (2 ^ 20) 512; mapped_sg (2 ^ 21) 512] 2 DMA_FROM_DEVICE [])
  = [E_arch_sync_dma_for_cpu (2 ^ 20) 512 DMA_FROM_DEVICE;
     E_arch_sync_dma_for_cpu_all;
     E_arch_sync_dma_for_cpu (2 ^ 21) 512 DMA_FROM_DEVICE;
     E_arch_sync_dma_for_cpu_all] /\
  snd (dma_direct_sync_sg_for_cpu flat_arch (mk_device (2 ^ 32 - 1) 0 false)
         [mapped_sg (2 ^ 20) 512; mapped_sg (2 ^ 21) 512] 2 DMA_FROM_DEVICE [])
  <> snd (sync_each_segment
            (dma_direct_sync_single_for_cpu flat_arch
               (mk_device (2 ^ 32 - 1) 0 false))
            [mapped_sg (2 ^ 20) 512; mapped_sg (2 ^ 21) 512] 2
            DMA_FROM_DEVICE []).
Proof.
  split; [reflexivity |]. split; [reflexivity |]. intros H. discriminate H.
Qed.

(** C7, as the code has it: the for-device call applies the single-buffer
    synchronisation to each of the first [nents] segments in list order and
    does nothing else.  The for-CPU call applies the cache invalidate and
    the bounce copy-back of each segment in list order, and on a
    non-coherent device issues the architecture-wide invalidate once, after
    the last segment. *)
Theorem sync_sg_in_list_order :
  forall (A : arch_ops) (dev : device) (sgl : list scatterlist) (nents : nat)
         (dir : dma_data_direction) (h : trace),
    dma_direct_sync_sg_for_device A dev sgl nents dir h
    = sync_each_segment (dma_direct_sync_single_for_device A dev)
        sgl nents dir h /\
    snd (dma_direct_sync_sg_for_device A dev sgl nents dir h)
    = flat_map
        (fun sg =>
           snd (dma_direct_sync_single_for_device A dev (dma_address sg)
                  (sg_length sg) dir []))
        (firstn nents sgl) /\
    snd (dma_direct_sync_sg_for_cpu A dev sgl nents dir h)
    = flat_map (segment_sync_for_cpu A dev dir) (firstn nents sgl)
      ++ (if dev_is_dma_coherent dev then []
          else [E_arch_sync_dma_for_cpu_all]).
Proof.
  intros A dev sgl nents dir h. split; [reflexivity |]. split.
  - unfold dma_direct_sync_sg_for_device, for_each_sg.
    rewrite (for_each_emits _
               (fun sg => snd (dma_direct_sync_single_for_device A dev
                                 (dma_address sg) (sg_length sg) dir [])));
      [reflexivity |].
    intros sg h'. unfold dma_direct_sync_single_for_device, bind.
    destruct (is_swiotlb_buffer A (dma_to_phys A dev (dma_address sg))),
      (dev_is_dma_coherent dev); reflexivity.
  - apply sync_sg_for_cpu_trace.
Qed.

(** ** Streaming map of one page *)

(** C9: with [swiotlb_force == SWIOTLB_FORCE], and whenever the candidate
    bus address fails [dma_capable], [dma_direct_map_page] hands the buffer
    to the bounce pool first and returns what the pool answers: the bus
    address of the bounce slot (after the cache write-back of the slot on a
    non-coherent device), or [DMA_MAPPING_ERROR] after reporting the
    failure.  The bounce pool is left out exactly when the force flag is
    unset and the candidate bus address passes [dma_capable]; the call then
    returns the direct translation of the physical address. *)
Theorem forced_bounce_routing :
  forall (K : kconfig) (A : arch_ops) (W : world) (dev : device) (pg : page)
         (off size : Z) (dir : dma_data_direction) (attrs : Z) (h : trace),
    let phys := u64 (page_to_phys pg + off) in
    let dma_addr := phys_to_dma A dev phys in
    let out := dma_direct_map_page K A W dev pg off size dir attrs h in
    let answer := w_swiotlb_map W h dev phys dma_addr size dir attrs in
    let write_back p :=
      if negb (dev_is_dma_coherent dev)
         && negb (tst attrs (DMA_ATTR_SKIP_CPU_SYNC K))
      then [E_arch_sync_dma_for_device p size dir] else [] in
    (swiotlb_force K = SWIOTLB_FORCE \/
     dma_capable A dev dma_addr size true = false ->
     out = if fst (fst answer)
           then (snd answer,
                 E_swiotlb_map phys dma_addr size dir attrs answer
                   :: write_back (snd (fst answer)))
           else (DMA_MAPPING_ERROR,
                 [E_swiotlb_map phys dma_addr size dir attrs answer;
                  E_report_addr (snd answer) size])) /\
    (swiotlb_force K <> SWIOTLB_FORCE /\
     dma_capable A dev dma_addr size true = true ->
     out = (dma_addr, write_back phys)) /\
    (swiotlb_force K = SWIOTLB_FORCE ->
     exists r rest,
       snd out = E_swiotlb_map phys dma_addr size dir attrs r :: rest) /\
    (existsb is_swiotlb_map (snd out) = false <->
     swiotlb_force K <> SWIOTLB_FORCE /\
     dma_capable A dev dma_addr size true = true) /\
    (existsb is_swiotlb_map (snd out) = false -> fst out = dma_addr).
Proof.
  intros K A W dev pg off size dir attrs h phys dma_addr out answer
    write_back.
  assert (Hposs : dma_direct_possible K A dev dma_addr size = true <->
                  swiotlb_force K <> SWIOTLB_FORCE /\
                  dma_capable A dev dma_addr size true = true).
  { unfold dma_direct_possible. rewrite andb_true_iff, negb_true_iff.
    destruct (swiotlb_force K); cbn; intuition congruence. }
  assert (Hdirect : dma_direct_possible K A dev dma_addr size = true ->
                    out = (dma_addr, write_back phys)).
  { intros Hp. subst out. unfold dma_direct_map_page.
    fold phys. fold dma_addr. rewrite Hp. cbn [negb].
    unfold bind, when. subst write_back. cbn beta.
    destruct (negb (dev_is_dma_coherent dev)
              && negb (tst attrs (DMA_ATTR_SKIP_CPU_SYNC K))); reflexivity. }
  assert (Hbounce : dma_direct_possible K A dev dma_addr size = false ->
            out = if fst (fst answer)
                  then (snd answer,
                        E_swiotlb_map phys dma_addr size dir attrs answer
                          :: write_back (snd (fst answer)))
                  else (DMA_MAPPING_ERROR,
                        [E_swiotlb_map phys dma_addr size dir attrs answer;
                         E_report_addr (snd answer) size])).
  { intros Hp. subst out. unfold dma_direct_map_page.
    fold phys. fold dma_addr. rewrite Hp. cbn [negb].
    unfold bind, swiotlb_map, ask. fold answer.
    destruct answer as [[ok phys'] dma_addr']. cbn [fst snd].
    destruct ok; cbn [negb]; [| reflexivity].
    unfold when. subst write_back. cbn beta.
    destruct (negb (dev_is_dma_coherent dev)
              && negb (tst attrs (DMA_ATTR_SKIP_CPU_SYNC K))); reflexivity. }
  assert (Hnot : swiotlb_force K = SWIOTLB_FORCE \/
                 dma_capable A dev dma_addr size true = false ->
                 dma_direct_possible K A dev dma_addr size = false).
  { intros Hc.
    destruct (dma_direct_possible K A dev dma_addr size); [| reflexivity].
    destruct Hposs as [Hp _]. destruct (Hp eq_refl) as [Hn Hcap].
    destruct Hc as [Hc | Hc]; [contradiction | congruence]. }
  assert (Hev : dma_direct_possible K A dev dma_addr size = false ->
                exists r rest,
                  snd out
                  = E_swiotlb_map phys dma_addr size dir attrs r :: rest).
  { intros Hp. rewrite (Hbounce Hp).
    destruct (fst (fst answer)); cbn [snd]; eauto. }
  assert (Hnone : dma_direct_possible K A dev dma_addr size = true ->
                  existsb is_swiotlb_map (snd out) = false).
  { intros Hp. rewrite (Hdirect Hp). cbn [snd]. subst write_back. cbn beta.
    destruct (negb (dev_is_dma_coherent dev)
              && negb (tst attrs (DMA_ATTR_SKIP_CPU_SYNC K))); reflexivity. }
  split; [intros Hc; exact (Hbounce (Hnot Hc)) |].
  split; [intros Hc; apply Hdirect, Hposs; exact Hc |].
  split; [intros Hf; apply Hev, Hnot; left; exact Hf |].
  split; [split |].
  - intros Hno. apply Hposs.
    destruct (dma_direct_possible K A dev dma_addr size) eqn:Ep;
      [reflexivity |].
    destruct (Hev eq_refl) as (r & rest & Etr).
    rewrite Etr in Hno. discriminate Hno.
  - intros Hc. apply Hnone, Hposs. exact Hc.
  - intros Hno.
    destruct (dma_direct_possible K A dev dma_addr size) eqn:Ep.
    + rewrite (Hdirect eq_refl). reflexivity.
    + destruct (Hev eq_refl) as (r & rest & Etr).
      rewrite Etr in Hno. discriminate Hno.
Qed.

(** A page at 1 MiB is within reach of a 32-bit device: it is mapped
    directly on a normal boot and bounced when the force flag is set. *)
Example map_page_direct_when_not_forced :
  dma_direct_map_page linux_config flat_arch zoned_world
    (mk_device (2 ^ 32 - 1) 0 true) (mk_page (2 ^ 20) false) 0 512
    DMA_TO_DEVICE 0 []
  = (2 ^ 20, []).
Proof. reflexivity. Qed.

Example map_page_bounced_when_forced :
  dma_direct_map_page forced_config flat_arch zoned_world
    (mk_device (2 ^ 32 - 1) 0 true) (mk_page (2 ^ 20) false) 0 512
    DMA_TO_DEVICE 0 []
  = (2 ^ 26,
     [E_swiotlb_map (2 ^ 20) (2 ^ 20) 512 DMA_TO_DEVICE 0
        (true, 2 ^ 26, 2 ^ 26)]).
Proof. reflexivity. Qed.

(** ** mmap *)

Lemma page_count_range (K : kconfig) (size : Z) :
  0 <= PAGE_SHIFT K ->
  0 <= Z.shiftr (PAGE_ALIGN K size) (PAGE_SHIFT K) < 2 ^ 64.
Proof.
  intros Hs. unfold PAGE_ALIGN.
  set (a := u64 (size + PAGE_SIZE K - 1)).
  set (m := u64 (Z.lnot (PAGE_SIZE K - 1))).
  assert (Ha : 0 <= a < 2 ^ 64) by (apply Z.mod_pos_bound; lia).
  assert (Hm : 0 <= m < 2 ^ 64) by (apply Z.mod_pos_bound; lia).
  assert (Hl : 0 <= Z.land a m < 2 ^ 64).
  { assert (H0 : 0 <= Z.land a m) by (apply Z.land_nonneg; lia).
    split; [exact H0 |].
    destruct (Z.eq_dec (Z.land a m) 0) as [E | Hne]; [rewrite E; lia |].
    assert (Hapos : 0 < a).
    { destruct (Z.eq_dec a 0) as [E | E]; [| lia].
      rewrite E, Z.land_0_l in Hne. contradiction. }
    apply Z.log2_lt_pow2; [lia |].
    pose proof (Z.log2_land a m (proj1 Ha) (proj1 Hm)) as Hlog.
    assert (Z.log2 a < 64) by (apply Z.log2_lt_pow2; lia).
    lia. }
  rewrite Z.shiftr_div_pow2 by exact Hs.
  assert (Hp : 0 < 2 ^ PAGE_SHIFT K) by (apply Z.pow_pos_nonneg; lia).
  split; [apply Z.div_pos; lia |].
  apply Z.le_lt_trans with (Z.land a m); [| lia].
  apply Z.div_le_upper_bound; [lia | nia].
Qed.

(** C8 as worded fails when the buffer belongs to a per-device coherent
    pool: [dma_mmap_from_dev_coherent] is asked before the range check and
    its result is returned as it is.  Here a request for pages 1 and 2 of a
    buffer of two pages returns 0. *)
Lemma mmap_taken_over_out_of_range :
  let out := dma_direct_mmap linux_config flat_arch dev_coherent_world
               (mk_device (2 ^ 32 - 1) 0 true) (mk_vma 1 2) 0 (2 ^ 20) 8192
               0 [] in
  vm_pgoff (mk_vma 1 2) + vma_pages flat_arch (mk_vma 1 2)
  > Z.shiftr (PAGE_ALIGN linux_config 8192) (PAGE_SHIFT linux_config) /\
  fst (fst out) = 0 /\
  fst (fst out) <> - ENXIO.
Proof. split; [reflexivity |]. split; [reflexivity | discriminate]. Qed.

(** C8, as the code has it: [dma_direct_mmap] populates user page tables
    only for a request whose page offset plus page count lies within the
    page count of the allocation.  A request that exceeds the allocation
    populates nothing and returns [-ENXIO], unless the per-device coherent
    pool took the request over: the result of [dma_mmap_from_dev_coherent]
    is then returned as it is, before any range check.  Without MMU every
    request returns [-ENXIO]. *)
Theorem dma_direct_mmap_range_check :
  forall (K : kconfig) (A : arch_ops) (W : world) (dev : device)
         (vma : vm_area_struct) (cpu dma_addr size attrs : Z) (h : trace),
    0 <= PAGE_SHIFT K ->
    0 <= vm_pgoff vma < 2 ^ 64 ->
    0 <= vma_pages A vma < 2 ^ 64 ->
    let user_count := vma_pages A vma in
    let count := Z.shiftr (PAGE_ALIGN K size) (PAGE_SHIFT K) in
    let vma' :=
      set_vm_page_prot (dma_pgprot A dev (vm_page_prot vma) attrs) vma in
    let out := dma_direct_mmap K A W dev vma cpu dma_addr size attrs h in
    (existsb is_remap_pfn_range (snd out) = true ->
     vm_pgoff vma + user_count <= count) /\
    (vm_pgoff vma + user_count > count ->
     existsb is_remap_pfn_range (snd out) = false /\
     (w_dma_mmap_from_dev_coherent W h dev vma' cpu size = None ->
      fst (fst out) = - ENXIO)) /\
    (CONFIG_MMU K = true ->
     forall res,
       w_dma_mmap_from_dev_coherent W h dev vma' cpu size = Some res ->
       out = ((res, vma'),
              [E_dma_mmap_from_dev_coherent vma' cpu size (Some res)])) /\
    (CONFIG_MMU K = true ->
     w_dma_mmap_from_dev_coherent W h dev vma' cpu size = None ->
     vm_pgoff vma + user_count > count ->
     out = ((- ENXIO, vma'),
            [E_dma_mmap_from_dev_coherent vma' cpu size None])) /\
    (CONFIG_MMU K = false -> out = ((- ENXIO, vma), [])).
Proof.
  intros K A W dev vma cpu dma_addr size attrs h Hshift Hoff Hcnt user_count
    count vma' out.
  pose proof (page_count_range K size Hshift) as Hcount. fold count in Hcount.
  assert (Hguard :
    (vm_pgoff vma >=? count) || (user_count >? u64 (count - vm_pgoff vma))
    = false <-> vm_pgoff vma + user_count <= count /\ vm_pgoff vma < count).
  { rewrite orb_false_iff.
    destruct (Z.geb_spec (vm_pgoff vma) count) as [Hge | Hlt].
    - split; [intros [E _]; discriminate E | lia].
    - assert (Hu : u64 (count - vm_pgoff vma) = count - vm_pgoff vma).
      { unfold u64. apply Z.mod_small. lia. }
      rewrite Hu.
      destruct (Z.gtb_spec user_count (count - vm_pgoff vma)) as [Hgt | Hle].
      + split; [intros [_ E]; discriminate E | lia].
      + split; [lia | auto]. }
  subst out. unfold dma_direct_mmap.
  destruct (CONFIG_MMU K).
  2:{ cbn. repeat split; try discriminate; auto. }
  fold user_count. fold count. fold vma'.
  change (vm_pgoff vma') with (vm_pgoff vma).
  unfold bind, dma_mmap_from_dev_coherent, ask.
  destruct (w_dma_mmap_from_dev_coherent W h dev vma' cpu size) as [res |].
  { cbn. split; [discriminate |].
    split; [intros _; split; [reflexivity | intros E; discriminate E] |].
    split; [intros _ res' E; inversion E; reflexivity |].
    split; [intros _ E; discriminate E | intros E; discriminate E]. }
  destruct ((vm_pgoff vma >=? count)
            || (user_count >? u64 (count - vm_pgoff vma))) eqn:G.
  - cbn. split; [discriminate |]. split; [auto |].
    split; [intros _ res E; discriminate E |].
    split; [reflexivity | intros E; discriminate E].
  - destruct Hguard as [Hg _]. specialize (Hg eq_refl).
    cbn. split; [intros _; lia |]. split; [lia |].
    split; [intros _ res E; discriminate E |].
    split; [intros _ _ Hex; lia | intros E; discriminate E].
Qed.

Lemma dma_direct_mmap_range_check_witness :
  0 <= PAGE_SHIFT linux_config /\
  0 <= vm_pgoff (mk_vma 1 2) < 2 ^ 64 /\
  0 <= vma_pages flat_arch (mk_vma 1 2) < 2 ^ 64 /\
  let user_count := vma_pages flat_arch (mk_vma 1 2) in
  let count :=
    Z.shiftr (PAGE_ALIGN linux_config 8192) (PAGE_SHIFT linux_config) in
  let vma' :=
    set_vm_page_prot
      (dma_pgprot flat_arch (mk_device (2 ^ 32 - 1) 0 true)
         (vm_page_prot (mk_vma 1 2)) 0) (mk_vma 1 2) in
  let out :=
    dma_direct_mmap linux_config flat_arch zoned_world
      (mk_device (2 ^ 32 - 1) 0 true) (mk_vma 1 2) 0 (2 ^ 20) 8192 0 [] in
  (existsb is_remap_pfn_range (snd out) = true ->
   vm_pgoff (mk_vma 1 2) + user_count <= count) /\
  (vm_pgoff (mk_vma 1 2) + user_count > count ->
   existsb is_remap_pfn_range (snd out) = false /\
   (w_dma_mmap_from_dev_coherent zoned_world [] (mk_device (2 ^ 32 - 1) 0 true)
      vma' 0 8192 = None ->
    fst (fst out) = - ENXIO)) /\
  (CONFIG_MMU linux_config = true ->
   forall res,
     w_dma_mmap_from_dev_coherent zoned_world []
       (mk_device (2 ^ 32 - 1) 0 true) vma' 0 8192 = Some res ->
     out = ((res, vma'),
            [E_dma_mmap_from_dev_coherent vma' 0 8192 (Some res)])) /\
  (CONFIG_MMU linux_config = true ->
   w_dma_mmap_from_dev_coherent zoned_world []
     (mk_device (2 ^ 32 - 1) 0 true) vma' 0 8192 = None ->
   vm_pgoff (mk_vma 1 2) + user_count > count ->
   out = ((- ENXIO, vma'),
          [E_dma_mmap_from_dev_coherent vma' 0 8192 None])) /\
  (CONFIG_MMU linux_config = false -> out = ((- ENXIO, mk_vma 1 2), [])).
Proof.
  split; [cbn; lia |]. split; [cbn; lia |].
  split; [vm_compute; split; congruence |].
  apply (dma_direct_mmap_range_check linux_config flat_arch zoned_world
           (mk_device (2 ^ 32 - 1) 0 true) (mk_vma 1 2) 0 (2 ^ 20) 8192 0 []);
    [cbn; lia | cbn; lia | vm_compute; split; congruence].
Defined.

(** ** Coherent allocation *)


Section CoherentAllocation.

Variable K : kconfig.
Variable A : arch_ops.
Variable W : world.




(** Every allocation that returns a kernel address obtained in this file
    (by remapping or from the direct mapping) was zeroed with [memset] over
    the requested size before the return. *)
Lemma kernel_mapped_allocation_zeroed :
  forall fuel dev size gfp attrs h va handle tr,
    CONFIG_DMA_DIRECT_REMAP K && dma_alloc_need_uncached A dev attrs
    && negb (gfpflags_allow_blocking A gfp) = false ->
    dma_direct_alloc_pages K A W fuel dev size gfp attrs h
    = (Returned (Some (KernelAddr va, handle)), tr) ->
    exists va0,
      In (E_memset va0 0 size) tr /\
      (va = va0 \/ va = uncached_kernel_address A va0).
Proof.
  intros fuel dev size gfp attrs h va handle tr Hpool E.
  unfold dma_direct_alloc_pages in E. rewrite Hpool in E.
  apply bind_inv in E. destruct E as (o & t0 & t1 & E0 & E1 & ->).
  destruct o as [[p |] |]; try (inversion E1; fail).
  destruct (tst attrs (DMA_ATTR_NO_KERNEL_MAPPING K)
            && negb (force_dma_unencrypted dev)).
  { apply bind_inv in E1. destruct E1 as (u & t2 & t3 & _ & E3 & _).
    inversion E3. }
  destruct ((CONFIG_DMA_DIRECT_REMAP K && dma_alloc_need_uncached A dev attrs)
            || (CONFIG_DMA_REMAP K && PageHighMem p)).
  { apply bind_inv in E1. destruct E1 as (u & t2 & t3 & _ & E3 & ->).
    apply bind_inv in E3. destruct E3 as (r & t4 & t5 & _ & E5 & ->).
    destruct r as [va1 |].
    - apply bind_inv in E5. destruct E5 as (u' & t6 & t7 & E6 & E7 & ->).
      inversion E6; subst. inversion E7; subst.
      exists va. split; [| left; reflexivity].
      rewrite !in_app_iff. right. right. right. left. left. reflexivity.
    - apply bind_inv in E5. destruct E5 as (u' & t6 & t7 & _ & E7 & _).
      inversion E7. }
  destruct (PageHighMem p).
  { apply bind_inv in E1. destruct E1 as (u & t2 & t3 & _ & E3 & _).
    apply bind_inv in E3. destruct E3 as (u' & t4 & t5 & _ & E5 & _).
    inversion E5. }
  apply bind_inv in E1. destruct E1 as (u & t2 & t3 & _ & E3 & ->).
  apply bind_inv in E3. destruct E3 as (u' & t4 & t5 & E4 & E5 & ->).
  inversion E4; subst t4.
  exists (page_address p). split.
  - rewrite !in_app_iff. right. right. left. left. reflexivity.
  - destruct (CONFIG_ARCH_HAS_UNCACHED_SEGMENT K
              && dma_alloc_need_uncached A dev attrs).
    + apply bind_inv in E5. destruct E5 as (u'' & t6 & t7 & _ & E7 & _).
      inversion E7. right. reflexivity.
    + inversion E5. left. reflexivity.
Qed.

End CoherentAllocation.



(** C4 at the no-kernel-mapping attribute: the caller asks for zeroed
    memory ([__GFP_ZERO] is set in 3520), both allocators are called
    without [__GFP_ZERO], the call succeeds with the page as cookie, and no
    [memset] was issued. *)
Theorem no_kernel_mapping_returns_unzeroed :
  let out :=
    dma_direct_alloc_pages linux_config flat_arch zoned_world 3
      (mk_device (2 ^ 32 - 1) 0 true) 4096 3520
      (DMA_ATTR_NO_KERNEL_MAPPING linux_config) [] in
  tst 3520 (__GFP_ZERO linux_config) = true /\
  fst out = Returned (Some (PageCookie (mk_page (2 ^ 31) false), 2 ^ 31)) /\
  snd out
  = [E_dma_alloc_contiguous 4096 3268 None;
     E_alloc_pages_node 0 3268 0 (Some (mk_page (2 ^ 31) false));
     E_arch_dma_prep_coherent (mk_page (2 ^ 31) false) 4096] /\
  existsb is_memset (snd out) = false /\
  forallb (fun g => negb (tst g (__GFP_ZERO linux_config)))
    (allocator_gfps (snd out)) = true.
Proof. repeat split; reflexivity. Qed.

(** ** Scatter-gather map *)

Lemma maps_in_order_length (K : kconfig) (A : arch_ops) (W : world)
  (dev : device) (dir : dma_data_direction) (attrs : Z) h l done tr :
  maps_in_order K A W dev dir attrs h l done tr -> length done = length l.
Proof. induction 1; cbn; congruence. Qed.

Section ScatterGather.

Variable K : kconfig.
Variable A : arch_ops.
Variable W : world.

Hypothesis SKIP_CPU_SYNC_set : DMA_ATTR_SKIP_CPU_SYNC K <> 0.

(** Unmapping the first entries of a list with [DMA_ATTR_SKIP_CPU_SYNC]
    releases their bounce slots in list order and does nothing else. *)
Lemma unwind_trace (dev : device) (l rest : list scatterlist)
  (dir : dma_data_direction) (attrs : Z) (h : trace) :
  dma_direct_unmap_sg K A dev (l ++ rest) (length l) dir
    (Z.lor attrs (DMA_ATTR_SKIP_CPU_SYNC K)) h
  = (tt, flat_map (segment_unwind K A dev dir attrs) l).
Proof.
  unfold dma_direct_unmap_sg, for_each_sg.
  rewrite firstn_app, firstn_all, Nat.sub_diag, firstn_O, app_nil_r.
  apply for_each_emits. intros sg h'.
  unfold dma_direct_unmap_page, segment_unwind, bind, when.
  rewrite (tst_lor_same _ _ SKIP_CPU_SYNC_set). cbn [negb].
  destruct (is_swiotlb_buffer A (dma_to_phys A dev (dma_address sg)));
    reflexivity.
Qed.

Lemma unwind_no_cpu_sync (dev : device) (dir : dma_data_direction)
  (attrs : Z) (l : list scatterlist) :
  Forall (fun e => is_cpu_sync e = false)
    (flat_map (segment_unwind K A dev dir attrs) l).
Proof.
  induction l as [| sg l IH]; [constructor |].
  cbn [flat_map]. apply Forall_app. split; [| exact IH].
  unfold segment_unwind.
  destruct (is_swiotlb_buffer A (dma_to_phys A dev (dma_address sg)));
    repeat constructor.
Qed.

Lemma map_sg_loop_spec (dev : device) (nents : nat)
  (dir : dma_data_direction) (attrs : Z) (rest : list scatterlist) :
  forall todo done h,
    let out := map_sg_loop K A W dev nents done todo rest dir attrs h in
    (exists done' tr,
       maps_in_order K A W dev dir attrs h todo done' tr /\
       out = ((Z.of_nat nents, done ++ done' ++ rest), tr)) \/
    (exists pre sgk post done' tr0 trk,
       todo = pre ++ sgk :: post /\
       maps_in_order K A W dev dir attrs h pre done' tr0 /\
       dma_direct_map_page K A W dev (sg_page sgk) (offset sgk)
         (sg_length sgk) dir attrs (h ++ tr0) = (DMA_MAPPING_ERROR, trk) /\
       out = ((0, done ++ done'
                  ++ set_dma_address DMA_MAPPING_ERROR sgk :: post ++ rest),
              tr0 ++ trk
              ++ flat_map (segment_unwind K A dev dir attrs) (done ++ done'))).
Proof.
  induction todo as [| sg todo IH]; intros done h out.
  { left. exists [], []. split; [constructor | reflexivity]. }
  destruct (dma_direct_map_page K A W dev (sg_page sg) (offset sg)
              (sg_length sg) dir attrs h) as [a t1] eqn:E1.
  destruct (Z.eqb_spec a DMA_MAPPING_ERROR) as [Ea | Ea].
  - right. exists [], sg, todo, [], [], t1. subst a.
    split; [reflexivity |]. split; [constructor |].
    split; [rewrite app_nil_r; exact E1 |].
    subst out. cbn [map_sg_loop app]. rewrite !app_nil_r.
    eapply bind_eq; [exact E1 |]. cbn beta. rewrite Z.eqb_refl.
    rewrite <- (app_nil_r (flat_map _ done)).
    eapply bind_eq; [apply unwind_trace | reflexivity].
  - set (sg' := set_sg_dma_len K (sg_length sg) (set_dma_address a sg)).
    assert (Hstep : forall r tr,
              map_sg_loop K A W dev nents (done ++ [sg']) todo rest dir attrs
                (h ++ t1) = (r, tr) ->
              out = (r, t1 ++ tr)).
    { intros r tr E. subst out. cbn [map_sg_loop].
      eapply bind_eq; [exact E1 |]. cbn beta.
      destruct (Z.eqb_spec a DMA_MAPPING_ERROR); [contradiction | exact E]. }
    destruct (IH (done ++ [sg']) (h ++ t1))
      as [(done' & tr & Hm & E) | (pre & sgk & post & done' & tr0 & trk
                                    & Htodo & Hm & Ek & E)].
    + left. exists (sg' :: done'), (t1 ++ tr).
      split; [exact (maps_cons K A W dev dir attrs h sg todo a t1 done' tr
                       E1 Ea Hm) |].
      rewrite (Hstep _ _ E), <- app_assoc. reflexivity.
    + right. exists (sg :: pre), sgk, post, (sg' :: done'), (t1 ++ tr0), trk.
      split; [rewrite Htodo; reflexivity |].
      split; [exact (maps_cons K A W dev dir attrs h sg pre a t1 done' tr0
                       E1 Ea Hm) |].
      split; [rewrite app_assoc; exact Ek |].
      rewrite (Hstep _ _ E), <- !app_assoc. reflexivity.
Qed.

(** C2: [dma_direct_map_sg] is all or nothing.  Either every one of the
    first [nents] segments is mapped, one after the other in list order,
    each with its bus address and length written, and the result is
    [nents]; or some segment [k] fails: the segments before it were mapped
    in list order, the result is 0, and before the return exactly the
    segments [0..k-1] are unmapped in list order with
    [DMA_ATTR_SKIP_CPU_SYNC] set, which releases their bounce slots and
    synchronises nothing for the CPU. *)
Theorem dma_direct_map_sg_all_or_nothing :
  forall dev sgl nents dir attrs h,
    let out := dma_direct_map_sg K A W dev sgl nents dir attrs h in
    (exists done tr,
       maps_in_order K A W dev dir attrs h (firstn nents sgl) done tr /\
       out = ((Z.of_nat nents, done ++ skipn nents sgl), tr)) \/
    (exists pre sgk post done tr0 trk,
       firstn nents sgl = pre ++ sgk :: post /\
       maps_in_order K A W dev dir attrs h pre done tr0 /\
       length done = length pre /\
       dma_direct_map_page K A W dev (sg_page sgk) (offset sgk)
         (sg_length sgk) dir attrs (h ++ tr0) = (DMA_MAPPING_ERROR, trk) /\
       out = ((0, done ++ set_dma_address DMA_MAPPING_ERROR sgk
                    :: post ++ skipn nents sgl),
              tr0 ++ trk ++ flat_map (segment_unwind K A dev dir attrs) done) /\
       dma_direct_unmap_sg K A dev (snd (fst out)) (length pre) dir
         (Z.lor attrs (DMA_ATTR_SKIP_CPU_SYNC K)) (h ++ tr0 ++ trk)
       = (tt, flat_map (segment_unwind K A dev dir attrs) done) /\
       Forall (fun e => is_cpu_sync e = false)
         (flat_map (segment_unwind K A dev dir attrs) done)).
Proof.
  intros dev sgl nents dir attrs h out. subst out.
  unfold dma_direct_map_sg.
  destruct (map_sg_loop_spec dev nents dir attrs (skipn nents sgl)
              (firstn nents sgl) [] h)
    as [(done & tr & Hm & E) | (pre & sgk & post & done & tr0 & trk
                                 & Htodo & Hm & Ek & E)].
  - left. exists done, tr. split; [exact Hm | exact E].
  - right. exists pre, sgk, post, done, tr0, trk.
    pose proof (maps_in_order_length _ _ _ _ _ _ _ _ _ _ Hm) as Hlen.
    rewrite E. cbn [app fst snd].
    repeat split; try assumption.
    + rewrite <- Hlen. apply unwind_trace.
    + apply unwind_no_cpu_sync.
Qed.

End ScatterGather.

Lemma dma_direct_map_sg_all_or_nothing_witness :
  DMA_ATTR_SKIP_CPU_SYNC linux_config <> 0 /\
  let sgl := [mk_sg (2 ^ 20) 512; mk_sg (2 ^ 33) 512; mk_sg (2 ^ 34) 512] in
  let dev := mk_device (2 ^ 32 - 1) 0 false in
  let out := dma_direct_map_sg linux_config flat_arch zoned_world dev sgl 3
               DMA_TO_DEVICE 0 [] in
  (exists done tr,
     maps_in_order linux_config flat_arch zoned_world dev DMA_TO_DEVICE 0 []
       (firstn 3 sgl) done tr /\
     out = ((Z.of_nat 3, done ++ skipn 3 sgl), tr)) \/
  (exists pre sgk post done tr0 trk,
     firstn 3 sgl = pre ++ sgk :: post /\
     maps_in_order linux_config flat_arch zoned_world dev DMA_TO_DEVICE 0 []
       pre done tr0 /\
     length done = length pre /\
     dma_direct_map_page linux_config flat_arch zoned_world dev (sg_page sgk)
       (offset sgk) (sg_length sgk) DMA_TO_DEVICE 0 ([] ++ tr0)
     = (DMA_MAPPING_ERROR, trk) /\
     out = ((0, done ++ set_dma_address DMA_MAPPING_ERROR sgk
                  :: post ++ skipn 3 sgl),
            tr0 ++ trk
            ++ flat_map (segment_unwind linux_config flat_arch dev
                           DMA_TO_DEVICE 0) done) /\
     dma_direct_unmap_sg linux_config flat_arch dev (snd (fst out))
       (length pre) DMA_TO_DEVICE
       (Z.lor 0 (DMA_ATTR_SKIP_CPU_SYNC linux_config)) ([] ++ tr0 ++ trk)
     = (tt, flat_map (segment_unwind linux_config flat_arch dev
                        DMA_TO_DEVICE 0) done) /\
     Forall (fun e => is_cpu_sync e = false)
       (flat_map (segment_unwind linux_config flat_arch dev
                    DMA_TO_DEVICE 0) done)).
Proof.
  split; [discriminate |].
  apply (dma_direct_map_sg_all_or_nothing linux_config flat_arch zoned_world);
    discriminate.
Defined.

(** Three segments of which the third fails: the first is mapped directly,
    the second takes the only bounce slot, the third finds none; the slot of
    the second is released and the result is 0. *)
Example map_sg_third_segment_fails :
  dma_direct_map_sg linux_config flat_arch zoned_world
    (mk_device (2 ^ 32 - 1) 0 false)
    [mk_sg (2 ^ 20) 512; mk_sg (2 ^ 33) 512; mk_sg (2 ^ 34) 512] 3
    DMA_TO_DEVICE 0 []
  = ((0,
      [set_dma_length 512 (set_dma_address (2 ^ 20) (mk_sg (2 ^ 20) 512));
       set_dma_length 512 (set_dma_address (2 ^ 26) (mk_sg (2 ^ 33) 512));
       set_dma_address DMA_MAPPING_ERROR (mk_sg (2 ^ 34) 512)]),
     [E_arch_sync_dma_for_device (2 ^ 20) 512 DMA_TO_DEVICE;
      E_swiotlb_map (2 ^ 33) (2 ^ 33) 512 DMA_TO_DEVICE 0
        (true, 2 ^ 26, 2 ^ 26);
      E_arch_sync_dma_for_device (2 ^ 26) 512 DMA_TO_DEVICE;
      E_swiotlb_map (2 ^ 34) (2 ^ 34) 512 DMA_TO_DEVICE 0
        (false, 2 ^ 64 - 1, 2 ^ 34);
      E_report_addr (2 ^ 34) 512;
      E_swiotlb_tbl_unmap_single (2 ^ 26) 512 512 DMA_TO_DEVICE 32]).
Proof. reflexivity. Qed.

(** ** Further properties of the allocation path *)

Lemma obtained_pages_app (t1 t2 : trace) :
  obtained_pages (t1 ++ t2) = obtained_pages t1 ++ obtained_pages t2.
Proof. unfold obtained_pages. apply flat_map_app. Qed.

Lemma released_pages_app (t1 t2 : trace) :
  released_pages (t1 ++ t2) = released_pages t1 ++ released_pages t2.
Proof. unfold released_pages. apply flat_map_app. Qed.

Lemma allocator_gfps_app (t1 t2 : trace) :
  allocator_gfps (t1 ++ t2) = allocator_gfps t1 ++ allocator_gfps t2.
Proof. unfold allocator_gfps. apply flat_map_app. Qed.

Section AllocationInvariants.

Variable K : kconfig.
Variable A : arch_ops.
Variable W : world.

(** From [again:] on: a page that is returned passed the reachability
    check, and every other page that was held or obtained was released. *)
Lemma alloc_again_balance (fuel : nat) :
  forall dev size alloc_size node phys_limit gfp pg h r tr,
    alloc_again K A W fuel dev size alloc_size node phys_limit gfp pg h
    = (Returned r, tr) ->
    opt_to_list pg ++ obtained_pages tr = released_pages tr ++ opt_to_list r /\
    (forall p, r = Some p ->
               dma_coherent_ok A dev (page_to_phys p) size = true).
Proof.
  induction fuel as [| fuel IH]; intros dev size alloc_size node phys_limit
    gfp pg h r tr E; [discriminate E |].
  cbn [alloc_again] in E.
  apply bind_inv in E. destruct E as (pg' & t0 & t1 & E0 & E1 & ->).
  rewrite obtained_pages_app, released_pages_app.
  assert (H0 : opt_to_list pg ++ obtained_pages t0 = opt_to_list pg' /\
               released_pages t0 = []).
  { destruct pg as [p |]; inversion E0; subst; cbn.
    - split; reflexivity.
    - rewrite app_nil_r. split; reflexivity. }
  destruct H0 as [H0 H0r]. rewrite app_assoc, H0, H0r. cbn [app].
  destruct pg' as [p |].
  2:{ inversion E1. subst. cbn. split; [reflexivity | discriminate]. }
  destruct (dma_coherent_ok A dev (page_to_phys p) size) eqn:Eok;
    cbn [negb] in E1.
  { inversion E1. subst. cbn. split; [reflexivity |].
    intros p' Hp'. inversion Hp'. subst. exact Eok. }
  apply bind_inv in E1. destruct E1 as (u & tf & t2 & Ef & E2 & ->).
  inversion Ef; subst tf. clear Ef.
  rewrite obtained_pages_app, released_pages_app.
  change (obtained_pages [E_dma_free_contiguous p size]) with (@nil page).
  change (released_pages [E_dma_free_contiguous p size]) with [p].
  cbn [app opt_to_list].
  assert (Hrec : forall gfp',
            alloc_again K A W fuel dev size alloc_size node phys_limit gfp'
              None ((h ++ t0) ++ [E_dma_free_contiguous p size])
            = (Returned r, t2) ->
            p :: obtained_pages t2 = p :: released_pages t2 ++ opt_to_list r /\
            (forall p0, r = Some p0 ->
                        dma_coherent_ok A dev (page_to_phys p0) size = true)).
  { intros gfp' E3. destruct (IH _ _ _ _ _ _ _ _ _ _ E3) as [Hb Hr].
    cbn [opt_to_list app] in Hb. rewrite Hb. split; [reflexivity | exact Hr]. }
  destruct (CONFIG_ZONE_DMA32 K && (phys_limit <? DMA_BIT_MASK 64)
            && negb (tst gfp (Z.lor (GFP_DMA32 K) (GFP_DMA K)))).
  - apply (Hrec _ E2).
  - destruct (CONFIG_ZONE_DMA K && negb (tst gfp (GFP_DMA K))).
    + apply (Hrec _ E2).
    + inversion E2. subst. cbn. split; [reflexivity | discriminate].
Qed.

(** What [__dma_direct_alloc_pages] leaves behind when it returns. *)
Lemma alloc_pages_balance :
  forall fuel dev size gfp attrs h r tr,
    __dma_direct_alloc_pages K A W fuel dev size gfp attrs h
    = (Returned r, tr) ->
    obtained_pages tr = released_pages tr ++ opt_to_list r /\
    (forall p, r = Some p ->
               dma_coherent_ok A dev (page_to_phys p) size = true).
Proof.
  intros fuel dev size gfp attrs h r tr E.
  unfold __dma_direct_alloc_pages in E.
  destruct (__dma_direct_optimal_gfp_mask K A dev (coherent_dma_mask dev))
    as [zone phys_limit].
  apply bind_inv in E. destruct E as (pg0 & t0 & t' & E0 & E & ->).
  apply bind_inv in E. destruct E as (pg1 & t1 & t2 & E1 & E2 & ->).
  destruct (alloc_again_balance _ _ _ _ _ _ _ _ _ _ _ E2) as [Hb Hr].
  split; [| exact Hr].
  rewrite !obtained_pages_app, !released_pages_app.
  assert (H0 : obtained_pages t0 = opt_to_list pg0 /\ released_pages t0 = []).
  { unfold dma_alloc_contiguous, ask in E0. inversion E0. subst.
    cbn. rewrite app_nil_r. split; reflexivity. }
  destruct H0 as [H0 H0r]. rewrite H0, H0r. cbn [app].
  assert (H1 : obtained_pages t1 = [] /\
               opt_to_list pg0 = released_pages t1 ++ opt_to_list pg1).
  { destruct pg0 as [p |]; [| inversion E1; subst; split; reflexivity].
    destruct (negb (dma_coherent_ok A dev (page_to_phys p) size)).
    - apply bind_inv in E1. destruct E1 as (u & ta & tb & Ea & Eb & ->).
      inversion Ea. inversion Eb. subst. split; reflexivity.
    - inversion E1. subst. split; reflexivity. }
  destruct H1 as [H1 H1r]. rewrite H1, H1r. cbn [app].
  rewrite <- !app_assoc. f_equal. exact Hb.
Qed.

(** X1: a page returned by [__dma_direct_alloc_pages] passes
    [dma_coherent_ok] for the requested size, whichever allocator and zone
    it came from. *)
Theorem alloc_pages_returns_reachable :
  forall fuel dev size gfp attrs h p tr,
    __dma_direct_alloc_pages K A W fuel dev size gfp attrs h
    = (Returned (Some p), tr) ->
    dma_coherent_ok A dev (page_to_phys p) size = true.
Proof.
  intros fuel dev size gfp attrs h p tr E.
  destruct (alloc_pages_balance _ _ _ _ _ _ _ _ E) as [_ Hr].
  apply Hr. reflexivity.
Qed.

(** X2: when [__dma_direct_alloc_pages] returns, every page it obtained
    from the contiguous pool or the page allocator has been released, in
    the order obtained, except the page it returns; on failure nothing is
    left behind. *)
Theorem alloc_pages_releases_rejected :
  forall fuel dev size gfp attrs h r tr,
    __dma_direct_alloc_pages K A W fuel dev size gfp attrs h
    = (Returned r, tr) ->
    obtained_pages tr = released_pages tr ++ opt_to_list r.
Proof.
  intros fuel dev size gfp attrs h r tr E.
  exact (proj1 (alloc_pages_balance _ _ _ _ _ _ _ _ E)).
Qed.

(** What [dma_direct_alloc_pages] leaves behind outside the atomic pool
    path: on failure every page obtained was released; on success exactly
    one page is kept, it passed the reachability check, and its bus address
    is the handle. *)
Lemma coherent_alloc_outcome :
  forall fuel dev size gfp attrs h r tr,
    CONFIG_DMA_DIRECT_REMAP K && dma_alloc_need_uncached A dev attrs
    && negb (gfpflags_allow_blocking A gfp) = false ->
    dma_direct_alloc_pages K A W fuel dev size gfp attrs h
    = (Returned r, tr) ->
    match r with
    | None => obtained_pages tr = released_pages tr
    | Some (cpu, handle) =>
      exists p,
        obtained_pages tr = released_pages tr ++ [p] /\
        handle = phys_to_dma_direct A dev (page_to_phys p) /\
        dma_coherent_ok A dev (page_to_phys p) size = true /\
        (if tst attrs (DMA_ATTR_NO_KERNEL_MAPPING K)
            && negb (force_dma_unencrypted dev)
         then cpu = PageCookie p else exists va, cpu = KernelAddr va)
    end.
Proof.
  intros fuel dev size gfp attrs h r tr Hpool E.
  unfold dma_direct_alloc_pages in E. rewrite Hpool in E.
  apply bind_inv in E. destruct E as (o & t0 & t1 & E0 & E1 & ->).
  destruct o as [[p |] |]; [| | inversion E1].
  2:{ inversion E1. subst. rewrite app_nil_r.
      destruct (alloc_pages_balance _ _ _ _ _ _ _ _ E0) as [Hb _].
      cbn in Hb. rewrite app_nil_r in Hb. exact Hb. }
  destruct (alloc_pages_balance _ _ _ _ _ _ _ _ E0) as [Hb Hr].
  specialize (Hr p eq_refl). cbn [opt_to_list] in Hb.
  rewrite obtained_pages_app, released_pages_app, Hb.
  set (cookie := tst attrs (DMA_ATTR_NO_KERNEL_MAPPING K)
                 && negb (force_dma_unencrypted dev)) in *.
  pose (Post := fun (r : option (cpu_addr * Z)) (t : trace) =>
          match r with
          | None =>
            (released_pages t0 ++ [p]) ++ obtained_pages t
            = released_pages t0 ++ released_pages t
          | Some (cpu', handle) =>
            exists p0,
              (released_pages t0 ++ [p]) ++ obtained_pages t
              = (released_pages t0 ++ released_pages t) ++ [p0] /\
              handle = phys_to_dma_direct A dev (page_to_phys p0) /\
              dma_coherent_ok A dev (page_to_phys p0) size = true /\
              (if cookie then cpu' = PageCookie p0
               else exists va, cpu' = KernelAddr va)
          end).
  change (Post r t1).
  assert (Hkeep : forall cpu t,
            obtained_pages t = [] -> released_pages t = [] ->
            (if cookie then cpu = PageCookie p
             else exists va, cpu = KernelAddr va) ->
            Post (alloc_done A dev cpu p) t).
  { intros cpu t Ho Hrel Hcpu. unfold Post, alloc_done.
    exists p. rewrite Ho, Hrel, !app_nil_r.
    split; [reflexivity |]. split; [reflexivity |].
    split; [exact Hr | exact Hcpu]. }
  assert (Hdrop : forall t,
            obtained_pages t = [] -> released_pages t = [p] ->
            Post None t).
  { intros t Ho Hrel. unfold Post. rewrite Ho, Hrel, app_nil_r.
    reflexivity. }
  clearbody Post. clearbody cookie.
  destruct cookie.
  { apply bind_inv in E1. destruct E1 as (u & t2 & t3 & E2 & E3 & ->).
    inversion E3. subst.
    assert (Ht2 : obtained_pages t2 = [] /\ released_pages t2 = []).
    { unfold when in E2. destruct (negb (PageHighMem p)); inversion E2;
        split; reflexivity. }
    destruct Ht2 as [Ho2 Hr2].
    apply Hkeep; [| | reflexivity];
      rewrite ?obtained_pages_app, ?released_pages_app, ?Ho2, ?Hr2;
      reflexivity. }
  destruct ((CONFIG_DMA_DIRECT_REMAP K && dma_alloc_need_uncached A dev attrs)
            || (CONFIG_DMA_REMAP K && PageHighMem p)).
  { apply bind_inv in E1. destruct E1 as (u & t2 & t3 & E2 & E3 & ->).
    apply bind_inv in E3. destruct E3 as (rm & t4 & t5 & E4 & E5 & ->).
    inversion E2; subst t2. unfold dma_common_contiguous_remap, ask in E4.
    inversion E4; subst t4. clear E2 E4.
    destruct rm as [va |].
    - apply bind_inv in E5. destruct E5 as (u' & t6 & t7 & E6 & E7 & ->).
      inversion E6; subst t6. inversion E7. subst.
      apply Hkeep; [reflexivity | reflexivity | eauto].
    - apply bind_inv in E5. destruct E5 as (u' & t6 & t7 & E6 & E7 & ->).
      inversion E6; subst t6. inversion E7. subst.
      apply Hdrop; reflexivity. }
  destruct (PageHighMem p).
  { apply bind_inv in E1. destruct E1 as (u & t2 & t3 & E2 & E3 & ->).
    apply bind_inv in E3. destruct E3 as (u' & t4 & t5 & E4 & E5 & ->).
    inversion E2; subst t2. inversion E4; subst t4. inversion E5. subst.
    apply Hdrop; reflexivity. }
  apply bind_inv in E1. destruct E1 as (u & t2 & t3 & E2 & E3 & ->).
  apply bind_inv in E3. destruct E3 as (u' & t4 & t5 & E4 & E5 & ->).
  inversion E4; subst t4. clear E4.
  assert (Ht2 : obtained_pages t2 = [] /\ released_pages t2 = []).
  { unfold when in E2. destruct (force_dma_unencrypted dev); inversion E2;
      split; reflexivity. }
  destruct Ht2 as [Ho2 Hr2].
  destruct (CONFIG_ARCH_HAS_UNCACHED_SEGMENT K
            && dma_alloc_need_uncached A dev attrs).
  - apply bind_inv in E5. destruct E5 as (u'' & t6 & t7 & E6 & E7 & ->).
    inversion E6; subst t6. inversion E7. subst.
    apply Hkeep; [| | eauto];
      rewrite ?obtained_pages_app, ?released_pages_app, ?Ho2, ?Hr2;
      reflexivity.
  - inversion E5. subst.
    apply Hkeep; [| | eauto];
      rewrite ?obtained_pages_app, ?released_pages_app, ?Ho2, ?Hr2;
      reflexivity.
Qed.

(** X3: outside the atomic pool path, the bus address that a successful
    [dma_direct_alloc_pages] stores in [*dma_handle] is within reach of the
    device: the last bus address of the buffer, modulo [2^64], is at most
    [min_not_zero(coherent_dma_mask, bus_dma_limit)]. *)
Theorem coherent_alloc_handle_reachable :
  forall fuel dev size gfp attrs h cpu handle tr,
    CONFIG_DMA_DIRECT_REMAP K && dma_alloc_need_uncached A dev attrs
    && negb (gfpflags_allow_blocking A gfp) = false ->
    dma_direct_alloc_pages K A W fuel dev size gfp attrs h
    = (Returned (Some (cpu, handle)), tr) ->
    u64 (handle + size - 1)
    <= min_not_zero (coherent_dma_mask dev) (bus_dma_limit dev).
Proof.
  intros fuel dev size gfp attrs h cpu handle tr Hpool E.
  pose proof (coherent_alloc_outcome _ _ _ _ _ _ _ _ Hpool E) as H.
  cbn beta iota in H. destruct H as (p & _ & -> & Hok & _).
  unfold dma_coherent_ok in Hok. apply Z.leb_le in Hok. exact Hok.
Qed.

(** X4: outside the atomic pool path, a [dma_direct_alloc_pages] that
    returns [NULL] has released every page it obtained (also when the remap
    failed or a high-memory page was rejected); one that succeeds keeps
    exactly one page, the one whose bus address is the handle. *)
Theorem coherent_alloc_keeps_one_page :
  forall fuel dev size gfp attrs h r tr,
    CONFIG_DMA_DIRECT_REMAP K && dma_alloc_need_uncached A dev attrs
    && negb (gfpflags_allow_blocking A gfp) = false ->
    dma_direct_alloc_pages K A W fuel dev size gfp attrs h
    = (Returned r, tr) ->
    match r with
    | None => obtained_pages tr = released_pages tr
    | Some (cpu, handle) =>
      exists p,
        obtained_pages tr = released_pages tr ++ [p] /\
        handle = phys_to_dma_direct A dev (page_to_phys p)
    end.
Proof.
  intros fuel dev size gfp attrs h r tr Hpool E.
  pose proof (coherent_alloc_outcome _ _ _ _ _ _ _ _ Hpool E) as H.
  destruct r as [[cpu handle] |]; [| exact H].
  destruct H as (p & Hb & Hh & _). exists p. split; assumption.
Qed.

End AllocationInvariants.

Lemma alloc_pages_returns_reachable_witness :
  __dma_direct_alloc_pages linux_config flat_arch zoned_world 3 dev32 4096
    3264 0 []
  = (Returned (Some page_2g),
     snd (__dma_direct_alloc_pages linux_config flat_arch zoned_world 3 dev32
            4096 3264 0 [])) /\
  dma_coherent_ok flat_arch dev32 (page_to_phys page_2g) 4096 = true.
Proof.
  split; [reflexivity |].
  apply (alloc_pages_returns_reachable linux_config flat_arch zoned_world 3
           dev32 4096 3264 0 [] page_2g
           (snd (__dma_direct_alloc_pages linux_config flat_arch zoned_world 3
                   dev32 4096 3264 0 []))).
  reflexivity.
Defined.

Lemma alloc_pages_releases_rejected_witness :
  let out := __dma_direct_alloc_pages linux_config flat_arch zoned_world 3
               (mk_device (2 ^ 33 - 1) 0 true) 4096 3264 0 [] in
  out = (Returned (Some page_2g), snd out) /\
  obtained_pages (snd out) = released_pages (snd out) ++ opt_to_list (Some page_2g).
Proof.
  split; [reflexivity |].
  apply (alloc_pages_releases_rejected linux_config flat_arch zoned_world 3
           (mk_device (2 ^ 33 - 1) 0 true) 4096 3264 0 []).
  reflexivity.
Defined.

Lemma coherent_alloc_handle_reachable_witness :
  let out := dma_direct_alloc_pages linux_config flat_arch zoned_world 3
               dev32 4096 3264 0 [] in
  CONFIG_DMA_DIRECT_REMAP linux_config
  && dma_alloc_need_uncached flat_arch dev32 0
  && negb (gfpflags_allow_blocking flat_arch 3264) = false /\
  out = (Returned (Some (KernelAddr (page_address page_2g), 2 ^ 31)), snd out) /\
  u64 (2 ^ 31 + 4096 - 1)
  <= min_not_zero (coherent_dma_mask dev32) (bus_dma_limit dev32).
Proof.
  split; [reflexivity |]. split; [reflexivity |].
  apply (coherent_alloc_handle_reachable linux_config flat_arch zoned_world 3
           dev32 4096 3264 0 [] (KernelAddr (page_address page_2g)) (2 ^ 31)
           (snd (dma_direct_alloc_pages linux_config flat_arch zoned_world 3
                   dev32 4096 3264 0 [])));
    reflexivity.
Defined.

Lemma coherent_alloc_keeps_one_page_witness :
  let out := dma_direct_alloc_pages linux_config flat_arch cma_highmem_world 3
               dev32 4096 3264 0 [] in
  CONFIG_DMA_DIRECT_REMAP linux_config
  && dma_alloc_need_uncached flat_arch dev32 0
  && negb (gfpflags_allow_blocking flat_arch 3264) = false /\
  out = (Returned None, snd out) /\
  obtained_pages (snd out) = released_pages (snd out).
Proof.
  split; [reflexivity |]. split; [reflexivity |].
  apply (coherent_alloc_keeps_one_page linux_config flat_arch
           cma_highmem_world 3 dev32 4096 3264 0 [] None
           (snd (dma_direct_alloc_pages linux_config flat_arch
                   cma_highmem_world 3 dev32 4096 3264 0 [])));
    reflexivity.
Defined.

(** ** The gfp word handed to the allocators *)

Lemma land_bits (a b c : Z) :
  Z.land a b = c ->
  forall n, Z.testbit a n && Z.testbit b n = Z.testbit c n.
Proof. intros H n. rewrite <- H. symmetry. apply Z.land_spec. Qed.

Section GfpInvariants.

Variable K : kconfig.
Variable A : arch_ops.
Variable W : world.

(** A property of the gfp word that both retries keep holds for every
    request to the allocators. *)
Lemma alloc_again_gfps (P : Z -> Prop) :
  (forall g, P g -> P (Z.lor g (GFP_DMA32 K))) ->
  (forall g, P g ->
             P (Z.lor (Z.land g (Z.lnot (GFP_DMA32 K))) (GFP_DMA K))) ->
  forall fuel dev size alloc_size node phys_limit gfp pg h o tr,
    alloc_again K A W fuel dev size alloc_size node phys_limit gfp pg h
    = (o, tr) ->
    P gfp -> Forall P (allocator_gfps tr).
Proof.
  intros H32 Hdma. induction fuel as [| fuel IH];
    intros dev size alloc_size node phys_limit gfp pg h o tr E HP.
  { inversion E. constructor. }
  cbn [alloc_again] in E.
  apply bind_inv in E. destruct E as (pg' & t0 & t1 & E0 & E1 & ->).
  rewrite allocator_gfps_app. apply Forall_app. split.
  { destruct pg; inversion E0; cbn; repeat constructor. exact HP. }
  destruct pg' as [p |]; [| inversion E1; constructor].
  destruct (negb (dma_coherent_ok A dev (page_to_phys p) size));
    [| inversion E1; constructor].
  apply bind_inv in E1. destruct E1 as (u & tf & t2 & Ef & E2 & ->).
  inversion Ef; subst tf. cbn [app allocator_gfps flat_map].
  destruct (CONFIG_ZONE_DMA32 K && (phys_limit <? DMA_BIT_MASK 64)
            && negb (tst gfp (Z.lor (GFP_DMA32 K) (GFP_DMA K)))).
  - exact (IH _ _ _ _ _ _ _ _ _ _ E2 (H32 _ HP)).
  - destruct (CONFIG_ZONE_DMA K && negb (tst gfp (GFP_DMA K))).
    + exact (IH _ _ _ _ _ _ _ _ _ _ E2 (Hdma _ HP)).
    + inversion E2. constructor.
Qed.

Lemma alloc_pages_gfps (P : Z -> Prop) :
  (forall g, P g -> P (Z.lor g (GFP_DMA32 K))) ->
  (forall g, P g ->
             P (Z.lor (Z.land g (Z.lnot (GFP_DMA32 K))) (GFP_DMA K))) ->
  forall fuel dev size gfp attrs h,
    (forall zone, zone = GFP_DMA K \/ zone = GFP_DMA32 K \/ zone = 0 ->
       P (Z.lor (Z.land (if tst attrs (DMA_ATTR_NO_WARN K)
                         then Z.lor gfp (__GFP_NOWARN K) else gfp)
                        (Z.lnot (__GFP_ZERO K))) zone)) ->
    Forall P
      (allocator_gfps
         (snd (__dma_direct_alloc_pages K A W fuel dev size gfp attrs h))).
Proof.
  intros H32 Hdma fuel dev size gfp attrs h Hinit.
  destruct (__dma_direct_alloc_pages K A W fuel dev size gfp attrs h)
    as [o tr] eqn:E. cbn [snd].
  unfold __dma_direct_alloc_pages in E.
  destruct (__dma_direct_optimal_gfp_mask K A dev (coherent_dma_mask dev))
    as [zone phys_limit] eqn:Eopt.
  assert (Hzone : zone = GFP_DMA K \/ zone = GFP_DMA32 K \/ zone = 0).
  { unfold __dma_direct_optimal_gfp_mask in Eopt.
    destruct (_ <=? DMA_BIT_MASK (zone_dma_bits K));
      [inversion Eopt; auto |].
    destruct (_ <=? DMA_BIT_MASK 32); inversion Eopt; auto. }
  specialize (Hinit zone Hzone).
  apply bind_inv in E. destruct E as (pg0 & t0 & t' & E0 & E & ->).
  apply bind_inv in E. destruct E as (pg1 & t1 & t2 & E1 & E2 & ->).
  rewrite !allocator_gfps_app. apply Forall_app. split.
  { unfold dma_alloc_contiguous, ask in E0. inversion E0.
    cbn. repeat constructor. exact Hinit. }
  apply Forall_app. split.
  { destruct pg0 as [p |]; [| inversion E1; constructor].
    destruct (negb (dma_coherent_ok A dev (page_to_phys p) size)).
    - apply bind_inv in E1. destruct E1 as (u & ta & tb & Ea & Eb & ->).
      inversion Ea. inversion Eb. constructor.
    - inversion E1. constructor. }
  exact (alloc_again_gfps P H32 Hdma _ _ _ _ _ _ _ _ _ _ _ E2 Hinit).
Qed.

(** X5: whatever gfp word the caller passes, [__dma_direct_alloc_pages]
    never asks the contiguous pool or the page allocator for zeroed memory:
    every request has the [__GFP_ZERO] bits clear (the zone flags do not
    overlap [__GFP_ZERO]). *)
Theorem allocators_never_asked_to_zero :
  Z.land (GFP_DMA K) (__GFP_ZERO K) = 0 ->
  Z.land (GFP_DMA32 K) (__GFP_ZERO K) = 0 ->
  forall fuel dev size gfp attrs h,
    Forall (fun g => Z.land g (__GFP_ZERO K) = 0)
      (allocator_gfps
         (snd (__dma_direct_alloc_pages K A W fuel dev size gfp attrs h))).
Proof.
  intros Hd Hd32 fuel dev size gfp attrs h.
  pose proof (land_bits _ _ _ Hd) as Bd.
  pose proof (land_bits _ _ _ Hd32) as Bd32.
  apply alloc_pages_gfps.
  - intros g Hg. pose proof (land_bits _ _ _ Hg) as Bg.
    apply Z.bits_inj'; intros n _.
    specialize (Bd32 n). specialize (Bg n).
    rewrite Z.bits_0 in *. rewrite Z.land_spec, Z.lor_spec.
    destruct (Z.testbit g n), (Z.testbit (GFP_DMA32 K) n),
      (Z.testbit (__GFP_ZERO K) n); cbn in *; congruence.
  - intros g Hg. pose proof (land_bits _ _ _ Hg) as Bg.
    apply Z.bits_inj'; intros n Hn.
    specialize (Bd n). specialize (Bg n).
    rewrite Z.bits_0 in *.
    rewrite !Z.land_spec, Z.lor_spec, Z.land_spec.
    destruct (Z.testbit g n), (Z.testbit (Z.lnot (GFP_DMA32 K)) n),
      (Z.testbit (GFP_DMA K) n), (Z.testbit (__GFP_ZERO K) n);
      cbn in *; congruence.
  - intros zone Hzone.
    assert (Bz : forall n, Z.testbit zone n && Z.testbit (__GFP_ZERO K) n
                           = false).
    { intros n. destruct Hzone as [-> | [-> | ->]].
      - rewrite (Bd n). apply Z.bits_0.
      - rewrite (Bd32 n). apply Z.bits_0.
      - rewrite Z.bits_0. reflexivity. }
    set (x := if tst attrs (DMA_ATTR_NO_WARN K)
              then Z.lor gfp (__GFP_NOWARN K) else gfp).
    apply Z.bits_inj'; intros n Hn. specialize (Bz n).
    rewrite Z.bits_0, Z.land_spec, Z.lor_spec, Z.land_spec,
      Z.lnot_spec by exact Hn.
    destruct (Z.testbit x n), (Z.testbit zone n),
      (Z.testbit (__GFP_ZERO K) n); cbn in *; congruence.
Qed.

(** X6: with [DMA_ATTR_NO_WARN] every request that
    [__dma_direct_alloc_pages] makes to the contiguous pool or the page
    allocator, retries included, carries [__GFP_NOWARN] (the flag overlaps
    neither [__GFP_ZERO] nor [GFP_DMA32]). *)
Theorem no_warn_reaches_allocators :
  Z.land (__GFP_NOWARN K) (__GFP_ZERO K) = 0 ->
  Z.land (__GFP_NOWARN K) (GFP_DMA32 K) = 0 ->
  forall fuel dev size gfp attrs h,
    tst attrs (DMA_ATTR_NO_WARN K) = true ->
    Forall (fun g => Z.land g (__GFP_NOWARN K) = __GFP_NOWARN K)
      (allocator_gfps
         (snd (__dma_direct_alloc_pages K A W fuel dev size gfp attrs h))).
Proof.
  intros Hz H32 fuel dev size gfp attrs h Hattr.
  pose proof (land_bits _ _ _ Hz) as Bz.
  pose proof (land_bits _ _ _ H32) as B32.
  apply alloc_pages_gfps.
  - intros g Hg. pose proof (land_bits _ _ _ Hg) as Bg.
    apply Z.bits_inj'; intros n _. specialize (Bg n).
    rewrite Z.land_spec, Z.lor_spec.
    destruct (Z.testbit g n), (Z.testbit (GFP_DMA32 K) n),
      (Z.testbit (__GFP_NOWARN K) n); cbn in *; congruence.
  - intros g Hg. pose proof (land_bits _ _ _ Hg) as Bg.
    apply Z.bits_inj'; intros n Hn. specialize (Bg n). specialize (B32 n).
    rewrite Z.bits_0 in B32.
    rewrite Z.land_spec, Z.lor_spec, Z.land_spec, Z.lnot_spec by exact Hn.
    destruct (Z.testbit g n), (Z.testbit (GFP_DMA32 K) n),
      (Z.testbit (GFP_DMA K) n), (Z.testbit (__GFP_NOWARN K) n);
      cbn in *; congruence.
  - intros zone _. rewrite Hattr.
    apply Z.bits_inj'; intros n Hn. specialize (Bz n).
    rewrite Z.bits_0 in Bz.
    rewrite Z.land_spec, Z.lor_spec, Z.land_spec, Z.lor_spec,
      Z.lnot_spec by exact Hn.
    destruct (Z.testbit gfp n), (Z.testbit zone n),
      (Z.testbit (__GFP_ZERO K) n), (Z.testbit (__GFP_NOWARN K) n);
      cbn in *; congruence.
Qed.

End GfpInvariants.

Lemma allocators_never_asked_to_zero_witness :
  Z.land (GFP_DMA linux_config) (__GFP_ZERO linux_config) = 0 /\
  Z.land (GFP_DMA32 linux_config) (__GFP_ZERO linux_config) = 0 /\
  Forall (fun g => Z.land g (__GFP_ZERO linux_config) = 0)
    (allocator_gfps
       (snd (__dma_direct_alloc_pages linux_config flat_arch zoned_world 3
               (mk_device (2 ^ 33 - 1) 0 true) 4096 3520 0 []))).
Proof.
  split; [reflexivity |]. split; [reflexivity |].
  apply (allocators_never_asked_to_zero linux_config flat_arch zoned_world);
    reflexivity.
Defined.

Lemma no_warn_reaches_allocators_witness :
  Z.land (__GFP_NOWARN linux_config) (__GFP_ZERO linux_config) = 0 /\
  Z.land (__GFP_NOWARN linux_config) (GFP_DMA32 linux_config) = 0 /\
  tst (DMA_ATTR_NO_WARN linux_config) (DMA_ATTR_NO_WARN linux_config) = true /\
  Forall (fun g => Z.land g (__GFP_NOWARN linux_config)
                   = __GFP_NOWARN linux_config)
    (allocator_gfps
       (snd (__dma_direct_alloc_pages linux_config flat_arch zoned_world 3
               (mk_device (2 ^ 33 - 1) 0 true) 4096 3264
               (DMA_ATTR_NO_WARN linux_config) []))).
Proof.
  split; [reflexivity |]. split; [reflexivity |]. split; [reflexivity |].
  apply (no_warn_reaches_allocators linux_config flat_arch zoned_world);
    reflexivity.
Defined.

(** ** Further properties of synchronisation and unmapping *)




Lemma for_each_nothing (body : scatterlist -> M unit) (l : list scatterlist) :
  Forall (fun sg => forall h, body sg h = (tt, [])) l ->
  forall h, for_each body l h = (tt, []).
Proof.
  induction 1 as [| sg l Hsg Hl IH]; intros h; [reflexivity |].
  cbn [for_each]. unfold bind. rewrite Hsg, IH. reflexivity.
Qed.


(** X8: on a cache-coherent device, buffers that are not bounce slots need
    no work: syncing them for the device or the CPU and unmapping them
    calls no collaborator, for a single buffer and for a scatter-gather
    list. *)
Theorem coherent_direct_buffers_need_no_sync :
  forall (K : kconfig) (A : arch_ops) (dev : device)
         (dir : dma_data_direction) (attrs : Z) (h : trace),
    dev_is_dma_coherent dev = true ->
    (forall addr size,
       is_swiotlb_buffer A (dma_to_phys A dev addr) = false ->
       dma_direct_sync_single_for_device A dev addr size dir h = (tt, []) /\
       dma_direct_sync_single_for_cpu A dev addr size dir h = (tt, []) /\
       dma_direct_unmap_page K A dev addr size dir attrs h = (tt, [])) /\
    (forall sgl nents,
       Forall (fun sg =>
                 is_swiotlb_buffer A (dma_to_phys A dev (dma_address sg))
                 = false) (firstn nents sgl) ->
       dma_direct_sync_sg_for_device A dev sgl nents dir h = (tt, []) /\
       dma_direct_sync_sg_for_cpu A dev sgl nents dir h = (tt, []) /\
       dma_direct_unmap_sg K A dev sgl nents dir attrs h = (tt, [])).
Proof.
  intros K A dev dir attrs h Hcoh.
  assert (Hsingle : forall addr size h',
            is_swiotlb_buffer A (dma_to_phys A dev addr) = false ->
            dma_direct_sync_single_for_device A dev addr size dir h' = (tt, []) /\
            dma_direct_sync_single_for_cpu A dev addr size dir h' = (tt, []) /\
            dma_direct_unmap_page K A dev addr size dir attrs h' = (tt, [])).
  { intros addr size h' Hb.
    unfold dma_direct_unmap_page, dma_direct_sync_single_for_device,
      dma_direct_sync_single_for_cpu, bind, when.
    rewrite Hcoh, Hb. cbn [negb].
    destruct (negb (tst attrs (DMA_ATTR_SKIP_CPU_SYNC K)));
      repeat split; reflexivity. }
  split; [intros addr size; apply Hsingle |].
  intros sgl nents Hall.
  unfold dma_direct_sync_sg_for_device, dma_direct_sync_sg_for_cpu,
    dma_direct_unmap_sg, for_each_sg.
  split; [| split].
  - apply for_each_nothing. eapply Forall_impl; [| exact Hall].
    cbn beta. intros sg Hb h'.
    exact (proj1 (Hsingle (dma_address sg) (sg_length sg) h' Hb)).
  - unfold bind. rewrite for_each_nothing.
    + rewrite Hcoh. reflexivity.
    + eapply Forall_impl; [| exact Hall]. cbn beta. intros sg Hb h'.
      unfold bind, when. rewrite Hcoh, Hb. reflexivity.
  - apply for_each_nothing. eapply Forall_impl; [| exact Hall].
    cbn beta. intros sg Hb h'.
    exact (proj2 (proj2 (Hsingle (dma_address sg) (sg_dma_len K sg) h' Hb))).
Qed.

Lemma coherent_direct_buffers_need_no_sync_witness :
  dev_is_dma_coherent dev32 = true /\
  Forall (fun sg =>
            is_swiotlb_buffer flat_arch
              (dma_to_phys flat_arch dev32 (dma_address sg)) = false)
    (firstn 2 [mapped_sg (2 ^ 20) 512; mapped_sg (2 ^ 21) 512]) /\
  dma_direct_sync_sg_for_device flat_arch dev32
    [mapped_sg (2 ^ 20) 512; mapped_sg (2 ^ 21) 512] 2 DMA_TO_DEVICE []
  = (tt, []) /\
  dma_direct_sync_sg_for_cpu flat_arch dev32
    [mapped_sg (2 ^ 20) 512; mapped_sg (2 ^ 21) 512] 2 DMA_TO_DEVICE []
  = (tt, []) /\
  dma_direct_unmap_sg linux_config flat_arch dev32
    [mapped_sg (2 ^ 20) 512; mapped_sg (2 ^ 21) 512] 2 DMA_TO_DEVICE 0 []
  = (tt, []).
Proof.
  split; [reflexivity |].
  split; [repeat constructor |].
  apply (coherent_direct_buffers_need_no_sync linux_config flat_arch dev32
           DMA_TO_DEVICE 0 [] eq_refl).
  repeat constructor.
Defined.



(** ** Further properties of streaming maps *)

(** X10: [dma_direct_map_page] writes the cache back for the device exactly
    once when the mapping succeeds on a non-coherent device without
    [DMA_ATTR_SKIP_CPU_SYNC], and never otherwise.  When it reports a
    failure it returns [DMA_MAPPING_ERROR] and has done no cache
    maintenance. *)
Theorem map_page_cache_maintenance :
  forall (K : kconfig) (A : arch_ops) (W : world) (dev : device) (pg : page)
         (off size : Z) (dir : dma_data_direction) (attrs : Z) (h : trace),
    let out := dma_direct_map_page K A W dev pg off size dir attrs h in
    let flushes := length (filter is_arch_sync_for_device (snd out)) in
    (existsb is_report_addr (snd out) = true ->
     fst out = DMA_MAPPING_ERROR /\ flushes = 0%nat) /\
    (existsb is_report_addr (snd out) = false ->
     flushes = if negb (dev_is_dma_coherent dev)
                  && negb (tst attrs (DMA_ATTR_SKIP_CPU_SYNC K))
               then 1%nat else 0%nat).
Proof.
  intros K A W dev pg off size dir attrs h out flushes.
  subst flushes out. unfold dma_direct_map_page.
  destruct (negb (dma_direct_possible K A dev _ size)).
  - unfold bind, swiotlb_map, ask.
    destruct (w_swiotlb_map W h dev _ _ size dir attrs)
      as [[ok phys'] dma_addr'].
    destruct ok; cbn [negb].
    + unfold when.
      destruct (negb (dev_is_dma_coherent dev)
                && negb (tst attrs (DMA_ATTR_SKIP_CPU_SYNC K)));
        cbn; split; intros E; try discriminate E; reflexivity.
    + cbn. split; intros E; [split; reflexivity | discriminate E].
  - unfold bind, when.
    destruct (negb (dev_is_dma_coherent dev)
              && negb (tst attrs (DMA_ATTR_SKIP_CPU_SYNC K)));
      cbn; split; intros E; try discriminate E; reflexivity.
Qed.

Section ScatterGatherShape.

Variable K : kconfig.
Variable A : arch_ops.
Variable W : world.

Lemma same_segment_refl (l : list scatterlist) : Forall2 same_segment l l.
Proof. induction l; constructor; [repeat split | assumption]. Qed.

(** An entry as the loop of [dma_direct_map_sg] leaves it after a
    successful mapping. *)
Lemma mapped_entry (a : Z) (sg : scatterlist) :
  let sg' := set_sg_dma_len K (sg_length sg) (set_dma_address a sg) in
  same_segment sg sg' /\ dma_address sg' = a /\
  sg_dma_len K sg' = sg_length sg'.
Proof.
  unfold same_segment, set_sg_dma_len, sg_dma_len, set_dma_length,
    set_dma_address.
  destruct (CONFIG_NEED_SG_DMA_LENGTH K); cbn; repeat split.
Qed.

Lemma map_sg_loop_shape (dev : device) (nents : nat)
  (dir : dma_data_direction) (attrs : Z) (rest : list scatterlist) :
  forall todo done h r l' tr,
    map_sg_loop K A W dev nents done todo rest dir attrs h = ((r, l'), tr) ->
    exists todo',
      l' = done ++ todo' ++ rest /\
      Forall2 same_segment todo todo' /\
      ((r = Z.of_nat nents /\
        Forall (fun sg => dma_address sg <> DMA_MAPPING_ERROR /\
                          sg_dma_len K sg = sg_length sg) todo') \/
       (r = 0 /\ todo <> [])).
Proof.
  induction todo as [| sg todo IH]; intros done h r l' tr E.
  { inversion E. exists []. split; [reflexivity |].
    split; [constructor | left; split; [reflexivity | constructor]]. }
  cbn [map_sg_loop] in E.
  apply bind_inv in E. destruct E as (a & t1 & t2 & E1 & E2 & ->).
  destruct (Z.eqb_spec a DMA_MAPPING_ERROR) as [Ea | Ea].
  - apply bind_inv in E2. destruct E2 as (u & t3 & t4 & _ & E4 & _).
    inversion E4. exists (set_dma_address a sg :: todo).
    split; [reflexivity |]. split.
    + constructor; [repeat split | apply same_segment_refl].
    + right. split; [reflexivity | discriminate].
  - destruct (mapped_entry a sg) as (Hsame & Haddr & Hlen).
    change (sg_length (set_dma_address a sg)) with (sg_length sg) in E2.
    destruct (IH _ _ _ _ _ E2) as (todo' & -> & Hshape & Hres).
    exists (set_sg_dma_len K (sg_length sg) (set_dma_address a sg) :: todo').
    split; [rewrite <- app_assoc; reflexivity |].
    split; [constructor; assumption |].
    destruct Hres as [[-> Hgood] | [-> Hne]].
    + left. split; [reflexivity |]. constructor; [| exact Hgood].
      split; [rewrite Haddr; exact Ea | exact Hlen].
    + right. split; [reflexivity | discriminate].
Qed.

(** X11: [dma_direct_map_sg] never changes which memory a scatterlist
    describes: whether it succeeds or fails, the list it leaves has the same
    number of entries, every entry keeps its page, offset and length, and
    the entries beyond [nents] are untouched. *)
Theorem map_sg_preserves_segments :
  forall dev sgl nents dir attrs h,
    let sgl' := snd (fst (dma_direct_map_sg K A W dev sgl nents dir attrs h)) in
    Forall2 same_segment sgl sgl' /\
    length sgl' = length sgl /\
    skipn nents sgl' = skipn nents sgl.
Proof.
  intros dev sgl nents dir attrs h sgl'. subst sgl'.
  unfold dma_direct_map_sg.
  destruct (map_sg_loop K A W dev nents [] (firstn nents sgl)
              (skipn nents sgl) dir attrs h) as [[r l'] tr] eqn:E.
  destruct (map_sg_loop_shape _ _ _ _ _ _ _ _ _ _ _ E)
    as (todo' & -> & Hshape & _).
  cbn [fst snd app].
  assert (Hlen : length todo' = length (firstn nents sgl)).
  { symmetry. eapply Forall2_length. exact Hshape. }
  split; [| split].
  - rewrite <- (firstn_skipn nents sgl) at 1.
    apply Forall2_app; [exact Hshape | apply same_segment_refl].
  - rewrite length_app, Hlen, <- length_app, firstn_skipn. reflexivity.
  - rewrite skipn_app, Hlen, length_firstn.
    rewrite skipn_all2 by (rewrite Hlen, length_firstn; lia).
    cbn [app].
    destruct (Nat.le_gt_cases nents (length sgl)) as [Hle | Hgt].
    + replace (nents - Nat.min nents (length sgl))%nat with 0%nat by lia.
      reflexivity.
    + rewrite (skipn_all2 sgl) by lia. apply skipn_nil.
Qed.

(** X12: when [dma_direct_map_sg] returns [nents], every one of the first
    [nents] entries carries a bus address other than [DMA_MAPPING_ERROR]
    and a mapped length equal to its length, which is what
    [dma_direct_unmap_sg] will later unmap. *)
Theorem map_sg_success_marks_segments :
  forall dev sgl nents dir attrs h,
    (nents <= length sgl)%nat ->
    fst (fst (dma_direct_map_sg K A W dev sgl nents dir attrs h))
    = Z.of_nat nents ->
    Forall (fun sg => dma_address sg <> DMA_MAPPING_ERROR /\
                      sg_dma_len K sg = sg_length sg)
      (firstn nents
         (snd (fst (dma_direct_map_sg K A W dev sgl nents dir attrs h)))).
Proof.
  intros dev sgl nents dir attrs h Hn.
  unfold dma_direct_map_sg.
  destruct (map_sg_loop K A W dev nents [] (firstn nents sgl)
              (skipn nents sgl) dir attrs h) as [[r l'] tr] eqn:E.
  destruct (map_sg_loop_shape _ _ _ _ _ _ _ _ _ _ _ E)
    as (todo' & -> & Hshape & Hres).
  cbn [fst snd app]. intros Hr.
  assert (Hlen : length todo' = nents).
  { rewrite <- (Forall2_length Hshape), length_firstn. lia. }
  destruct Hres as [[_ Hgood] | [Hr0 Hne]].
  - rewrite firstn_app, Hlen, Nat.sub_diag, firstn_O, app_nil_r.
    rewrite <- Hlen, firstn_all. exact Hgood.
  - exfalso. apply Hne. rewrite Hr0 in Hr.
    assert (H0 : nents = 0%nat) by lia. rewrite H0. reflexivity.
Qed.

End ScatterGatherShape.

Lemma map_sg_success_marks_segments_witness :
  let sgl := [mk_sg (2 ^ 20) 512; mk_sg (2 ^ 33) 512] in
  let out := dma_direct_map_sg linux_config flat_arch zoned_world
               dev32_noncoherent sgl 2 DMA_TO_DEVICE 0 [] in
  (2 <= length sgl)%nat /\
  fst (fst out) = Z.of_nat 2 /\
  Forall (fun sg => dma_address sg <> DMA_MAPPING_ERROR /\
                    sg_dma_len linux_config sg = sg_length sg)
    (firstn 2 (snd (fst out))).
Proof.
  split; [cbn; lia |]. split; [reflexivity |].
  apply (map_sg_success_marks_segments linux_config flat_arch zoned_world
           dev32_noncoherent [mk_sg (2 ^ 20) 512; mk_sg (2 ^ 33) 512] 2
           DMA_TO_DEVICE 0 []); [cbn; lia | reflexivity].
Defined.

(** ** Page rounding *)

Lemma PAGE_SIZE_pow (K : kconfig) :
  0 <= PAGE_SHIFT K -> PAGE_SIZE K = 2 ^ PAGE_SHIFT K.
Proof.
  intros Hs. unfold PAGE_SIZE. rewrite Z.shiftl_mul_pow2 by exact Hs. lia.
Qed.

(** [PAGE_ALIGN] rounds up to a whole number of pages, as long as the
    rounding does not leave the 64-bit range. *)
Lemma PAGE_ALIGN_round_up (K : kconfig) (x : Z) :
  0 <= PAGE_SHIFT K ->
  0 <= x -> x + PAGE_SIZE K - 1 < 2 ^ 64 ->
  PAGE_ALIGN K x = (x + PAGE_SIZE K - 1) / PAGE_SIZE K * PAGE_SIZE K.
Proof.
  intros Hs Hx Hhi. pose proof (PAGE_SIZE_pow K Hs) as HP.
  assert (Hpos : 0 < PAGE_SIZE K) by (rewrite HP; apply Z.pow_pos_nonneg; lia).
  unfold PAGE_ALIGN. set (y := x + PAGE_SIZE K - 1) in *.
  assert (Hy : 0 <= y < 2 ^ 64) by (subst y; lia).
  assert (Hu : u64 y = y) by (unfold u64; apply Z.mod_small; exact Hy).
  rewrite Hu.
  assert (Hones : PAGE_SIZE K - 1 = Z.ones (PAGE_SHIFT K)).
  { rewrite Z.ones_equiv, HP. lia. }
  rewrite Hones. unfold u64. rewrite <- Z.land_ones by lia.
  rewrite (Z.land_comm (Z.lnot _)), Z.land_assoc.
  rewrite (Z.land_ones y 64) by lia. rewrite (Z.mod_small y) by exact Hy.
  rewrite <- Z.ldiff_land, Z.ldiff_ones_r by exact Hs.
  rewrite Z.shiftr_div_pow2, Z.shiftl_mul_pow2 by exact Hs.
  rewrite HP. reflexivity.
Qed.

Lemma page_count_ceil (K : kconfig) (size : Z) :
  0 <= PAGE_SHIFT K ->
  0 <= size -> size + PAGE_SIZE K - 1 < 2 ^ 64 ->
  Z.shiftr (PAGE_ALIGN K size) (PAGE_SHIFT K)
  = (size + PAGE_SIZE K - 1) / PAGE_SIZE K.
Proof.
  intros Hs Hx Hhi. rewrite PAGE_ALIGN_round_up by assumption.
  rewrite Z.shiftr_div_pow2 by exact Hs.
  rewrite <- (PAGE_SIZE_pow K Hs).
  apply Z.div_mul. rewrite (PAGE_SIZE_pow K Hs).
  apply Z.pow_nonzero; lia.
Qed.

(** ** Addressing masks *)

Lemma required_mask_value (K : kconfig) (A : arch_ops) (E : kernel_env)
  (dev : device) :
  let max_dma := phys_to_dma_direct A dev (last_page_phys K E) in
  0 < max_dma < 2 ^ 64 ->
  dma_direct_get_required_mask K A E dev = 2 ^ (Z.log2 max_dma + 1) - 1 /\
  2 ^ Z.log2 max_dma <= max_dma < 2 ^ (Z.log2 max_dma + 1).
Proof.
  intros max_dma [Hpos Hhi].
  pose proof (Z.log2_spec max_dma Hpos) as [Hlo Hup].
  pose proof (Z.log2_nonneg max_dma) as Hnn.
  assert (Hlt : Z.log2 max_dma < 64) by (apply Z.log2_lt_pow2; lia).
  replace (Z.succ (Z.log2 max_dma)) with (Z.log2 max_dma + 1) in Hup by lia.
  split; [| split; assumption].
  unfold dma_direct_get_required_mask, rounddown_pow_of_two_u64.
  fold max_dma. unfold u64. rewrite Zminus_mod_idemp_l.
  replace (2 ^ Z.log2 max_dma * 2) with (2 ^ (Z.log2 max_dma + 1))
    by (rewrite Z.pow_add_r by lia; lia).
  apply Z.mod_small.
  assert (2 ^ (Z.log2 max_dma + 1) <= 2 ^ 64)
    by (apply Z.pow_le_mono_r; lia).
  assert (0 < 2 ^ (Z.log2 max_dma + 1)) by (apply Z.pow_pos_nonneg; lia).
  lia.
Qed.

(** X13: [dma_direct_get_required_mask] returns the smallest mask of the
    form [2^k - 1] that covers the bus address of the last page of RAM. *)
Theorem required_mask_is_smallest_cover :
  forall (K : kconfig) (A : arch_ops) (E : kernel_env) (dev : device),
    let max_dma := phys_to_dma_direct A dev (last_page_phys K E) in
    let mask := dma_direct_get_required_mask K A E dev in
    0 < max_dma < 2 ^ 64 ->
    mask = 2 ^ (Z.log2 max_dma + 1) - 1 /\
    max_dma <= mask /\
    (forall k, 0 <= k -> max_dma <= 2 ^ k - 1 -> mask <= 2 ^ k - 1).
Proof.
  intros K A E dev max_dma mask Hrange.
  destruct (required_mask_value K A E dev Hrange) as (Hmask & Hlo & Hup).
  fold max_dma in Hmask, Hlo, Hup. fold mask in Hmask.
  pose proof (Z.log2_nonneg max_dma) as Hnn.
  split; [exact Hmask |]. split; [lia |].
  intros k Hk Hcover. rewrite Hmask.
  assert (Hkk : Z.log2 max_dma < k).
  { apply (Z.pow_lt_mono_r_iff 2); lia. }
  assert (2 ^ (Z.log2 max_dma + 1) <= 2 ^ k)
    by (apply Z.pow_le_mono_r; lia).
  lia.
Qed.

Lemma required_mask_is_smallest_cover_witness :
  let max_dma := phys_to_dma_direct flat_arch dev32
                   (last_page_phys linux_config flat_env) in
  let mask := dma_direct_get_required_mask linux_config flat_arch flat_env
                dev32 in
  0 < max_dma < 2 ^ 64 /\
  mask = 2 ^ (Z.log2 max_dma + 1) - 1 /\
  max_dma <= mask /\
  (forall k, 0 <= k -> max_dma <= 2 ^ k - 1 -> mask <= 2 ^ k - 1).
Proof.
  split; [vm_compute; split; reflexivity |].
  apply (required_mask_is_smallest_cover linux_config flat_arch flat_env dev32).
  vm_compute; split; reflexivity.
Defined.

(** X14: a device that sets the mask [dma_direct_get_required_mask] asks
    for is accepted by [dma_direct_supported], provided the translation to
    bus addresses is monotonic and the encrypted view of an address is not
    below the plain one. *)
Theorem required_mask_is_supported :
  forall (K : kconfig) (A : arch_ops) (E : kernel_env) (dev : device),
    (forall p q, p <= q -> __phys_to_dma A dev p <= __phys_to_dma A dev q) ->
    (forall p, __phys_to_dma A dev p <= phys_to_dma A dev p) ->
    0 < phys_to_dma_direct A dev (last_page_phys K E) < 2 ^ 64 ->
    dma_direct_supported K A E dev (dma_direct_get_required_mask K A E dev)
    = true.
Proof.
  intros K A E dev Hmono Henc Hrange.
  destruct (required_mask_value K A E dev Hrange) as (Hmask & _ & Hup).
  assert (Hcover : phys_to_dma_direct A dev (last_page_phys K E)
                   <= dma_direct_get_required_mask K A E dev)
    by (rewrite Hmask; lia).
  unfold dma_direct_supported. apply Z.geb_le.
  set (m := Z.min _ (last_page_phys K E)).
  assert (Hm : m <= last_page_phys K E) by (subst m; lia).
  apply Z.le_trans with (__phys_to_dma A dev (last_page_phys K E));
    [apply Hmono; exact Hm |].
  apply Z.le_trans with (phys_to_dma_direct A dev (last_page_phys K E));
    [| exact Hcover].
  unfold phys_to_dma_direct.
  destruct (force_dma_unencrypted dev); [lia | apply Henc].
Qed.

Lemma required_mask_is_supported_witness :
  (forall p q, p <= q ->
     __phys_to_dma flat_arch dev32 p <= __phys_to_dma flat_arch dev32 q) /\
  (forall p, __phys_to_dma flat_arch dev32 p <= phys_to_dma flat_arch dev32 p) /\
  0 < phys_to_dma_direct flat_arch dev32 (last_page_phys linux_config flat_env)
    < 2 ^ 64 /\
  dma_direct_supported linux_config flat_arch flat_env dev32
    (dma_direct_get_required_mask linux_config flat_arch flat_env dev32)
  = true.
Proof.
  split; [intros p q H; exact H |]. split; [intros p; cbn; lia |].
  split; [vm_compute; split; reflexivity |].
  apply (required_mask_is_supported linux_config flat_arch flat_env dev32).
  - intros p q H. exact H.
  - intros p. cbn. lia.
  - vm_compute; split; reflexivity.
Defined.

(** X15: [dma_direct_supported] accepts every mask that covers the bus
    address of the last page of RAM, and every mask that covers the bus
    address of the 32-bit physical ceiling when [ZONE_DMA] is at most 32
    bits wide; a mask larger than an accepted one is accepted.  The
    translation to bus addresses is assumed monotonic. *)
Theorem supported_masks :
  forall (K : kconfig) (A : arch_ops) (E : kernel_env) (dev : device)
         (mask : Z),
    (forall p q, p <= q -> __phys_to_dma A dev p <= __phys_to_dma A dev q) ->
    (CONFIG_ZONE_DMA K = true -> 0 <= zone_dma_bits K <= 32) ->
    (__phys_to_dma A dev (last_page_phys K E) <= mask ->
     dma_direct_supported K A E dev mask = true) /\
    (__phys_to_dma A dev (DMA_BIT_MASK 32) <= mask ->
     dma_direct_supported K A E dev mask = true) /\
    (forall mask', mask <= mask' ->
       dma_direct_supported K A E dev mask = true ->
       dma_direct_supported K A E dev mask' = true).
Proof.
  intros K A E dev mask Hmono Hzone.
  unfold dma_direct_supported.
  set (zm := if CONFIG_ZONE_DMA K then DMA_BIT_MASK (zone_dma_bits K)
             else DMA_BIT_MASK 32).
  assert (Hzm : u64 zm <= DMA_BIT_MASK 32).
  { assert (H32 : DMA_BIT_MASK 32 = 2 ^ 32 - 1) by reflexivity.
    subst zm. destruct (CONFIG_ZONE_DMA K); [| vm_compute; discriminate].
    specialize (Hzone eq_refl). rewrite H32. unfold DMA_BIT_MASK.
    destruct (Z.eqb_spec (zone_dma_bits K) 64); [lia |].
    rewrite Z.shiftl_mul_pow2 by lia.
    assert (2 ^ zone_dma_bits K <= 2 ^ 32) by (apply Z.pow_le_mono_r; lia).
    assert (0 < 2 ^ zone_dma_bits K) by (apply Z.pow_pos_nonneg; lia).
    assert (2 ^ 32 < 2 ^ 64) by (apply Z.pow_lt_mono_r; lia).
    unfold u64. rewrite Z.mod_small; lia. }
  split; [| split].
  - intros Hm. apply Z.geb_le.
    apply Z.le_trans with (__phys_to_dma A dev (last_page_phys K E));
      [apply Hmono; lia | exact Hm].
  - intros Hm. apply Z.geb_le.
    apply Z.le_trans with (__phys_to_dma A dev (DMA_BIT_MASK 32));
      [apply Hmono; lia | exact Hm].
  - intros mask' Hle Hs. apply Z.geb_le. apply Z.geb_le in Hs. lia.
Qed.

Lemma supported_masks_witness :
  (forall p q, p <= q ->
     __phys_to_dma flat_arch dev32 p <= __phys_to_dma flat_arch dev32 q) /\
  (CONFIG_ZONE_DMA linux_config = true ->
   0 <= zone_dma_bits linux_config <= 32) /\
  (__phys_to_dma flat_arch dev32 (DMA_BIT_MASK 32) <= 2 ^ 32 - 1 ->
   dma_direct_supported linux_config flat_arch flat_env dev32 (2 ^ 32 - 1)
   = true).
Proof.
  split; [intros p q H; exact H |]. split; [intros _; cbn; lia |].
  apply (supported_masks linux_config flat_arch flat_env dev32 (2 ^ 32 - 1));
    [intros p q H; exact H | intros _; cbn; lia].
Defined.

(** ** Freeing what was allocated *)

Lemma core_events_app (t1 t2 : xtrace) :
  core_events (t1 ++ t2) = core_events t1 ++ core_events t2.
Proof. unfold core_events. apply flat_map_app. Qed.

Lemma core_events_lifted (t : trace) : core_events (map X_core t) = t.
Proof.
  induction t as [| e t IH]; [reflexivity |]. cbn. f_equal. exact IH.
Qed.

Section FreeAfterAlloc.

Variable K : kconfig.
Variable A : arch_ops.
Variable W : world.
Variable E : kernel_env.
Variable X : xworld.

(** What [dma_direct_free_pages] does with a kernel address that is not in
    the atomic pool: it ends by releasing the page found at the bus
    address. *)
Lemma free_pages_of_address (dev : device) (size va dma_addr attrs : Z)
  (hx : xtrace) :
  tst attrs (DMA_ATTR_NO_KERNEL_MAPPING K) && negb (force_dma_unencrypted dev)
  = false ->
  (forall hx' sz, w_dma_free_from_pool X hx' va sz = false) ->
  exists pre,
    dma_direct_free_pages K A E X dev size (KernelAddr va) dma_addr attrs hx
    = (Some tt,
       pre ++ [X_core (E_dma_free_contiguous
                         (dma_direct_to_page K A E dev dma_addr) size)]) /\
    core_events pre = [] /\
    existsb is_arch_dma_call pre = false.
Proof.
  intros Hcookie Hpool. unfold dma_direct_free_pages. rewrite Hcookie.
  unfold bindx, as_address, dma_free_from_pool, askx, retx, whenx,
    set_memory_encrypted, vunmap, emitx, lift, dma_free_contiguous, emit.
  exists ((if CONFIG_DMA_DIRECT_REMAP K
           then [X_dma_free_from_pool va (PAGE_ALIGN K size) false] else [])
          ++ (if force_dma_unencrypted dev
              then [X_set_memory_encrypted va (Z.shiftl 1 (get_order A size))]
              else [])
          ++ (if CONFIG_DMA_REMAP K && is_vmalloc_addr E va
              then [X_vunmap va] else [])).
  destruct (CONFIG_DMA_DIRECT_REMAP K); rewrite ?Hpool;
    destruct (force_dma_unencrypted dev); destruct (CONFIG_DMA_REMAP K);
    try destruct (is_vmalloc_addr E va); cbn;
    (split; [reflexivity | split; reflexivity]).
Qed.

(** X16: freeing a buffer with the size, device and attributes it was
    allocated with releases exactly the page the allocation kept, for a
    buffer that did not come from the atomic pool.  The call also accepts
    the pointer it is given: a page cookie is never used as an address.
    The page must be the one found at its bus address. *)
Theorem free_releases_allocated_page :
  forall fuel dev size gfp attrs h cpu handle tr hx,
    CONFIG_DMA_DIRECT_REMAP K && dma_alloc_need_uncached A dev attrs
    && negb (gfpflags_allow_blocking A gfp) = false ->
    dma_direct_alloc_pages K A W fuel dev size gfp attrs h
    = (Returned (Some (cpu, handle)), tr) ->
    (forall hx' va sz, w_dma_free_from_pool X hx' va sz = false) ->
    (forall p, In p (obtained_pages tr) ->
       dma_direct_to_page K A E dev
         (phys_to_dma_direct A dev (page_to_phys p)) = p) ->
    let out := dma_direct_free_pages K A E X dev size cpu handle attrs hx in
    exists p,
      obtained_pages tr = released_pages tr ++ [p] /\
      fst out = Some tt /\
      released_pages (core_events (snd out)) = [p] /\
      obtained_pages (core_events (snd out)) = [].
Proof.
  intros fuel dev size gfp attrs h cpu handle tr hx Hpool Ealloc Hnopool
    Hpage out.
  pose proof (coherent_alloc_outcome K A W _ _ _ _ _ _ _ _ Hpool Ealloc) as H.
  cbn beta iota in H. destruct H as (p & Hbal & Hhandle & _ & Hcpu).
  exists p. split; [exact Hbal |].
  assert (Hp : dma_direct_to_page K A E dev handle = p).
  { rewrite Hhandle. apply Hpage. rewrite Hbal, in_app_iff.
    right. left. reflexivity. }
  subst out.
  destruct (tst attrs (DMA_ATTR_NO_KERNEL_MAPPING K)
            && negb (force_dma_unencrypted dev)) eqn:Ecookie.
  - subst cpu. unfold dma_direct_free_pages. rewrite Ecookie.
    cbn. repeat split; reflexivity.
  - destruct Hcpu as [va ->].
    destruct (free_pages_of_address dev size va handle attrs hx Ecookie
                (fun hx' sz => Hnopool hx' va sz))
      as (pre & Efree & Hpre & _).
    rewrite Efree, Hp. cbn [fst snd].
    rewrite core_events_app, Hpre. cbn. repeat split; reflexivity.
Qed.

(** X17: [dma_direct_alloc] and [dma_direct_free] agree on who owns a
    buffer.  For a device and attributes that need the architecture's
    allocator, allocation is one call of [arch_dma_alloc] and freeing one
    call of [arch_dma_free], with no other collaborator involved;
    otherwise neither function calls the architecture. *)
Theorem arch_fallback_is_consistent :
  forall fuel dev size gfp attrs cpu dma_addr hx hx',
    let arch := negb (CONFIG_ARCH_HAS_UNCACHED_SEGMENT K)
                && negb (CONFIG_DMA_DIRECT_REMAP K)
                && dma_alloc_need_uncached A dev attrs in
    let ta := snd (dma_direct_alloc K A W X fuel dev size gfp attrs hx) in
    let tf := snd (dma_direct_free K A E X dev size cpu dma_addr attrs hx') in
    (arch = true ->
     ta = [X_arch_dma_alloc size gfp attrs
             (w_arch_dma_alloc X hx dev size gfp attrs)] /\
     tf = [X_arch_dma_free size cpu dma_addr attrs]) /\
    (arch = false ->
     existsb is_arch_dma_call ta = false /\
     existsb is_arch_dma_call tf = false).
Proof.
  intros fuel dev size gfp attrs cpu dma_addr hx hx' arch ta tf.
  subst ta tf. unfold dma_direct_alloc, dma_direct_free. fold arch.
  split; intros Harch; rewrite Harch.
  - split; reflexivity.
  - split.
    + unfold lift.
      destruct (dma_direct_alloc_pages K A W fuel dev size gfp attrs
                  (core_events hx)) as [o t]. cbn [snd].
      induction t as [| e t IH]; [reflexivity | exact IH].
    + unfold dma_direct_free_pages.
      unfold bindx, as_address, dma_free_from_pool, askx, retx, whenx,
        set_memory_encrypted, vunmap, emitx, lift, dma_free_contiguous, emit.
      destruct (tst attrs (DMA_ATTR_NO_KERNEL_MAPPING K)
                && negb (force_dma_unencrypted dev)), cpu as [va | p];
        try reflexivity.
      * destruct (CONFIG_DMA_DIRECT_REMAP K);
          [destruct (w_dma_free_from_pool X hx' va (PAGE_ALIGN K size)) |];
          try reflexivity;
          destruct (force_dma_unencrypted dev), (CONFIG_DMA_REMAP K);
          try destruct (is_vmalloc_addr E va); reflexivity.
      * destruct (CONFIG_DMA_DIRECT_REMAP K); [reflexivity |].
        destruct (force_dma_unencrypted dev); [reflexivity |].
        destruct (CONFIG_DMA_REMAP K); reflexivity.
Qed.

End FreeAfterAlloc.

Lemma free_releases_allocated_page_witness :
  let alloc := dma_direct_alloc_pages linux_config flat_arch zoned_world 3
                 dev32 4096 3264 0 [] in
  let out := dma_direct_free_pages linux_config flat_arch flat_env
               plain_xworld dev32 4096 (KernelAddr (page_address page_2g))
               (2 ^ 31) 0 [] in
  alloc = (Returned (Some (KernelAddr (page_address page_2g), 2 ^ 31)),
           snd alloc) /\
  exists p,
    obtained_pages (snd alloc) = released_pages (snd alloc) ++ [p] /\
    fst out = Some tt /\
    released_pages (core_events (snd out)) = [p] /\
    obtained_pages (core_events (snd out)) = [].
Proof.
  split; [reflexivity |].
  apply (free_releases_allocated_page linux_config flat_arch zoned_world
           flat_env plain_xworld 3 dev32 4096 3264 0 []
           (KernelAddr (page_address page_2g)) (2 ^ 31)
           (snd (dma_direct_alloc_pages linux_config flat_arch zoned_world 3
                   dev32 4096 3264 0 [])) []).
  - reflexivity.
  - reflexivity.
  - reflexivity.
  - intros p Hp. cbn in Hp. destruct Hp as [<- | []]. reflexivity.
Defined.

(** ** User mappings and scatter-gather tables of a coherent buffer *)

(** X18: [dma_direct_mmap] populates every request that starts inside the
    buffer and ends within it.  With [n] the number of pages of [size]
    rounded up, a request with [vm_pgoff < n] and at most [n - vm_pgoff]
    pages that the per-device coherent pool does not take over leads to one
    [remap_pfn_range] that starts [vm_pgoff] pages into the buffer, and the
    result of that call is returned. *)
Theorem mmap_populates_requests_in_range :
  forall (K : kconfig) (A : arch_ops) (W : world) (dev : device)
         (vma : vm_area_struct) (cpu dma_addr size attrs : Z) (h : trace),
    CONFIG_MMU K = true ->
    0 <= PAGE_SHIFT K ->
    0 <= size -> size + PAGE_SIZE K - 1 < 2 ^ 64 ->
    let n := (size + PAGE_SIZE K - 1) / PAGE_SIZE K in
    let vma' :=
      set_vm_page_prot (dma_pgprot A dev (vm_page_prot vma) attrs) vma in
    w_dma_mmap_from_dev_coherent W h dev vma' cpu size = None ->
    0 <= vm_pgoff vma < n ->
    vma_pages A vma <= n - vm_pgoff vma ->
    exists r,
      dma_direct_mmap K A W dev vma cpu dma_addr size attrs h
      = ((r, vma'),
         [E_dma_mmap_from_dev_coherent vma' cpu size None;
          E_remap_pfn_range vma' (vm_start vma)
            (u64 (PHYS_PFN K (dma_to_phys A dev dma_addr) + vm_pgoff vma))
            (u64 (Z.shiftl (vma_pages A vma) (PAGE_SHIFT K)))
            (dma_pgprot A dev (vm_page_prot vma) attrs) r]).
Proof.
  intros K A W dev vma cpu dma_addr size attrs h Hmmu Hs Hsize Hhi n vma'
    Hdecl Hoff Hcnt.
  pose proof (page_count_ceil K size Hs Hsize Hhi) as Hn. fold n in Hn.
  pose proof (page_count_range K size Hs) as Hrange. rewrite Hn in Hrange.
  unfold dma_direct_mmap. rewrite Hmmu, Hn. fold vma'.
  unfold bind, dma_mmap_from_dev_coherent, ask. rewrite Hdecl.
  change (vm_pgoff vma') with (vm_pgoff vma).
  change (vm_start vma') with (vm_start vma).
  change (vm_page_prot vma') with (dma_pgprot A dev (vm_page_prot vma) attrs).
  assert (Hu : u64 (n - vm_pgoff vma) = n - vm_pgoff vma)
    by (unfold u64; apply Z.mod_small; lia).
  rewrite Hu.
  destruct (Z.geb_spec (vm_pgoff vma) n) as [Hge | _]; [lia |].
  destruct (Z.gtb_spec (vma_pages A vma) (n - vm_pgoff vma)) as [Hgt | _];
    [lia |].
  cbn [orb]. unfold remap_pfn_range, ask, ret. cbn.
  eexists. reflexivity.
Qed.

Lemma mmap_populates_requests_in_range_witness :
  let vma := mk_vma 1 1 in
  let vma' :=
    set_vm_page_prot (dma_pgprot flat_arch dev32 (vm_page_prot vma) 0) vma in
  CONFIG_MMU linux_config = true /\
  0 <= PAGE_SHIFT linux_config /\
  0 <= 8192 /\ 8192 + PAGE_SIZE linux_config - 1 < 2 ^ 64 /\
  w_dma_mmap_from_dev_coherent zoned_world [] dev32 vma' 0 8192 = None /\
  0 <= vm_pgoff vma < (8192 + PAGE_SIZE linux_config - 1)
                      / PAGE_SIZE linux_config /\
  vma_pages flat_arch vma
  <= (8192 + PAGE_SIZE linux_config - 1) / PAGE_SIZE linux_config
     - vm_pgoff vma /\
  exists r,
    dma_direct_mmap linux_config flat_arch zoned_world dev32 vma 0 (2 ^ 20)
      8192 0 []
    = ((r, vma'),
       [E_dma_mmap_from_dev_coherent vma' 0 8192 None;
        E_remap_pfn_range vma' (vm_start vma)
          (u64 (PHYS_PFN linux_config (dma_to_phys flat_arch dev32 (2 ^ 20))
                + vm_pgoff vma))
          (u64 (Z.shiftl (vma_pages flat_arch vma) (PAGE_SHIFT linux_config)))
          (dma_pgprot flat_arch dev32 (vm_page_prot vma) 0) r]).
Proof.
  split; [reflexivity |]. split; [cbn; lia |]. split; [lia |].
  split; [reflexivity |]. split; [reflexivity |].
  split; [vm_compute; split; congruence |].
  split; [vm_compute; congruence |].
  apply (mmap_populates_requests_in_range linux_config flat_arch zoned_world
           dev32 (mk_vma 1 1) 0 (2 ^ 20) 8192 0 []);
    [reflexivity | cbn; lia | lia | reflexivity | reflexivity
     | vm_compute; split; congruence | vm_compute; congruence].
Defined.

(** X19: when [sg_alloc_table] succeeds, [dma_direct_get_sgtable] describes
    the buffer by one entry: the page found at the bus address, offset 0,
    and a length that is [size] rounded up to whole pages, so the entry
    covers the buffer.  When it fails, the error is returned and the table
    is left as [sg_alloc_table] left it. *)
Theorem get_sgtable_covers_buffer :
  forall (K : kconfig) (A : arch_ops) (E : kernel_env) (X : xworld)
         (dev : device) (cpu : cpu_addr) (dma_addr size attrs : Z)
         (hx : xtrace),
    0 <= PAGE_SHIFT K ->
    0 <= size -> size + PAGE_SIZE K - 1 < 2 ^ 64 ->
    let alloc := w_sg_alloc_table X hx 1 (GFP_KERNEL E) in
    let out := dma_direct_get_sgtable K A E X dev cpu dma_addr size attrs hx in
    fst (fst out) = fst alloc /\
    (fst alloc <> 0 -> snd (fst out) = snd alloc) /\
    (fst alloc = 0 ->
     forall sg0 rest, snd alloc = sg0 :: rest ->
       exists sg,
         snd (fst out) = sg :: rest /\
         sg_page sg = dma_direct_to_page K A E dev dma_addr /\
         offset sg = 0 /\
         size <= sg_length sg < size + PAGE_SIZE K /\
         sg_length sg mod PAGE_SIZE K = 0).
Proof.
  intros K A E X dev cpu dma_addr size attrs hx Hs Hsize Hhi alloc out.
  subst out. unfold dma_direct_get_sgtable, bindx, sg_alloc_table, askx.
  fold alloc. destruct alloc as [res sgl]. cbn [fst snd].
  destruct (Z.eqb_spec res 0) as [-> | Hne]; cbn [fst snd retx].
  - split; [reflexivity |]. split; [intros H; contradiction |].
    intros _ sg0 rest ->. cbn [sg_set_page].
    eexists. split; [reflexivity |]. cbn [sg_page offset sg_length].
    split; [reflexivity |]. split; [reflexivity |].
    rewrite PAGE_ALIGN_round_up by assumption.
    assert (Hpos : 0 < PAGE_SIZE K).
    { rewrite (PAGE_SIZE_pow K Hs). apply Z.pow_pos_nonneg; lia. }
    pose proof (Z.div_mod (size + PAGE_SIZE K - 1) (PAGE_SIZE K)
                  ltac:(lia)) as Hdm.
    pose proof (Z.mod_pos_bound (size + PAGE_SIZE K - 1) (PAGE_SIZE K) Hpos)
      as Hmod.
    split; [nia |]. apply Z.mod_mul. lia.
  - split; [reflexivity |]. split; [reflexivity |]. intros H; contradiction.
Qed.

Lemma get_sgtable_covers_buffer_witness :
  let alloc := w_sg_alloc_table plain_xworld [] 1 (GFP_KERNEL flat_env) in
  let out := dma_direct_get_sgtable linux_config flat_arch flat_env
               plain_xworld dev32 (KernelAddr (page_address page_2g))
               (2 ^ 31) 5000 0 [] in
  0 <= PAGE_SHIFT linux_config /\
  0 <= 5000 /\ 5000 + PAGE_SIZE linux_config - 1 < 2 ^ 64 /\
  fst (fst out) = fst alloc /\
  (fst alloc = 0 ->
   forall sg0 rest, snd alloc = sg0 :: rest ->
     exists sg,
       snd (fst out) = sg :: rest /\
       sg_page sg = dma_direct_to_page linux_config flat_arch flat_env dev32
                      (2 ^ 31) /\
       offset sg = 0 /\
       5000 <= sg_length sg < 5000 + PAGE_SIZE linux_config /\
       sg_length sg mod PAGE_SIZE linux_config = 0).
Proof.
  split; [cbn; lia |]. split; [lia |]. split; [reflexivity |].
  destruct (get_sgtable_covers_buffer linux_config flat_arch flat_env
              plain_xworld dev32 (KernelAddr (page_address page_2g))
              (2 ^ 31) 5000 0 []) as (H1 & _ & H3);
    [cbn; lia | lia | reflexivity |].
  split; [exact H1 | exact H3].
Defined.

(** ** Mapping a list the device reaches directly *)

Section DirectScatterGather.

Variable K : kconfig.
Variable A : arch_ops.
Variable W : world.

Lemma map_page_direct (dev : device) (sg : scatterlist)
  (dir : dma_data_direction) (attrs : Z) (h : trace) :
  dev_is_dma_coherent dev = true ->
  swiotlb_force K <> SWIOTLB_FORCE ->
  dma_capable A dev (direct_address A dev sg) (sg_length sg) true = true ->
  dma_direct_map_page K A W dev (sg_page sg) (offset sg) (sg_length sg)
    dir attrs h
  = (direct_address A dev sg, []).
Proof.
  intros Hcoh Hforce Hcap. unfold dma_direct_map_page, dma_direct_possible.
  fold (direct_address A dev sg). rewrite Hcap, Hcoh.
  destruct (swiotlb_force K); try contradiction; reflexivity.
Qed.

(** X20: on a cache-coherent device, without the bounce-pool force flag, a
    list whose segments are all within the device's reach is mapped
    without calling any collaborator: [dma_direct_map_sg] returns [nents]
    and writes into each of the first [nents] entries the direct
    translation of its physical address and its length. *)
Theorem map_sg_direct :
  forall dev sgl nents dir attrs h,
    dev_is_dma_coherent dev = true ->
    swiotlb_force K <> SWIOTLB_FORCE ->
    Forall (fun sg =>
              dma_capable A dev (direct_address A dev sg) (sg_length sg) true
              = true /\
              direct_address A dev sg <> DMA_MAPPING_ERROR)
      (firstn nents sgl) ->
    dma_direct_map_sg K A W dev sgl nents dir attrs h
    = ((Z.of_nat nents,
        map (fun sg =>
               set_sg_dma_len K (sg_length sg)
                 (set_dma_address (direct_address A dev sg) sg))
          (firstn nents sgl)
        ++ skipn nents sgl),
       []).
Proof.
  intros dev sgl nents dir attrs h Hcoh Hforce Hall.
  unfold dma_direct_map_sg.
  change (map _ (firstn nents sgl) ++ skipn nents sgl)
    with ([] ++ map (fun sg =>
                       set_sg_dma_len K (sg_length sg)
                         (set_dma_address (direct_address A dev sg) sg))
                  (firstn nents sgl) ++ skipn nents sgl).
  generalize (@nil scatterlist) as done. revert h.
  induction Hall as [| sg todo [Hcap Hok] Hall IH]; intros h done.
  - reflexivity.
  - cbn [map_sg_loop map]. unfold bind at 1.
    rewrite (map_page_direct dev sg dir attrs h Hcoh Hforce Hcap).
    destruct (Z.eqb_spec (direct_address A dev sg) DMA_MAPPING_ERROR);
      [contradiction |].
    change (sg_length (set_dma_address (direct_address A dev sg) sg))
      with (sg_length sg).
    rewrite IH. cbn [app]. rewrite <- app_assoc. reflexivity.
Qed.

End DirectScatterGather.

Lemma map_sg_direct_witness :
  let sgl := [mk_sg (2 ^ 20) 512; mk_sg (2 ^ 21) 512] in
  dev_is_dma_coherent dev32 = true /\
  swiotlb_force linux_config <> SWIOTLB_FORCE /\
  dma_direct_map_sg linux_config flat_arch zoned_world dev32 sgl 2
    DMA_TO_DEVICE 0 []
  = ((Z.of_nat 2,
      map (fun sg =>
             set_sg_dma_len linux_config (sg_length sg)
               (set_dma_address (direct_address flat_arch dev32 sg) sg))
        (firstn 2 sgl)
      ++ skipn 2 sgl),
     []).
Proof.
  split; [reflexivity |]. split; [discriminate |].
  apply (map_sg_direct linux_config flat_arch zoned_world dev32
           [mk_sg (2 ^ 20) 512; mk_sg (2 ^ 21) 512] 2 DMA_TO_DEVICE 0 []);
    [reflexivity | discriminate |].
  repeat constructor; discriminate.
Defined.
